(** * Storage service of databasus: a shallow embedding and its properties

    The development follows [backend/internal/features/storages/service.go].
    The service is embedded as explicit state passing over the persistent
    store.  What the service only reaches through an interface or a global
    (workspace authorization, attachment counter, field encryptor,
    configuration, variant validation and the connection probe) is a field
    of the service value, so that every theorem holds for all
    implementations of these collaborators. *)

From Stdlib Require Import List String Ascii NArith ZArith Bool Lia.
From Stdlib Require Import DecimalString.
Import ListNotations.
Local Open Scope string_scope.
Local Open Scope bool_scope.

Set Implicit Arguments.

(** ** Identifiers, users, errors *)

(** [uuid.UUID]: a 128-bit identifier.  The service only compares
    identifiers and tests them against [uuid.Nil], the all-zero value. *)
Definition UUID := N.
Definition uuid_Nil : UUID := 0%N.
Definition uuid_eqb (a b : UUID) : bool := N.eqb a b.

(** [users_enums.UserRole] and the part of [users_models.User] the service
    reads. *)
Inductive UserRole : Type := UserRoleAdmin | UserRoleMember.

Definition UserRole_eqb (a b : UserRole) : bool :=
  match a, b with
  | UserRoleAdmin, UserRoleAdmin | UserRoleMember, UserRoleMember => true
  | _, _ => false
  end.

Record User : Type := { user_ID : UUID; Role : UserRole }.

(** The sentinel errors of the package (errors.go), the repository's
    not-found error, and the two shapes of [fmt.Errorf] the service uses. *)
Inductive error : Type :=
| ErrInsufficientPermissionsToManageStorage
| ErrInsufficientPermissionsToViewStorage
| ErrInsufficientPermissionsToViewStorages
| ErrInsufficientPermissionsToTestStorage
| ErrInsufficientPermissionsInSourceWorkspace
| ErrInsufficientPermissionsInTargetWorkspace
| ErrStorageDoesNotBelongToWorkspace
| ErrStorageHasAttachedDatabases
| ErrStorageHasAttachedDatabasesCannotTransfer
| ErrStorageHasOtherAttachedDatabasesCannotTransfer
| ErrSystemStorageCannotBeTransferred
| ErrSystemStorageCannotBeMadePrivate
| ErrLocalStorageNotAllowedInCloudMode
| ErrRecordNotFound
| Errorf (msg : string)
| Wrapf (msg : string) (cause : error).

(** [err.Error()] *)
Fixpoint Error (e : error) : string :=
  match e with
  | ErrInsufficientPermissionsToManageStorage =>
      "insufficient permissions to manage storage in this workspace"
  | ErrInsufficientPermissionsToViewStorage =>
      "insufficient permissions to view storage in this workspace"
  | ErrInsufficientPermissionsToViewStorages =>
      "insufficient permissions to view storages in this workspace"
  | ErrInsufficientPermissionsToTestStorage =>
      "insufficient permissions to test storage in this workspace"
  | ErrInsufficientPermissionsInSourceWorkspace =>
      "insufficient permissions to manage storage in source workspace"
  | ErrInsufficientPermissionsInTargetWorkspace =>
      "insufficient permissions to manage storage in target workspace"
  | ErrStorageDoesNotBelongToWorkspace =>
      "storage does not belong to this workspace"
  | ErrStorageHasAttachedDatabases =>
      "storage has attached databases and cannot be deleted"
  | ErrStorageHasAttachedDatabasesCannotTransfer =>
      "storage has attached databases and cannot be transferred"
  | ErrStorageHasOtherAttachedDatabasesCannotTransfer =>
      "storage has other attached databases and cannot be transferred"
  | ErrSystemStorageCannotBeTransferred =>
      "system storage cannot be transferred between workspaces"
  | ErrSystemStorageCannotBeMadePrivate =>
      "system storage cannot be changed to non-system"
  | ErrLocalStorageNotAllowedInCloudMode =>
      "local storage can only be managed by administrators in cloud mode"
  | ErrRecordNotFound => "record not found"
  | Errorf msg => msg
  | Wrapf msg cause => msg ++ Error cause
  end.

(** The attachment-constraint errors of the taxonomy. *)
Definition isAttachmentConstraint (e : error) : bool :=
  match e with
  | ErrStorageHasAttachedDatabases
  | ErrStorageHasAttachedDatabasesCannotTransfer
  | ErrStorageHasOtherAttachedDatabasesCannotTransfer => true
  | _ => false
  end.

(** A Go result [(A, error)]. *)
Inductive Result (A : Type) : Type :=
| Ok (a : A)
| Err (e : error).
Arguments Ok {A} a.
Arguments Err {A} e.

Definition bindR {A B} (r : Result A) (k : A -> Result B) : Result B :=
  match r with
  | Ok a => k a
  | Err e => Err e
  end.

Declare Scope result_scope.
Delimit Scope result_scope with result.
Notation "x <-? r ;; k" := (bindR r (fun x => k))
  (at level 100, r at next level, right associativity) : result_scope.

(** ** The field encryptor *)

Module encryption.

(** The interface [encryption.FieldEncryptor]. *)
Record FieldEncryptor : Type := {
  Encrypt : UUID -> string -> Result string;
  Decrypt : UUID -> string -> Result string
}.

(** The ciphertext marker; the tests look for it with
    [strings.HasPrefix(value, "enc:")]. *)
Definition encryptedPrefix : string := "enc:".

Definition isEncrypted (value : string) : bool :=
  String.prefix encryptedPrefix value.

Definition isEmpty (value : string) : bool :=
  match value with
  | EmptyString => true
  | String _ _ => false
  end.

(** Modelled from the spec: the per-field step of every variant's
    [EncryptSensitiveData] (the variant models are not among the
    sources).  "For every non-empty sensitive field that is not already
    ciphertext, replace it with [encryptor.Encrypt(entityId, value)]". *)
Definition encryptField (encryptor : FieldEncryptor) (entityID : UUID)
    (value : string) : Result string :=
  if isEmpty value then Ok value
  else if isEncrypted value then Ok value
  else Encrypt encryptor entityID value.

(** Modelled from the spec: the per-field step of every variant's
    [Update] ([ApplyUpdate] in the spec).  "For each sensitive field, copy
    from incoming only if incoming's value is non-empty". *)
Definition updateField (current incoming : string) : string :=
  if isEmpty incoming then current else incoming.

End encryption.
Import encryption.

(** ** Variant payloads

    The variant models (packages [models/s3], [models/nas], ...) are not
    among the sources.  Their fields are those the tests and the client
    write; their three capabilities used by the service are modelled from
    the spec, in the pattern of the sibling [EmailNotifier] model.  Each
    module also names which of its fields are [sensitive] and which are
    [public], for the statements below. *)

Module local_storage.

(** [&local_storage.LocalStorage{}]: no configuration fields. *)
Inductive LocalStorage : Type := Build_LocalStorage.

Definition sensitive (l : LocalStorage) : list string := [].
Definition public (l : LocalStorage) : unit := tt.

(** Modelled from the spec: [HideSensitiveData] of the local variant. *)
Definition HideSensitiveData (l : LocalStorage) : LocalStorage := l.

(** Modelled from the spec: [Update] of the local variant. *)
Definition Update (l incoming : LocalStorage) : LocalStorage := incoming.

(** Modelled from the spec: [EncryptSensitiveData] of the local variant. *)
Definition EncryptSensitiveData (encryptor : FieldEncryptor)
    (entityID : UUID) (l : LocalStorage) : Result LocalStorage := Ok l.

End local_storage.

Module s3_storage.

Record S3Storage : Type := {
  S3Bucket : string;
  S3Region : string;
  S3AccessKey : string;
  S3SecretKey : string;
  S3Endpoint : string
}.

Definition sensitive (s : S3Storage) : list string :=
  [S3AccessKey s; S3SecretKey s].
Definition public (s : S3Storage) : string * string * string :=
  (S3Bucket s, S3Region s, S3Endpoint s).

(** Modelled from the spec: [HideSensitiveData] of the S3 variant. *)
Definition HideSensitiveData (s : S3Storage) : S3Storage :=
  {| S3Bucket := S3Bucket s;
     S3Region := S3Region s;
     S3AccessKey := "";
     S3SecretKey := "";
     S3Endpoint := S3Endpoint s |}.

(** Modelled from the spec: [Update] of the S3 variant. *)
Definition Update (s incoming : S3Storage) : S3Storage :=
  {| S3Bucket := S3Bucket incoming;
     S3Region := S3Region incoming;
     S3AccessKey := updateField (S3AccessKey s) (S3AccessKey incoming);
     S3SecretKey := updateField (S3SecretKey s) (S3SecretKey incoming);
     S3Endpoint := S3Endpoint incoming |}.

(** Modelled from the spec: [EncryptSensitiveData] of the S3 variant. *)
Definition EncryptSensitiveData (encryptor : FieldEncryptor)
    (entityID : UUID) (s : S3Storage) : Result S3Storage :=
  (accessKey <-? encryptField encryptor entityID (S3AccessKey s) ;;
   secretKey <-? encryptField encryptor entityID (S3SecretKey s) ;;
   Ok {| S3Bucket := S3Bucket s;
         S3Region := S3Region s;
         S3AccessKey := accessKey;
         S3SecretKey := secretKey;
         S3Endpoint := S3Endpoint s |})%result.

End s3_storage.

Module google_drive_storage.

Record GoogleDriveStorage : Type := {
  ClientID : string;
  ClientSecret : string;
  TokenJSON : string
}.

Definition sensitive (g : GoogleDriveStorage) : list string :=
  [ClientSecret g; TokenJSON g].
Definition public (g : GoogleDriveStorage) : string := ClientID g.

(** Modelled from the spec: [HideSensitiveData] of the Drive variant. *)
Definition HideSensitiveData (g : GoogleDriveStorage) : GoogleDriveStorage :=
  {| ClientID := ClientID g; ClientSecret := ""; TokenJSON := "" |}.

(** Modelled from the spec: [Update] of the Drive variant. *)
Definition Update (g incoming : GoogleDriveStorage) : GoogleDriveStorage :=
  {| ClientID := ClientID incoming;
     ClientSecret := updateField (ClientSecret g) (ClientSecret incoming);
     TokenJSON := updateField (TokenJSON g) (TokenJSON incoming) |}.

(** Modelled from the spec: [EncryptSensitiveData] of the Drive variant. *)
Definition EncryptSensitiveData (encryptor : FieldEncryptor)
    (entityID : UUID) (g : GoogleDriveStorage) : Result GoogleDriveStorage :=
  (clientSecret <-? encryptField encryptor entityID (ClientSecret g) ;;
   tokenJSON <-? encryptField encryptor entityID (TokenJSON g) ;;
   Ok {| ClientID := ClientID g;
         ClientSecret := clientSecret;
         TokenJSON := tokenJSON |})%result.

End google_drive_storage.

Module nas_storage.

Record NASStorage : Type := {
  Host : string;
  Port : Z;
  Share : string;
  Username : string;
  Password : string;
  UseSSL : bool;
  Domain : string;
  Path : string
}.

Definition sensitive (n : NASStorage) : list string := [Password n].
Definition public (n : NASStorage)
  : string * Z * string * string * bool * string * string :=
  (Host n, Port n, Share n, Username n, UseSSL n, Domain n, Path n).

(** Modelled from the spec: [HideSensitiveData] of the NAS variant. *)
Definition HideSensitiveData (n : NASStorage) : NASStorage :=
  {| Host := Host n; Port := Port n; Share := Share n;
     Username := Username n; Password := "";
     UseSSL := UseSSL n; Domain := Domain n; Path := Path n |}.

(** Modelled from the spec: [Update] of the NAS variant. *)
Definition Update (n incoming : NASStorage) : NASStorage :=
  {| Host := Host incoming; Port := Port incoming; Share := Share incoming;
     Username := Username incoming;
     Password := updateField (Password n) (Password incoming);
     UseSSL := UseSSL incoming; Domain := Domain incoming;
     Path := Path incoming |}.

(** Modelled from the spec: [EncryptSensitiveData] of the NAS variant. *)
Definition EncryptSensitiveData (encryptor : FieldEncryptor)
    (entityID : UUID) (n : NASStorage) : Result NASStorage :=
  (password <-? encryptField encryptor entityID (Password n) ;;
   Ok {| Host := Host n; Port := Port n; Share := Share n;
         Username := Username n; Password := password;
         UseSSL := UseSSL n; Domain := Domain n; Path := Path n |})%result.

End nas_storage.

Module azure_blob_storage.

Inductive AuthMethod : Type :=
| AuthMethodConnectionString
| AuthMethodAccountKey.

Record AzureBlobStorage : Type := {
  AuthMethod_ : AuthMethod;
  ConnectionString : string;
  AccountName : string;
  AccountKey : string;
  ContainerName : string;
  Endpoint : string;
  Prefix : string
}.

Definition sensitive (a : AzureBlobStorage) : list string :=
  [ConnectionString a; AccountKey a].
Definition public (a : AzureBlobStorage)
  : AuthMethod * string * string * string * string :=
  (AuthMethod_ a, AccountName a, ContainerName a, Endpoint a, Prefix a).

(** Modelled from the spec: [HideSensitiveData] of the Azure variant. *)
Definition HideSensitiveData (a : AzureBlobStorage) : AzureBlobStorage :=
  {| AuthMethod_ := AuthMethod_ a; ConnectionString := "";
     AccountName := AccountName a; AccountKey := "";
     ContainerName := ContainerName a; Endpoint := Endpoint a;
     Prefix := Prefix a |}.

(** Modelled from the spec: [Update] of the Azure variant. *)
Definition Update (a incoming : AzureBlobStorage) : AzureBlobStorage :=
  {| AuthMethod_ := AuthMethod_ incoming;
     ConnectionString :=
       updateField (ConnectionString a) (ConnectionString incoming);
     AccountName := AccountName incoming;
     AccountKey := updateField (AccountKey a) (AccountKey incoming);
     ContainerName := ContainerName incoming;
     Endpoint := Endpoint incoming;
     Prefix := Prefix incoming |}.

(** Modelled from the spec: [EncryptSensitiveData] of the Azure variant. *)
Definition EncryptSensitiveData (encryptor : FieldEncryptor)
    (entityID : UUID) (a : AzureBlobStorage) : Result AzureBlobStorage :=
  (connectionString <-?
     encryptField encryptor entityID (ConnectionString a) ;;
   accountKey <-? encryptField encryptor entityID (AccountKey a) ;;
   Ok {| AuthMethod_ := AuthMethod_ a;
         ConnectionString := connectionString;
         AccountName := AccountName a; AccountKey := accountKey;
         ContainerName := ContainerName a; Endpoint := Endpoint a;
         Prefix := Prefix a |})%result.

End azure_blob_storage.

Module ftp_storage.

Record FTPStorage : Type := {
  Host : string;
  Port : Z;
  Username : string;
  Password : string;
  UseSSL : bool;
  Path : string
}.

Definition sensitive (f : FTPStorage) : list string := [Password f].
Definition public (f : FTPStorage) : string * Z * string * bool * string :=
  (Host f, Port f, Username f, UseSSL f, Path f).

(** Modelled from the spec: [HideSensitiveData] of the FTP variant. *)
Definition HideSensitiveData (f : FTPStorage) : FTPStorage :=
  {| Host := Host f; Port := Port f; Username := Username f;
     Password := ""; UseSSL := UseSSL f; Path := Path f |}.

(** Modelled from the spec: [Update] of the FTP variant. *)
Definition Update (f incoming : FTPStorage) : FTPStorage :=
  {| Host := Host incoming; Port := Port incoming;
     Username := Username incoming;
     Password := updateField (Password f) (Password incoming);
     UseSSL := UseSSL incoming; Path := Path incoming |}.

(** Modelled from the spec: [EncryptSensitiveData] of the FTP variant. *)
Definition EncryptSensitiveData (encryptor : FieldEncryptor)
    (entityID : UUID) (f : FTPStorage) : Result FTPStorage :=
  (password <-? encryptField encryptor entityID (Password f) ;;
   Ok {| Host := Host f; Port := Port f; Username := Username f;
         Password := password; UseSSL := UseSSL f;
         Path := Path f |})%result.

End ftp_storage.

Module sftp_storage.

Record SFTPStorage : Type := {
  Host : string;
  Port : Z;
  Username : string;
  Password : string;
  PrivateKey : string;
  SkipHostKeyVerify : bool;
  Path : string
}.

Definition sensitive (f : SFTPStorage) : list string :=
  [Password f; PrivateKey f].
Definition public (f : SFTPStorage) : string * Z * string * bool * string :=
  (Host f, Port f, Username f, SkipHostKeyVerify f, Path f).

(** Modelled from the spec: [HideSensitiveData] of the SFTP variant. *)
Definition HideSensitiveData (f : SFTPStorage) : SFTPStorage :=
  {| Host := Host f; Port := Port f; Username := Username f;
     Password := ""; PrivateKey := "";
     SkipHostKeyVerify := SkipHostKeyVerify f; Path := Path f |}.

(** Modelled from the spec: [Update] of the SFTP variant. *)
Definition Update (f incoming : SFTPStorage) : SFTPStorage :=
  {| Host := Host incoming; Port := Port incoming;
     Username := Username incoming;
     Password := updateField (Password f) (Password incoming);
     PrivateKey := updateField (PrivateKey f) (PrivateKey incoming);
     SkipHostKeyVerify := SkipHostKeyVerify incoming;
     Path := Path incoming |}.

(** Modelled from the spec: [EncryptSensitiveData] of the SFTP variant. *)
Definition EncryptSensitiveData (encryptor : FieldEncryptor)
    (entityID : UUID) (f : SFTPStorage) : Result SFTPStorage :=
  (password <-? encryptField encryptor entityID (Password f) ;;
   privateKey <-? encryptField encryptor entityID (PrivateKey f) ;;
   Ok {| Host := Host f; Port := Port f; Username := Username f;
         Password := password; PrivateKey := privateKey;
         SkipHostKeyVerify := SkipHostKeyVerify f;
         Path := Path f |})%result.

End sftp_storage.

Module rclone_storage.

Record RcloneStorage : Type := {
  ConfigContent : string;
  RemotePath : string
}.

Definition sensitive (r : RcloneStorage) : list string := [ConfigContent r].
Definition public (r : RcloneStorage) : string := RemotePath r.

(** Modelled from the spec: [HideSensitiveData] of the Rclone variant. *)
Definition HideSensitiveData (r : RcloneStorage) : RcloneStorage :=
  {| ConfigContent := ""; RemotePath := RemotePath r |}.

(** Modelled from the spec: [Update] of the Rclone variant. *)
Definition Update (r incoming : RcloneStorage) : RcloneStorage :=
  {| ConfigContent := updateField (ConfigContent r) (ConfigContent incoming);
     RemotePath := RemotePath incoming |}.

(** Modelled from the spec: [EncryptSensitiveData] of the Rclone variant. *)
Definition EncryptSensitiveData (encryptor : FieldEncryptor)
    (entityID : UUID) (r : RcloneStorage) : Result RcloneStorage :=
  (configContent <-? encryptField encryptor entityID (ConfigContent r) ;;
   Ok {| ConfigContent := configContent;
         RemotePath := RemotePath r |})%result.

End rclone_storage.

(** ** The storage aggregate *)

Inductive StorageType : Type :=
| StorageTypeLocal
| StorageTypeS3
| StorageTypeGoogleDrive
| StorageTypeNAS
| StorageTypeAzureBlob
| StorageTypeFTP
| StorageTypeSFTP
| StorageTypeRclone.

Definition StorageType_eqb (a b : StorageType) : bool :=
  match a, b with
  | StorageTypeLocal, StorageTypeLocal
  | StorageTypeS3, StorageTypeS3
  | StorageTypeGoogleDrive, StorageTypeGoogleDrive
  | StorageTypeNAS, StorageTypeNAS
  | StorageTypeAzureBlob, StorageTypeAzureBlob
  | StorageTypeFTP, StorageTypeFTP
  | StorageTypeSFTP, StorageTypeSFTP
  | StorageTypeRclone, StorageTypeRclone => true
  | _, _ => false
  end.

(** The struct [Storage], as the service, the tests and the client use it:
    shared fields and eight nullable variant payloads. *)
Record Storage : Type := {
  ID : UUID;
  WorkspaceID : UUID;
  Type_ : StorageType;
  Name : string;
  LastSaveError : option string;
  IsSystem : bool;
  LocalStorage : option local_storage.LocalStorage;
  S3Storage : option s3_storage.S3Storage;
  GoogleDriveStorage : option google_drive_storage.GoogleDriveStorage;
  NASStorage : option nas_storage.NASStorage;
  AzureBlobStorage : option azure_blob_storage.AzureBlobStorage;
  FTPStorage : option ftp_storage.FTPStorage;
  SFTPStorage : option sftp_storage.SFTPStorage;
  RcloneStorage : option rclone_storage.RcloneStorage
}.

(** Field assignments the service performs on a loaded record. *)
Definition set_ID (id : UUID) (s : Storage) : Storage :=
  {| ID := id; WorkspaceID := WorkspaceID s; Type_ := Type_ s;
     Name := Name s; LastSaveError := LastSaveError s;
     IsSystem := IsSystem s; LocalStorage := LocalStorage s;
     S3Storage := S3Storage s; GoogleDriveStorage := GoogleDriveStorage s;
     NASStorage := NASStorage s; AzureBlobStorage := AzureBlobStorage s;
     FTPStorage := FTPStorage s; SFTPStorage := SFTPStorage s;
     RcloneStorage := RcloneStorage s |}.

Definition set_WorkspaceID (workspaceID : UUID) (s : Storage) : Storage :=
  {| ID := ID s; WorkspaceID := workspaceID; Type_ := Type_ s;
     Name := Name s; LastSaveError := LastSaveError s;
     IsSystem := IsSystem s; LocalStorage := LocalStorage s;
     S3Storage := S3Storage s; GoogleDriveStorage := GoogleDriveStorage s;
     NASStorage := NASStorage s; AzureBlobStorage := AzureBlobStorage s;
     FTPStorage := FTPStorage s; SFTPStorage := SFTPStorage s;
     RcloneStorage := RcloneStorage s |}.

Definition set_LastSaveError (lastSaveError : option string) (s : Storage)
  : Storage :=
  {| ID := ID s; WorkspaceID := WorkspaceID s; Type_ := Type_ s;
     Name := Name s; LastSaveError := lastSaveError;
     IsSystem := IsSystem s; LocalStorage := LocalStorage s;
     S3Storage := S3Storage s; GoogleDriveStorage := GoogleDriveStorage s;
     NASStorage := NASStorage s; AzureBlobStorage := AzureBlobStorage s;
     FTPStorage := FTPStorage s; SFTPStorage := SFTPStorage s;
     RcloneStorage := RcloneStorage s |}.

(** Modelled from the spec: [Storage.HideSensitiveData] (model.go is not
    among the sources).  "Replace every sensitive field's stored value with
    empty string, in place": each payload that is present hides its own. *)
Definition HideSensitiveData (s : Storage) : Storage :=
  {| ID := ID s; WorkspaceID := WorkspaceID s; Type_ := Type_ s;
     Name := Name s; LastSaveError := LastSaveError s;
     IsSystem := IsSystem s;
     LocalStorage :=
       option_map local_storage.HideSensitiveData (LocalStorage s);
     S3Storage := option_map s3_storage.HideSensitiveData (S3Storage s);
     GoogleDriveStorage :=
       option_map google_drive_storage.HideSensitiveData
         (GoogleDriveStorage s);
     NASStorage := option_map nas_storage.HideSensitiveData (NASStorage s);
     AzureBlobStorage :=
       option_map azure_blob_storage.HideSensitiveData (AzureBlobStorage s);
     FTPStorage := option_map ftp_storage.HideSensitiveData (FTPStorage s);
     SFTPStorage := option_map sftp_storage.HideSensitiveData (SFTPStorage s);
     RcloneStorage :=
       option_map rclone_storage.HideSensitiveData (RcloneStorage s) |}.

(** Modelled from the spec: [Storage.HideAllData] (model.go is not among
    the sources).  It "nulls out the entire variant payload (not just
    secrets)"; the test asserts that all eight payloads are nil. *)
Definition HideAllData (s : Storage) : Storage :=
  {| ID := ID s; WorkspaceID := WorkspaceID s; Type_ := Type_ s;
     Name := Name s; LastSaveError := LastSaveError s;
     IsSystem := IsSystem s;
     LocalStorage := None; S3Storage := None; GoogleDriveStorage := None;
     NASStorage := None; AzureBlobStorage := None; FTPStorage := None;
     SFTPStorage := None; RcloneStorage := None |}.

(** Modelled from the spec: the per-payload step of [Storage.Update].  A
    payload of the stored record is updated from the incoming one of the
    same kind; a kind the stored record does not carry yet is taken from
    the incoming record as it is, and a kind the incoming record does not
    carry is dropped ("changing type must null out all other variant
    payloads"). *)
Definition updatePayload {P : Type} (update : P -> P -> P)
    (current incoming : option P) : option P :=
  match current, incoming with
  | Some c, Some i => Some (update c i)
  | _, _ => incoming
  end.

(** Modelled from the spec: [Storage.Update] (model.go is not among the
    sources).  The full-record save carries name, type and visibility
    class; identity, owning workspace and the last probe error stay. *)
Definition Update (s incoming : Storage) : Storage :=
  {| ID := ID s; WorkspaceID := WorkspaceID s; Type_ := Type_ incoming;
     Name := Name incoming; LastSaveError := LastSaveError s;
     IsSystem := IsSystem incoming;
     LocalStorage :=
       updatePayload local_storage.Update
         (LocalStorage s) (LocalStorage incoming);
     S3Storage :=
       updatePayload s3_storage.Update (S3Storage s) (S3Storage incoming);
     GoogleDriveStorage :=
       updatePayload google_drive_storage.Update
         (GoogleDriveStorage s) (GoogleDriveStorage incoming);
     NASStorage :=
       updatePayload nas_storage.Update (NASStorage s) (NASStorage incoming);
     AzureBlobStorage :=
       updatePayload azure_blob_storage.Update
         (AzureBlobStorage s) (AzureBlobStorage incoming);
     FTPStorage :=
       updatePayload ftp_storage.Update (FTPStorage s) (FTPStorage incoming);
     SFTPStorage :=
       updatePayload sftp_storage.Update
         (SFTPStorage s) (SFTPStorage incoming);
     RcloneStorage :=
       updatePayload rclone_storage.Update
         (RcloneStorage s) (RcloneStorage incoming) |}.

(** Modelled from the spec: the per-payload step of
    [Storage.EncryptSensitiveData]; an absent payload has nothing to
    encrypt. *)
Definition encryptPayload {P : Type} (encrypt : P -> Result P)
    (payload : option P) : Result (option P) :=
  match payload with
  | None => Ok None
  | Some p => bindR (encrypt p) (fun p' => Ok (Some p'))
  end.

(** Modelled from the spec: [Storage.EncryptSensitiveData] (model.go is
    not among the sources).  The service passes the encryptor only, so the
    entity id is the receiver's own id; the first failing field aborts the
    whole operation.  On the create path the record has no id yet when the
    service calls this; what the variants bind to then is not visible in
    the sources, and no statement below depends on it. *)
Definition EncryptSensitiveData (encryptor : FieldEncryptor) (s : Storage)
  : Result Storage :=
  (localStorage <-?
     encryptPayload (local_storage.EncryptSensitiveData encryptor (ID s))
       (LocalStorage s) ;;
   s3Storage <-?
     encryptPayload (s3_storage.EncryptSensitiveData encryptor (ID s))
       (S3Storage s) ;;
   googleDriveStorage <-?
     encryptPayload
       (google_drive_storage.EncryptSensitiveData encryptor (ID s))
       (GoogleDriveStorage s) ;;
   nasStorage <-?
     encryptPayload (nas_storage.EncryptSensitiveData encryptor (ID s))
       (NASStorage s) ;;
   azureBlobStorage <-?
     encryptPayload (azure_blob_storage.EncryptSensitiveData encryptor (ID s))
       (AzureBlobStorage s) ;;
   ftpStorage <-?
     encryptPayload (ftp_storage.EncryptSensitiveData encryptor (ID s))
       (FTPStorage s) ;;
   sftpStorage <-?
     encryptPayload (sftp_storage.EncryptSensitiveData encryptor (ID s))
       (SFTPStorage s) ;;
   rcloneStorage <-?
     encryptPayload (rclone_storage.EncryptSensitiveData encryptor (ID s))
       (RcloneStorage s) ;;
   Ok {| ID := ID s; WorkspaceID := WorkspaceID s; Type_ := Type_ s;
         Name := Name s; LastSaveError := LastSaveError s;
         IsSystem := IsSystem s;
         LocalStorage := localStorage; S3Storage := s3Storage;
         GoogleDriveStorage := googleDriveStorage; NASStorage := nasStorage;
         AzureBlobStorage := azureBlobStorage; FTPStorage := ftpStorage;
         SFTPStorage := sftpStorage; RcloneStorage := rcloneStorage |})%result.

(** ** Persistent state *)

(** One entry of the audit sink: [WriteAuditLog(message, userID,
    workspaceID)]. *)
Record AuditLog : Type := {
  audit_message : string;
  audit_userID : option UUID;
  audit_workspaceID : option UUID
}.

(** What the service persists: the rows of the storage table, in the order
    the repository lists them, and the audit log. *)
Record World : Type := {
  storages : list Storage;
  auditLogs : list AuditLog
}.

(** A Go method with side effects on the store: it returns a value or an
    error, and the store as it left it.  An error does not roll anything
    back. *)
Definition M (A : Type) : Type := World -> Result A * World.

Definition ret {A} (a : A) : M A := fun w => (Ok a, w).

Definition fail {A} (e : error) : M A := fun w => (Err e, w).

Definition bind {A B} (m : M A) (k : A -> M B) : M B :=
  fun w =>
    match m w with
    | (Ok a, w') => k a w'
    | (Err e, w') => (Err e, w')
    end.

Definition liftR {A} (r : Result A) : M A := fun w => (r, w).

(** A method returning only [error]: [nil] lets the caller go on. *)
Definition check (r : option error) : M unit :=
  fun w =>
    match r with
    | None => (Ok tt, w)
    | Some e => (Err e, w)
    end.

Declare Scope go_scope.
Delimit Scope go_scope with go.
Notation "x <- m ;; k" := (bind m (fun x => k))
  (at level 100, m at next level, right associativity) : go_scope.
Notation "m ;;; k" := (bind m (fun _ => k))
  (at level 100, right associativity) : go_scope.

Module StorageRepository.

Definition hasID (id : UUID) (row : Storage) : bool := uuid_eqb (ID row) id.

(** Modelled from the spec: [StorageRepository.FindByID] (the repository is
    not among the sources).  The row with this primary key, loaded into a
    fresh value, or the not-found error. *)
Definition FindByID (id : UUID) : M Storage :=
  fun w =>
    match find (hasID id) (storages w) with
    | Some row => (Ok row, w)
    | None => (Err ErrRecordNotFound, w)
    end.

(** Modelled from the spec: [StorageRepository.FindByWorkspaceID].  The
    rows a workspace sees: its own, and every system storage ("the record
    is visible to all workspaces"; the deletion hook meets system storages
    of other workspaces in this list). *)
Definition FindByWorkspaceID (workspaceID : UUID) : M (list Storage) :=
  fun w =>
    (Ok (filter
           (fun row => uuid_eqb (WorkspaceID row) workspaceID || IsSystem row)
           (storages w)),
     w).

(** An identifier no row carries, and not [uuid.Nil]. *)
Definition nextID (rows : list Storage) : UUID :=
  N.succ (fold_right N.max 0%N (map ID rows)).

Fixpoint replaceRow (s : Storage) (rows : list Storage) : list Storage :=
  match rows with
  | [] => []
  | row :: rest =>
      if hasID (ID s) row then s :: rest else row :: replaceRow s rest
  end.

(** Modelled from the spec: [StorageRepository.Save].  "[id]: assigned on
    first persist"; a record that has an id replaces the row with that id,
    or becomes a new row. *)
Definition Save (s : Storage) : M Storage :=
  fun w =>
    if uuid_eqb (ID s) uuid_Nil then
      let created := set_ID (nextID (storages w)) s in
      (Ok created,
       {| storages := storages w ++ [created]; auditLogs := auditLogs w |})
    else if existsb (hasID (ID s)) (storages w) then
      (Ok s,
       {| storages := replaceRow s (storages w); auditLogs := auditLogs w |})
    else
      (Ok s, {| storages := storages w ++ [s]; auditLogs := auditLogs w |}).

(** Modelled from the spec: [StorageRepository.Delete].  The row with the
    record's id is removed. *)
Definition Delete (s : Storage) : M unit :=
  fun w =>
    (Ok tt,
     {| storages := filter (fun row => negb (hasID (ID s) row)) (storages w);
        auditLogs := auditLogs w |}).

End StorageRepository.

Module audit_logs.

(** Modelled from the spec: [AuditLogService.WriteAuditLog] (the audit
    sink is an external collaborator); it appends and reports nothing. *)
Definition WriteAuditLog (message : string) (userID workspaceID : option UUID)
  : M unit :=
  fun w =>
    (Ok tt,
     {| storages := storages w;
        auditLogs :=
          auditLogs w ++
          [{| audit_message := message; audit_userID := userID;
              audit_workspaceID := workspaceID |}] |}).

End audit_logs.

(** ** Collaborators of the service *)

Module workspaces_services.

(** [users_enums.WorkspaceRole], the second result of
    [CanUserAccessWorkspace]; the storage service discards it. *)
Inductive WorkspaceRole : Type :=
| WorkspaceRoleOwner
| WorkspaceRoleAdmin
| WorkspaceRoleMember
| WorkspaceRoleViewer.

(** The two methods of [workspaces_services.WorkspaceService] the storage
    service calls. *)
Record WorkspaceService : Type := {
  CanUserManageDBs : UUID -> User -> Result bool;
  CanUserAccessWorkspace : UUID -> User -> Result (bool * option WorkspaceRole)
}.

End workspaces_services.

(** The interface [StorageDatabaseCounter]. *)
Record StorageDatabaseCounter : Type := {
  GetStorageAttachedDatabasesIDs : UUID -> Result (list UUID)
}.

(** The struct [StorageService].  Its repository and audit sink are the
    [World] the methods run in.  The last three fields are not fields of
    the Go struct: they stand for the global [config.GetEnv().IsCloud] and
    for the methods [Storage.Validate] and [Storage.TestConnection], whose
    bodies (required-field rules, network probes) are outside the
    service. *)
Record StorageService : Type := {
  workspaceService : workspaces_services.WorkspaceService;
  fieldEncryptor : FieldEncryptor;
  storageDatabaseCounter : StorageDatabaseCounter;
  IsCloud : bool;
  Validate : FieldEncryptor -> Storage -> option error;
  TestConnection : FieldEncryptor -> Storage -> option error
}.

(** ** The service (service.go) *)

Import StorageRepository audit_logs workspaces_services.
Local Open Scope go_scope.

(** A hexadecimal digit, in lower case. *)
Definition hexDigit (n : N) : ascii :=
  match n with
  | 0%N => "0" | 1%N => "1" | 2%N => "2" | 3%N => "3" | 4%N => "4"
  | 5%N => "5" | 6%N => "6" | 7%N => "7" | 8%N => "8" | 9%N => "9"
  | 10%N => "a" | 11%N => "b" | 12%N => "c" | 13%N => "d" | 14%N => "e"
  | _ => "f"
  end%char.

(** The [k] lowest hexadecimal digits of [n], most significant first,
    in front of [rest]. *)
Fixpoint hexDigits (k : nat) (n : N) (rest : string) : string :=
  match k with
  | O => rest
  | S k' =>
      hexDigits k' (N.shiftr n 4) (String (hexDigit (N.land n 15)) rest)
  end.

(** [%s] of an identifier in a message: [uuid.UUID.String], the sixteen
    bytes in hexadecimal, grouped 8-4-4-4-12.  The identifier is read as
    the big-endian number of its bytes.  Only messages contain it, and
    proofs keep it folded. *)
Definition uuid_String (id : UUID) : string :=
  hexDigits 8 (N.shiftr id 96)
    (String "-" (hexDigits 4 (N.shiftr id 80)
       (String "-" (hexDigits 4 (N.shiftr id 64)
          (String "-" (hexDigits 4 (N.shiftr id 48)
             (String "-" (hexDigits 12 id EmptyString)))))))).

#[global] Opaque uuid_String.

(** [fmt.Errorf("...: %w", err)] around a call. *)
Definition wrapf {A} (msg : string) (m : M A) : M A :=
  fun w =>
    match m w with
    | (Ok a, w') => (Ok a, w')
    | (Err e, w') => (Err (Wrapf msg e), w')
    end.

(** [user.Role != users_enums.UserRoleAdmin] *)
Definition notAdmin (user : User) : bool :=
  negb (UserRole_eqb (Role user) UserRoleAdmin).

(** The body of the [for _, storage := range storages] loop of
    [OnBeforeWorkspaceDeletion]. *)
Fixpoint deleteWorkspaceStorages (workspaceID : UUID)
    (storages : list Storage) : M unit :=
  match storages with
  | [] => ret tt
  | storage :: rest =>
      if IsSystem storage && negb (uuid_eqb (WorkspaceID storage) workspaceID)
      then
        (* skip system storage from another workspace *)
        deleteWorkspaceStorages workspaceID rest
      else if IsSystem storage && uuid_eqb (WorkspaceID storage) workspaceID
      then
        fail (Errorf
          "system storage cannot be deleted due to workspace deletion, please transfer or remove storage first")
      else
        wrapf ("failed to delete storage " ++ uuid_String (ID storage) ++ ": ")
          (Delete storage) ;;;
        deleteWorkspaceStorages workspaceID rest
  end.

Definition OnBeforeWorkspaceDeletion (s : StorageService) (workspaceID : UUID)
  : M unit :=
  storages <-
    wrapf "failed to get storages for workspace deletion: "
      (FindByWorkspaceID workspaceID) ;;
  deleteWorkspaceStorages workspaceID storages.

Definition SaveStorage (s : StorageService) (user : User) (workspaceID : UUID)
    (storage : Storage) : M unit :=
  canManage <- liftR (CanUserManageDBs (workspaceService s) workspaceID user) ;;
  if negb canManage then fail ErrInsufficientPermissionsToManageStorage
  else if IsCloud s && StorageType_eqb (Type_ storage) StorageTypeLocal
          && notAdmin user
  then fail ErrLocalStorageNotAllowedInCloudMode
  else
    let isUpdate := negb (uuid_eqb (ID storage) uuid_Nil) in
    if IsSystem storage && notAdmin user then
      (* only admin can manage system storage *)
      fail ErrInsufficientPermissionsToManageStorage
    else if isUpdate then
      existingStorage <- FindByID (ID storage) ;;
      if negb (uuid_eqb (WorkspaceID existingStorage) workspaceID) then
        fail ErrStorageDoesNotBelongToWorkspace
      else if IsSystem existingStorage && negb (IsSystem storage) then
        fail ErrSystemStorageCannotBeMadePrivate
      else
        let existingStorage := Update existingStorage storage in
        existingStorage <-
          liftR (EncryptSensitiveData (fieldEncryptor s) existingStorage) ;;
        check (Validate s (fieldEncryptor s) existingStorage) ;;;
        Save existingStorage ;;;
        WriteAuditLog ("Storage updated: " ++ Name existingStorage)
          (Some (user_ID user)) (Some workspaceID)
    else
      let storage := set_WorkspaceID workspaceID storage in
      storage <- liftR (EncryptSensitiveData (fieldEncryptor s) storage) ;;
      check (Validate s (fieldEncryptor s) storage) ;;;
      Save storage ;;;
      WriteAuditLog ("Storage created: " ++ Name storage)
        (Some (user_ID user)) (Some workspaceID).

Definition DeleteStorage (s : StorageService) (user : User) (storageID : UUID)
  : M unit :=
  storage <- FindByID storageID ;;
  canManage <-
    liftR (CanUserManageDBs (workspaceService s) (WorkspaceID storage) user) ;;
  if negb canManage then fail ErrInsufficientPermissionsToManageStorage
  else if IsSystem storage && notAdmin user then
    (* only admin can manage system storage *)
    fail ErrInsufficientPermissionsToManageStorage
  else
    attachedDatabasesIDs <-
      liftR (GetStorageAttachedDatabasesIDs (storageDatabaseCounter s)
               (ID storage)) ;;
    if (0 <? List.length attachedDatabasesIDs)%nat then
      fail ErrStorageHasAttachedDatabases
    else
      Delete storage ;;;
      WriteAuditLog ("Storage deleted: " ++ Name storage)
        (Some (user_ID user)) (Some (WorkspaceID storage)).

Definition GetStorage (s : StorageService) (user : User) (id : UUID)
  : M Storage :=
  storage <- FindByID id ;;
  (if negb (IsSystem storage) then
     access <-
       liftR (CanUserAccessWorkspace (workspaceService s)
                (WorkspaceID storage) user) ;;
     let (canView, _) := access in
     if negb canView then fail ErrInsufficientPermissionsToViewStorage
     else ret tt
   else ret tt) ;;;
  let storage := HideSensitiveData storage in
  let storage :=
    if IsSystem storage && notAdmin user then HideAllData storage
    else storage in
  ret storage.

Definition GetStorages (s : StorageService) (user : User) (workspaceID : UUID)
  : M (list Storage) :=
  access <-
    liftR (CanUserAccessWorkspace (workspaceService s) workspaceID user) ;;
  let (canView, _) := access in
  if negb canView then fail ErrInsufficientPermissionsToViewStorages
  else
    storages <- FindByWorkspaceID workspaceID ;;
    ret (map
           (fun storage =>
              let storage := HideSensitiveData storage in
              if IsSystem storage && notAdmin user then HideAllData storage
              else storage)
           storages).

Definition TestStorageConnection (s : StorageService) (user : User)
    (storageID : UUID) : M unit :=
  storage <- FindByID storageID ;;
  access <-
    liftR (CanUserAccessWorkspace (workspaceService s)
             (WorkspaceID storage) user) ;;
  let (canView, _) := access in
  if negb canView then fail ErrInsufficientPermissionsToTestStorage
  else
    match TestConnection s (fieldEncryptor s) storage with
    | Some err =>
        let lastSaveError := Error err in
        let storage := set_LastSaveError (Some lastSaveError) storage in
        (* the loaded record is assigned to and then dropped *)
        fail err
    | None =>
        let storage := set_LastSaveError None storage in
        Save storage ;;;
        ret tt
    end.

Definition TestStorageConnectionDirect (s : StorageService) (user : User)
    (storage : Storage) : M unit :=
  if IsCloud s && StorageType_eqb (Type_ storage) StorageTypeLocal
     && notAdmin user
  then fail ErrLocalStorageNotAllowedInCloudMode
  else
    usingStorage <-
      (if negb (uuid_eqb (ID storage) uuid_Nil) then
         existingStorage <- FindByID (ID storage) ;;
         if negb (uuid_eqb (WorkspaceID existingStorage) (WorkspaceID storage))
         then fail ErrStorageDoesNotBelongToWorkspace
         else
           let existingStorage := Update existingStorage storage in
           check (Validate s (fieldEncryptor s) existingStorage) ;;;
           ret existingStorage
       else ret storage) ;;
    check (TestConnection s (fieldEncryptor s) usingStorage).

Definition GetStorageByID (s : StorageService) (id : UUID) : M Storage :=
  FindByID id.

Definition TransferStorageToWorkspace (s : StorageService) (user : User)
    (storageID targetWorkspaceID : UUID) (transferingWithDbID : option UUID)
  : M unit :=
  existingStorage <- FindByID storageID ;;
  if IsSystem existingStorage then fail ErrSystemStorageCannotBeTransferred
  else
    canManageSource <-
      liftR (CanUserManageDBs (workspaceService s)
               (WorkspaceID existingStorage) user) ;;
    if negb canManageSource then
      fail ErrInsufficientPermissionsInSourceWorkspace
    else
      canManageTarget <-
        liftR (CanUserManageDBs (workspaceService s) targetWorkspaceID user) ;;
      if negb canManageTarget then
        fail ErrInsufficientPermissionsInTargetWorkspace
      else
        attachedDatabasesIDs <-
          liftR (GetStorageAttachedDatabasesIDs (storageDatabaseCounter s)
                   (ID existingStorage)) ;;
        check
          match transferingWithDbID with
          | Some withDbID =>
              if existsb (fun dbID => negb (uuid_eqb dbID withDbID))
                   attachedDatabasesIDs
              then Some ErrStorageHasOtherAttachedDatabasesCannotTransfer
              else None
          | None =>
              if (0 <? List.length attachedDatabasesIDs)%nat
              then Some ErrStorageHasAttachedDatabasesCannotTransfer
              else None
          end ;;;
        let sourceWorkspaceID := WorkspaceID existingStorage in
        let existingStorage := set_WorkspaceID targetWorkspaceID existingStorage in
        Save existingStorage ;;;
        WriteAuditLog
          ("Storage transferred: " ++ Name existingStorage ++
           " from workspace " ++ uuid_String sourceWorkspaceID ++
           " to workspace " ++ uuid_String targetWorkspaceID)
          (Some (user_ID user)) (Some targetWorkspaceID).

(** ** A field encryptor *)

Module sealed_box.

(** The owning entity as a ciphertext names it. *)
Definition binding (entityID : UUID) : string :=
  NilEmpty.string_of_uint (N.to_uint entityID).

(** What every ciphertext for [entityID] starts with: the marker, then the
    binding to the owning entity. *)
Definition header (entityID : UUID) : string :=
  encryptedPrefix ++ binding entityID ++ ":".

Fixpoint skip (n : nat) (s : string) : string :=
  match n, s with
  | O, _ => s
  | S n', String _ rest => skip n' rest
  | S _, EmptyString => EmptyString
  end.

(** Modelled from the spec: [FieldEncryptor.Encrypt] (package
    [util/encryption] is not among the sources).  The spec fixes the
    contract only: the result "carries an opaque ciphertext marker prefix"
    and is "bound to its owning entity".  This is the ideal box with that
    contract; it does not describe the cipher. *)
Definition Encrypt (entityID : UUID) (plaintext : string) : Result string :=
  Ok (header entityID ++ plaintext).

(** Modelled from the spec: [FieldEncryptor.Decrypt].  "[Decrypt(entityId,
    ciphertext) -> plaintext | DecryptionFailed]"; a value that was not
    sealed for this entity "fails to decrypt" and is "never silently
    treated as plaintext". *)
Definition Decrypt (entityID : UUID) (ciphertext : string) : Result string :=
  if String.prefix (header entityID) ciphertext
  then Ok (skip (String.length (header entityID)) ciphertext)
  else Err (Errorf "decryption failed").

Definition encryptor : FieldEncryptor :=
  {| encryption.Encrypt := Encrypt; encryption.Decrypt := Decrypt |}.

End sealed_box.

(** ** What the statements below speak about *)

(** The values of the sensitive fields of each payload of a record, and the
    values of the other payload fields. *)
Definition sensitiveFields (s : Storage) : list (option (list string)) :=
  [ option_map local_storage.sensitive (LocalStorage s);
    option_map s3_storage.sensitive (S3Storage s);
    option_map google_drive_storage.sensitive (GoogleDriveStorage s);
    option_map nas_storage.sensitive (NASStorage s);
    option_map azure_blob_storage.sensitive (AzureBlobStorage s);
    option_map ftp_storage.sensitive (FTPStorage s);
    option_map sftp_storage.sensitive (SFTPStorage s);
    option_map rclone_storage.sensitive (RcloneStorage s) ].

Definition publicFields (s : Storage) :=
  ( option_map local_storage.public (LocalStorage s),
    option_map s3_storage.public (S3Storage s),
    option_map google_drive_storage.public (GoogleDriveStorage s),
    option_map nas_storage.public (NASStorage s),
    option_map azure_blob_storage.public (AzureBlobStorage s),
    option_map ftp_storage.public (FTPStorage s),
    option_map sftp_storage.public (SFTPStorage s),
    option_map rclone_storage.public (RcloneStorage s) ).

(** All eight variant payloads are null. *)
Definition noPayload (s : Storage) : Prop :=
  LocalStorage s = None /\ S3Storage s = None /\
  GoogleDriveStorage s = None /\ NASStorage s = None /\
  AzureBlobStorage s = None /\ FTPStorage s = None /\
  SFTPStorage s = None /\ RcloneStorage s = None.

(** The shared fields of two records agree. *)
Definition sameHeader (a b : Storage) : Prop :=
  ID a = ID b /\ WorkspaceID a = WorkspaceID b /\ Type_ a = Type_ b /\
  Name a = Name b /\ LastSaveError a = LastSaveError b /\
  IsSystem a = IsSystem b.

(** The variant payloads of two records agree. *)
Definition samePayloads (a b : Storage) : Prop :=
  LocalStorage a = LocalStorage b /\ S3Storage a = S3Storage b /\
  GoogleDriveStorage a = GoogleDriveStorage b /\
  NASStorage a = NASStorage b /\
  AzureBlobStorage a = AzureBlobStorage b /\
  FTPStorage a = FTPStorage b /\ SFTPStorage a = SFTPStorage b /\
  RcloneStorage a = RcloneStorage b.

(** Every sensitive field of every payload that is present is empty. *)
Definition blanked (fields : list (option (list string)))
  : list (option (list string)) :=
  map (option_map (map (fun _ : string => ""))) fields.

(** What both read operations make of a loaded record before they return
    it. *)
Definition hideFor (user : User) (storage : Storage) : Storage :=
  let storage := HideSensitiveData storage in
  if IsSystem storage && notAdmin user then HideAllData storage else storage.

(** What a viewer is handed for a stored record. *)
Definition viewOf (user : User) (stored returned : Storage) : Prop :=
  sameHeader stored returned /\
  (IsSystem stored = true -> Role user <> UserRoleAdmin ->
   noPayload returned) /\
  (IsSystem stored = false \/ Role user = UserRoleAdmin ->
   sensitiveFields returned = blanked (sensitiveFields stored) /\
   publicFields returned = publicFields stored).

(** A value as the repository holds it for a sensitive field: unset, or
    ciphertext. *)
Definition persistedSecret (value : string) : Prop :=
  value = "" \/ isEncrypted value = true.

(** One sensitive field across a successful update: [current] is the value
    held before, [incoming] the submitted one, [stored] the value held
    after. *)
Definition secretUpdated (encryptor : FieldEncryptor) (entityID : UUID)
    (current incoming stored : string) : Prop :=
  (incoming = "" -> persistedSecret current -> stored = current) /\
  (incoming <> "" -> encryptField encryptor entityID incoming = Ok stored).

Inductive secretsUpdated (encryptor : FieldEncryptor) (entityID : UUID)
  : list string -> list string -> list string -> Prop :=
| secretsUpdated_nil : secretsUpdated encryptor entityID [] [] []
| secretsUpdated_cons current incoming stored currents incomings storeds :
    secretUpdated encryptor entityID current incoming stored ->
    secretsUpdated encryptor entityID currents incomings storeds ->
    secretsUpdated encryptor entityID
      (current :: currents) (incoming :: incomings) (stored :: storeds).

(** The sensitive fields of one payload kind across a successful update;
    the statement is about a kind both records carry. *)
Definition payloadUpdated (encryptor : FieldEncryptor) (entityID : UUID)
    (current incoming stored : option (list string)) : Prop :=
  match current, incoming with
  | Some c, Some i =>
      exists st, stored = Some st /\ secretsUpdated encryptor entityID c i st
  | _, _ => True
  end.

Inductive payloadsUpdated (encryptor : FieldEncryptor) (entityID : UUID)
  : list (option (list string)) -> list (option (list string)) ->
    list (option (list string)) -> Prop :=
| payloadsUpdated_nil : payloadsUpdated encryptor entityID [] [] []
| payloadsUpdated_cons current incoming stored currents incomings storeds :
    payloadUpdated encryptor entityID current incoming stored ->
    payloadsUpdated encryptor entityID currents incomings storeds ->
    payloadsUpdated encryptor entityID
      (current :: currents) (incoming :: incomings) (stored :: storeds).

(** [updateField] along the sensitive fields of a payload. *)
Fixpoint updateFields (current incoming : list string) : list string :=
  match current, incoming with
  | c :: cs, i :: is_ => updateField c i :: updateFields cs is_
  | _, _ => []
  end.

(** A field after [encryptField]. *)
Definition fieldEncrypted (encryptor : FieldEncryptor) (entityID : UUID)
    (value stored : string) : Prop :=
  encryptField encryptor entityID value = Ok stored.

(** The primary key of the storage table. *)
Definition uniqueIDs (w : World) : Prop := NoDup (map ID (storages w)).

(** The message of the error that blocks a workspace deletion. *)
Definition systemStorageBlocksDeletion : error :=
  Errorf
    "system storage cannot be deleted due to workspace deletion, please transfer or remove storage first".

(** The workspace owns the record. *)
Definition ownedBy (workspaceID : UUID) (row : Storage) : bool :=
  uuid_eqb (WorkspaceID row) workspaceID.

(** ** A concrete installation

    Two users, three workspaces and five stored records, used to run the
    service on explicit inputs. *)

Module scenario.

Definition member : User := {| user_ID := 2%N; Role := UserRoleMember |}.
Definition outsider : User := {| user_ID := 3%N; Role := UserRoleMember |}.

Definition workspaceA : UUID := 10%N.
Definition workspaceB : UUID := 20%N.
Definition workspaceC : UUID := 30%N.

(** [member] belongs to every workspace, [outsider] to none; a global
    administrator reaches all of them. *)
Definition belongs (user : User) : bool :=
  UserRole_eqb (Role user) UserRoleAdmin || uuid_eqb (user_ID user) 2%N.

Definition workspaces : WorkspaceService :=
  {| CanUserManageDBs := fun _ user => Ok (belongs user);
     CanUserAccessWorkspace :=
       fun _ user =>
         Ok (belongs user,
             if belongs user then Some WorkspaceRoleMember else None) |}.

(** Storage 102 backs up the databases 7 and 8, storage 105 database 7. *)
Definition counter : StorageDatabaseCounter :=
  {| GetStorageAttachedDatabasesIDs :=
       fun storageID =>
         Ok (if uuid_eqb storageID 102%N then [7%N; 8%N]
             else if uuid_eqb storageID 105%N then [7%N]
             else []) |}.

(** A record needs a name; only local storages answer the probe. *)
Definition service : StorageService :=
  {| workspaceService := workspaces;
     fieldEncryptor := sealed_box.encryptor;
     storageDatabaseCounter := counter;
     IsCloud := false;
     Validate :=
       fun _ storage =>
         if isEmpty (Name storage) then Some (Errorf "name is required")
         else None;
     TestConnection :=
       fun _ storage =>
         match Type_ storage with
         | StorageTypeLocal => None
         | _ => Some (Errorf "connection refused")
         end |}.

Definition localRow (id workspaceID : UUID) (name : string) (isSystem : bool)
  : Storage :=
  {| ID := id; WorkspaceID := workspaceID; Type_ := StorageTypeLocal;
     Name := name; LastSaveError := None; IsSystem := isSystem;
     LocalStorage := Some local_storage.Build_LocalStorage;
     S3Storage := None; GoogleDriveStorage := None; NASStorage := None;
     AzureBlobStorage := None; FTPStorage := None; SFTPStorage := None;
     RcloneStorage := None |}.

Definition s3Row (id workspaceID : UUID) (name : string)
    (payload : s3_storage.S3Storage) : Storage :=
  {| ID := id; WorkspaceID := workspaceID; Type_ := StorageTypeS3;
     Name := name; LastSaveError := None; IsSystem := false;
     LocalStorage := None; S3Storage := Some payload;
     GoogleDriveStorage := None; NASStorage := None;
     AzureBlobStorage := None; FTPStorage := None; SFTPStorage := None;
     RcloneStorage := None |}.

Definition storedS3 : s3_storage.S3Storage :=
  {| s3_storage.S3Bucket := "test-bucket";
     s3_storage.S3Region := "us-east-1";
     s3_storage.S3AccessKey := "enc:102:original-access-key";
     s3_storage.S3SecretKey := "enc:102:original-secret-key";
     s3_storage.S3Endpoint := "https://s3.amazonaws.com" |}.

Definition world : World :=
  {| storages :=
       [ localRow 101%N workspaceA "disk" false;
         s3Row 102%N workspaceA "bucket" storedS3;
         localRow 103%N workspaceA "shared disk" true;
         localRow 104%N workspaceB "shared archive" true;
         localRow 105%N workspaceC "scratch" false ];
     auditLogs := [] |}.

(** What a permitted viewer is handed for storage 102. *)
Definition hiddenS3 : s3_storage.S3Storage :=
  {| s3_storage.S3Bucket := "test-bucket";
     s3_storage.S3Region := "us-east-1";
     s3_storage.S3AccessKey := "";
     s3_storage.S3SecretKey := "";
     s3_storage.S3Endpoint := "https://s3.amazonaws.com" |}.

(** The update of the lifecycle test: public fields change, the access key
    is left empty, the secret key is submitted anew. *)
Definition updateOfS3 : Storage :=
  s3Row 102%N workspaceA "Updated S3 Storage"
    {| s3_storage.S3Bucket := "updated-bucket";
       s3_storage.S3Region := "us-west-2";
       s3_storage.S3AccessKey := "";
       s3_storage.S3SecretKey := "rotated-secret-key";
       s3_storage.S3Endpoint := "https://s3.us-west-2.amazonaws.com" |}.

(** A create request that names another workspace in its payload. *)
Definition createRequest : Storage :=
  localRow uuid_Nil workspaceB "new disk" false.

(** The store after [member] submits that update. *)
Definition afterUpdate : World :=
  snd (SaveStorage service member workspaceA updateOfS3 world).


(** The store after [member] creates it through workspace A. *)
Definition afterCreate : World :=
  snd (SaveStorage service member workspaceA createRequest world).

End scenario.

(** ** The HTTP layer (controller.go) *)

(** [errors.Is]: the error, or one it wraps, is the target.  The targets
    the controller uses are the sentinels of the package. *)
Definition error_eq_dec (a b : error) : {a = b} + {a <> b}.
Proof. decide equality; apply string_dec. Defined.

Fixpoint errors_Is (err target : error) : bool :=
  if error_eq_dec err target then true
  else
    match err with
    | Wrapf _ cause => errors_Is cause target
    | _ => false
    end.

Module http.

Definition StatusOK : N := 200.
Definition StatusBadRequest : N := 400.
Definition StatusUnauthorized : N := 401.
Definition StatusForbidden : N := 403.

End http.

(** The body of [POST /storages/:id/transfer], as the tests build it. *)
Record TransferStorageRequest : Type := {
  TargetWorkspaceID : UUID
}.

(** What a handler writes with [ctx.JSON]: [gin.H{"error": ...}],
    [gin.H{"message": ...}], a storage or a list of storages. *)
Inductive Body : Type :=
| ErrorBody (msg : string)
| MessageBody (msg : string)
| StorageBody (storage : Storage)
| StoragesBody (storages : list Storage).

Record Response : Type := {
  status : N;
  body : Body
}.

(** The [workspace_id] query parameter: empty or absent, present but not
    a UUID, or a UUID. *)
Inductive QueryUUID : Type :=
| QueryEmpty
| QueryInvalid
| QueryValid (id : UUID).

(** What the handlers read from [*gin.Context]: the user the auth
    middleware put there, the outcome of [uuid.Parse(ctx.Param("id"))], the
    [workspace_id] query parameter, and the outcome of [ShouldBindJSON]
    into each of the two request types. *)
Record Context : Type := {
  GetUserFromContext : option User;
  ParamID : option UUID;
  QueryWorkspaceID : QueryUUID;
  BindStorage : Result Storage;
  BindTransfer : Result TransferStorageRequest
}.

(** The struct [StorageController]. *)
Record StorageController : Type := {
  storageService : StorageService;
  controllerWorkspaceService : workspaces_services.WorkspaceService
}.

(** A handler always answers: it returns the response it wrote and the
    store as the service left it. *)
Definition Handler : Type := World -> Response * World.

Definition JSON (code : N) (b : Body) : Handler :=
  fun w => ({| status := code; body := b |}, w).

(** [SaveStorage] as its caller sees it.  The method takes [*Storage]: on
    the create path it assigns the workspace, encrypts in place and lets
    the repository fill in the id, all through the pointer the handler
    then serializes; on the update path it only reads it.  The result is
    the record behind the pointer when the method returns [nil]. *)
Definition SaveStorageInPlace (s : StorageService) (user : User)
    (workspaceID : UUID) (storage : Storage) : M Storage :=
  canManage <- liftR (CanUserManageDBs (workspaceService s) workspaceID user) ;;
  if negb canManage then fail ErrInsufficientPermissionsToManageStorage
  else if IsCloud s && StorageType_eqb (Type_ storage) StorageTypeLocal
          && notAdmin user
  then fail ErrLocalStorageNotAllowedInCloudMode
  else
    let isUpdate := negb (uuid_eqb (ID storage) uuid_Nil) in
    if IsSystem storage && notAdmin user then
      fail ErrInsufficientPermissionsToManageStorage
    else if isUpdate then
      existingStorage <- FindByID (ID storage) ;;
      if negb (uuid_eqb (WorkspaceID existingStorage) workspaceID) then
        fail ErrStorageDoesNotBelongToWorkspace
      else if IsSystem existingStorage && negb (IsSystem storage) then
        fail ErrSystemStorageCannotBeMadePrivate
      else
        let existingStorage := Update existingStorage storage in
        existingStorage <-
          liftR (EncryptSensitiveData (fieldEncryptor s) existingStorage) ;;
        check (Validate s (fieldEncryptor s) existingStorage) ;;;
        Save existingStorage ;;;
        WriteAuditLog ("Storage updated: " ++ Name existingStorage)
          (Some (user_ID user)) (Some workspaceID) ;;;
        ret storage
    else
      let storage := set_WorkspaceID workspaceID storage in
      storage <- liftR (EncryptSensitiveData (fieldEncryptor s) storage) ;;
      check (Validate s (fieldEncryptor s) storage) ;;;
      storage <- Save storage ;;
      WriteAuditLog ("Storage created: " ++ Name storage)
        (Some (user_ID user)) (Some workspaceID) ;;;
      ret storage.

Module controller.

Definition SaveStorage (c : StorageController) (ctx : Context) : Handler :=
  match GetUserFromContext ctx with
  | None => JSON http.StatusUnauthorized (ErrorBody "User not authenticated")
  | Some user =>
      match BindStorage ctx with
      | Err err => JSON http.StatusBadRequest (ErrorBody (Error err))
      | Ok request =>
          if uuid_eqb (WorkspaceID request) uuid_Nil then
            JSON http.StatusBadRequest (ErrorBody "workspaceId is required")
          else
            fun w =>
              match SaveStorageInPlace (storageService c) user
                      (WorkspaceID request) request w with
              | (Err err, w') =>
                  if errors_Is err ErrInsufficientPermissionsToManageStorage
                     || errors_Is err ErrLocalStorageNotAllowedInCloudMode
                  then JSON http.StatusForbidden (ErrorBody (Error err)) w'
                  else JSON http.StatusBadRequest (ErrorBody (Error err)) w'
              | (Ok request, w') => JSON http.StatusOK (StorageBody request) w'
              end
      end
  end.

Definition GetStorage (c : StorageController) (ctx : Context) : Handler :=
  match GetUserFromContext ctx with
  | None => JSON http.StatusUnauthorized (ErrorBody "User not authenticated")
  | Some user =>
      match ParamID ctx with
      | None => JSON http.StatusBadRequest (ErrorBody "invalid storage ID")
      | Some id =>
          fun w =>
            match GetStorage (storageService c) user id w with
            | (Err err, w') =>
                if errors_Is err ErrInsufficientPermissionsToViewStorage
                then JSON http.StatusForbidden (ErrorBody (Error err)) w'
                else JSON http.StatusBadRequest (ErrorBody (Error err)) w'
            | (Ok storage, w') => JSON http.StatusOK (StorageBody storage) w'
            end
      end
  end.

Definition GetStorages (c : StorageController) (ctx : Context) : Handler :=
  match GetUserFromContext ctx with
  | None => JSON http.StatusUnauthorized (ErrorBody "User not authenticated")
  | Some user =>
      match QueryWorkspaceID ctx with
      | QueryEmpty =>
          JSON http.StatusBadRequest
            (ErrorBody "workspace_id query parameter is required")
      | QueryInvalid =>
          JSON http.StatusBadRequest (ErrorBody "invalid workspace_id")
      | QueryValid workspaceID =>
          fun w =>
            match GetStorages (storageService c) user workspaceID w with
            | (Err err, w') =>
                if errors_Is err ErrInsufficientPermissionsToViewStorages
                then JSON http.StatusForbidden (ErrorBody (Error err)) w'
                else JSON http.StatusBadRequest (ErrorBody (Error err)) w'
            | (Ok storages, w') =>
                JSON http.StatusOK (StoragesBody storages) w'
            end
      end
  end.

Definition DeleteStorage (c : StorageController) (ctx : Context) : Handler :=
  match GetUserFromContext ctx with
  | None => JSON http.StatusUnauthorized (ErrorBody "User not authenticated")
  | Some user =>
      match ParamID ctx with
      | None => JSON http.StatusBadRequest (ErrorBody "invalid storage ID")
      | Some id =>
          fun w =>
            match DeleteStorage (storageService c) user id w with
            | (Err err, w') =>
                if errors_Is err ErrInsufficientPermissionsToManageStorage
                then JSON http.StatusForbidden (ErrorBody (Error err)) w'
                else JSON http.StatusBadRequest (ErrorBody (Error err)) w'
            | (Ok _, w') =>
                JSON http.StatusOK
                  (MessageBody "storage deleted successfully") w'
            end
      end
  end.

Definition TestStorageConnection (c : StorageController) (ctx : Context)
  : Handler :=
  match GetUserFromContext ctx with
  | None => JSON http.StatusUnauthorized (ErrorBody "User not authenticated")
  | Some user =>
      match ParamID ctx with
      | None => JSON http.StatusBadRequest (ErrorBody "invalid storage ID")
      | Some id =>
          fun w =>
            match TestStorageConnection (storageService c) user id w with
            | (Err err, w') =>
                if errors_Is err ErrInsufficientPermissionsToTestStorage
                then JSON http.StatusForbidden (ErrorBody (Error err)) w'
                else JSON http.StatusBadRequest (ErrorBody (Error err)) w'
            | (Ok _, w') =>
                JSON http.StatusOK
                  (MessageBody "storage connection test successful") w'
            end
      end
  end.

Definition TransferStorageToWorkspace (c : StorageController) (ctx : Context)
  : Handler :=
  match GetUserFromContext ctx with
  | None => JSON http.StatusUnauthorized (ErrorBody "User not authenticated")
  | Some user =>
      match ParamID ctx with
      | None => JSON http.StatusBadRequest (ErrorBody "invalid storage ID")
      | Some id =>
          match BindTransfer ctx with
          | Err err => JSON http.StatusBadRequest (ErrorBody (Error err))
          | Ok request =>
              if uuid_eqb (TargetWorkspaceID request) uuid_Nil then
                JSON http.StatusBadRequest
                  (ErrorBody "targetWorkspaceId is required")
              else
                fun w =>
                  match TransferStorageToWorkspace (storageService c) user id
                          (TargetWorkspaceID request) None w with
                  | (Err err, w') =>
                      if errors_Is err
                           ErrInsufficientPermissionsInSourceWorkspace
                         || errors_Is err
                              ErrInsufficientPermissionsInTargetWorkspace
                      then
                        JSON http.StatusForbidden (ErrorBody (Error err)) w'
                      else
                        JSON http.StatusBadRequest (ErrorBody (Error err)) w'
                  | (Ok _, w') =>
                      JSON http.StatusOK
                        (MessageBody "storage transferred successfully") w'
                  end
          end
      end
  end.

Definition TestStorageConnectionDirect (c : StorageController) (ctx : Context)
  : Handler :=
  match GetUserFromContext ctx with
  | None => JSON http.StatusUnauthorized (ErrorBody "User not authenticated")
  | Some user =>
      match BindStorage ctx with
      | Err err => JSON http.StatusBadRequest (ErrorBody (Error err))
      | Ok request =>
          if uuid_eqb (WorkspaceID request) uuid_Nil then
            JSON http.StatusBadRequest (ErrorBody "workspaceId is required")
          else
            match CanUserAccessWorkspace (controllerWorkspaceService c)
                    (WorkspaceID request) user with
            | Err err => JSON http.StatusBadRequest (ErrorBody (Error err))
            | Ok (canView, _) =>
                if negb canView then
                  JSON http.StatusForbidden
                    (ErrorBody
                       "insufficient permissions to test storage in this workspace")
                else
                  fun w =>
                    match TestStorageConnectionDirect (storageService c) user
                            request w with
                    | (Err err, w') =>
                        if errors_Is err ErrLocalStorageNotAllowedInCloudMode
                        then
                          JSON http.StatusForbidden (ErrorBody (Error err)) w'
                        else
                          JSON http.StatusBadRequest (ErrorBody (Error err)) w'
                    | (Ok _, w') =>
                        JSON http.StatusOK
                          (MessageBody "storage connection test successful") w'
                    end
            end
      end
  end.

End controller.

(** ** The edit form of the client (EditStorageComponent) *)

Module EditStorageComponent.

(** JavaScript truthiness of the values the form tests: a string is truthy
    when it is not empty, a number when it is not zero, an absent payload
    ([storage.s3Storage?.field] on [undefined]) is falsy. *)
Definition truthy (value : string) : bool := negb (isEmpty value).

Definition truthyNumber (value : Z) : bool := negb (Z.eqb value 0).

Definition field {P : Type} (payload : option P) (test : P -> bool) : bool :=
  match payload with
  | Some p => test p
  | None => false
  end.

(** [isAllDataFilled]: whether the form may be submitted.  In the client
    [storage.id] is a string, absent while a storage is new and set once
    the server has answered with a record; here a new storage is a record
    with the nil id.  The all-zero id written out as a string, which the
    repository never assigns, would count as set in the client; a record
    cannot carry it. *)
Definition isAllDataFilled (storage : Storage) : bool :=
  let hasID := negb (uuid_eqb (ID storage) uuid_Nil) in
  if negb (truthy (Name storage)) then false
  else
    match Type_ storage with
    | StorageTypeLocal => true
    | StorageTypeS3 =>
        if hasID then
          field (S3Storage storage) (fun p => truthy (s3_storage.S3Bucket p))
        else
          field (S3Storage storage) (fun p => truthy (s3_storage.S3Bucket p))
          && field (S3Storage storage)
               (fun p => truthy (s3_storage.S3AccessKey p))
          && field (S3Storage storage)
               (fun p => truthy (s3_storage.S3SecretKey p))
    | StorageTypeGoogleDrive =>
        if hasID then
          field (GoogleDriveStorage storage)
            (fun p => truthy (google_drive_storage.ClientID p))
        else
          field (GoogleDriveStorage storage)
            (fun p => truthy (google_drive_storage.ClientID p))
          && field (GoogleDriveStorage storage)
               (fun p => truthy (google_drive_storage.ClientSecret p))
          && field (GoogleDriveStorage storage)
               (fun p => truthy (google_drive_storage.TokenJSON p))
    | StorageTypeNAS =>
        if hasID then
          field (NASStorage storage) (fun p => truthy (nas_storage.Host p))
          && field (NASStorage storage)
               (fun p => truthyNumber (nas_storage.Port p))
          && field (NASStorage storage) (fun p => truthy (nas_storage.Share p))
          && field (NASStorage storage)
               (fun p => truthy (nas_storage.Username p))
        else
          field (NASStorage storage) (fun p => truthy (nas_storage.Host p))
          && field (NASStorage storage)
               (fun p => truthyNumber (nas_storage.Port p))
          && field (NASStorage storage) (fun p => truthy (nas_storage.Share p))
          && field (NASStorage storage)
               (fun p => truthy (nas_storage.Username p))
          && field (NASStorage storage)
               (fun p => truthy (nas_storage.Password p))
    | StorageTypeAzureBlob =>
        if hasID then
          field (AzureBlobStorage storage)
            (fun p => truthy (azure_blob_storage.ContainerName p))
        else
          let isContainerNameFilled :=
            field (AzureBlobStorage storage)
              (fun p => truthy (azure_blob_storage.ContainerName p)) in
          match option_map azure_blob_storage.AuthMethod_
                  (AzureBlobStorage storage) with
          | Some azure_blob_storage.AuthMethodConnectionString =>
              isContainerNameFilled
              && field (AzureBlobStorage storage)
                   (fun p => truthy (azure_blob_storage.ConnectionString p))
          | Some azure_blob_storage.AuthMethodAccountKey =>
              isContainerNameFilled
              && field (AzureBlobStorage storage)
                   (fun p => truthy (azure_blob_storage.AccountName p))
              && field (AzureBlobStorage storage)
                   (fun p => truthy (azure_blob_storage.AccountKey p))
          | None =>
              (* no branch of the Azure case returns; none of the later
                 type tests matches; the function ends in [return false] *)
              false
          end
    | StorageTypeFTP =>
        if hasID then
          field (FTPStorage storage) (fun p => truthy (ftp_storage.Host p))
          && field (FTPStorage storage)
               (fun p => truthyNumber (ftp_storage.Port p))
          && field (FTPStorage storage)
               (fun p => truthy (ftp_storage.Username p))
        else
          field (FTPStorage storage) (fun p => truthy (ftp_storage.Host p))
          && field (FTPStorage storage)
               (fun p => truthyNumber (ftp_storage.Port p))
          && field (FTPStorage storage)
               (fun p => truthy (ftp_storage.Username p))
          && field (FTPStorage storage)
               (fun p => truthy (ftp_storage.Password p))
    | StorageTypeSFTP =>
        if hasID then
          field (SFTPStorage storage) (fun p => truthy (sftp_storage.Host p))
          && field (SFTPStorage storage)
               (fun p => truthyNumber (sftp_storage.Port p))
          && field (SFTPStorage storage)
               (fun p => truthy (sftp_storage.Username p))
        else
          field (SFTPStorage storage) (fun p => truthy (sftp_storage.Host p))
          && field (SFTPStorage storage)
               (fun p => truthyNumber (sftp_storage.Port p))
          && field (SFTPStorage storage)
               (fun p => truthy (sftp_storage.Username p))
          && (field (SFTPStorage storage)
                (fun p => truthy (sftp_storage.Password p))
              || field (SFTPStorage storage)
                   (fun p => truthy (sftp_storage.PrivateKey p)))
    | StorageTypeRclone =>
        if hasID then true
        else
          field (RcloneStorage storage)
            (fun p => truthy (rclone_storage.ConfigContent p))
    end.

End EditStorageComponent.

(** ** The e-mail notifier (email_notifier/model.go) *)

Module email_notifier.

Record EmailNotifier : Type := {
  NotifierID : UUID;
  TargetEmail : string;
  SMTPHost : string;
  SMTPPort : Z;
  SMTPUser : string;
  SMTPPassword : string;
  From_ : string
}.


Definition Validate (encryptor : FieldEncryptor) (e : EmailNotifier)
  : option error :=
  if isEmpty (TargetEmail e) then Some (Errorf "target email is required")
  else if isEmpty (SMTPHost e) then Some (Errorf "SMTP host is required")
  else if Z.eqb (SMTPPort e) 0 then Some (Errorf "SMTP port is required")
  else
    (* Authentication is optional - both user and password must be provided
       together or both empty *)
    if negb (Bool.eqb (isEmpty (SMTPUser e)) (isEmpty (SMTPPassword e))) then
      Some (Errorf
        "SMTP user and password must both be provided or both be empty")
    else None.

Definition HideSensitiveData (e : EmailNotifier) : EmailNotifier :=
  {| NotifierID := NotifierID e; TargetEmail := TargetEmail e;
     SMTPHost := SMTPHost e; SMTPPort := SMTPPort e; SMTPUser := SMTPUser e;
     SMTPPassword := ""; From_ := From_ e |}.

Definition Update (e incoming : EmailNotifier) : EmailNotifier :=
  {| NotifierID := NotifierID e;
     TargetEmail := TargetEmail incoming;
     SMTPHost := SMTPHost incoming;
     SMTPPort := SMTPPort incoming;
     SMTPUser := SMTPUser incoming;
     SMTPPassword :=
       if negb (isEmpty (SMTPPassword incoming)) then SMTPPassword incoming
       else SMTPPassword e;
     From_ := From_ incoming |}.

Definition EncryptSensitiveData (encryptor : FieldEncryptor)
    (e : EmailNotifier) : Result EmailNotifier :=
  if negb (isEmpty (SMTPPassword e)) then
    match Encrypt encryptor (NotifierID e) (SMTPPassword e) with
    | Err err => Err (Wrapf "failed to encrypt SMTP password: " err)
    | Ok encrypted =>
        Ok {| NotifierID := NotifierID e; TargetEmail := TargetEmail e;
              SMTPHost := SMTPHost e; SMTPPort := SMTPPort e;
              SMTPUser := SMTPUser e; SMTPPassword := encrypted;
              From_ := From_ e |}
    end
  else Ok e.



End email_notifier.

(** ** Retention periods of the client (EditBackupConfigComponent) *)

Module EditBackupConfigComponent.

(** The members of [Period] the component lists. *)
Inductive Period : Type :=
| DAY | WEEK | MONTH | THREE_MONTH | SIX_MONTH | YEAR
| TWO_YEARS | THREE_YEARS | FOUR_YEARS | FIVE_YEARS | FOREVER.

Definition Period_eqb (a b : Period) : bool :=
  match a, b with
  | DAY, DAY | WEEK, WEEK | MONTH, MONTH | THREE_MONTH, THREE_MONTH
  | SIX_MONTH, SIX_MONTH | YEAR, YEAR | TWO_YEARS, TWO_YEARS
  | THREE_YEARS, THREE_YEARS | FOUR_YEARS, FOUR_YEARS
  | FIVE_YEARS, FIVE_YEARS | FOREVER, FOREVER => true
  | _, _ => false
  end.

(** [Array.prototype.indexOf]: the first index of the element, or -1. *)
Fixpoint indexOfFrom (start : Z) (l : list Period) (x : Period) : Z :=
  match l with
  | [] => (-1)%Z
  | y :: rest =>
      if Period_eqb y x then start else indexOfFrom (start + 1)%Z rest x
  end.

Definition indexOf (l : list Period) (x : Period) : Z := indexOfFrom 0%Z l x.

Definition periodOrder : list Period :=
  [DAY; WEEK; MONTH; THREE_MONTH; SIX_MONTH; YEAR; TWO_YEARS; THREE_YEARS;
   FOUR_YEARS; FIVE_YEARS; FOREVER].

Definition isPeriodAllowed (period maxPeriod : Period) : bool :=
  let periodIndex := indexOf periodOrder period in
  let maxIndex := indexOf periodOrder maxPeriod in
  (periodIndex <=? maxIndex)%Z.

Record DatabasePlan : Type := {
  databaseId : string;
  maxBackupSizeMb : Z;
  maxBackupsTotalSizeMb : Z;
  maxStoragePeriod : Period
}.

Definition createDefaultPlan (databaseId : string) (isCloud : bool)
  : DatabasePlan :=
  if isCloud then
    {| databaseId := databaseId;
       maxBackupSizeMb := 100;
       maxBackupsTotalSizeMb := 4000;
       maxStoragePeriod := WEEK |}
  else
    {| databaseId := databaseId;
       maxBackupSizeMb := 0;
       maxBackupsTotalSizeMb := 0;
       maxStoragePeriod := FOREVER |}.

(** The values of the options of [allPeriods], in their order. *)
Definition allPeriods : list Period :=
  [DAY; WEEK; MONTH; THREE_MONTH; SIX_MONTH; YEAR; TWO_YEARS; THREE_YEARS;
   FOUR_YEARS; FIVE_YEARS; FOREVER].

(** The options offered, by their values; [databasePlan] is [None] while
    no plan is loaded. *)
Definition availablePeriods (databasePlan : option DatabasePlan)
  : list Period :=
  match databasePlan with
  | None => allPeriods
  | Some plan =>
      filter (fun p => isPeriodAllowed p (maxStoragePeriod plan)) allPeriods
  end.

End EditBackupConfigComponent.

(** ** What the statements about the HTTP layer speak about *)

(** No sensitive field of the record holds a value. *)
Definition noSecrets (s : Storage) : Prop :=
  Forall
    (fun payload : option (list string) =>
       match payload with
       | Some fields => Forall (eq "") fields
       | None => True
       end)
    (sensitiveFields s).

(** No storage in the body of a response holds a sensitive value. *)
Definition bodyNoSecrets (b : Body) : Prop :=
  match b with
  | StorageBody s => noSecrets s
  | StoragesBody l => Forall noSecrets l
  | ErrorBody _ | MessageBody _ => True
  end.

(** A request as the seven handlers read it. *)
Module requests.

(** [GET /storages/:id] and the like, by [user] for [id]. *)
Definition forID (user : User) (id : UUID) : Context :=
  {| GetUserFromContext := Some user;
     ParamID := Some id;
     QueryWorkspaceID := QueryEmpty;
     BindStorage := Err (Errorf "EOF");
     BindTransfer := Err (Errorf "EOF") |}.

(** [POST /storages/:id/transfer] with a target workspace. *)
Definition transfer (user : User) (id target : UUID) : Context :=
  {| GetUserFromContext := Some user;
     ParamID := Some id;
     QueryWorkspaceID := QueryEmpty;
     BindStorage := Err (Errorf "EOF");
     BindTransfer := Ok {| TargetWorkspaceID := target |} |}.

(** [POST /storages] and [POST /storages/direct-test] with a storage. *)
Definition withStorage (user : User) (storage : Storage) : Context :=
  {| GetUserFromContext := Some user;
     ParamID := None;
     QueryWorkspaceID := QueryEmpty;
     BindStorage := Ok storage;
     BindTransfer := Err (Errorf "EOF") |}.

(** The controller of the installation: one workspace service for both. *)
Definition controller : StorageController :=
  {| storageService := scenario.service;
     controllerWorkspaceService := scenario.workspaces |}.

End requests.

(** An installation in which an earlier save of the local storage 101
    left an error behind. *)
Module earlier.

Definition failedDisk : Storage :=
  {| ID := 101%N; WorkspaceID := scenario.workspaceA;
     Type_ := StorageTypeLocal; Name := "disk";
     LastSaveError := Some "path is not writable"; IsSystem := false;
     LocalStorage := Some local_storage.Build_LocalStorage;
     S3Storage := None; GoogleDriveStorage := None; NASStorage := None;
     AzureBlobStorage := None; FTPStorage := None; SFTPStorage := None;
     RcloneStorage := None |}.

Definition world : World :=
  {| storages :=
       [ failedDisk;
         scenario.s3Row 102%N scenario.workspaceA "bucket"
           scenario.storedS3 ];
     auditLogs := [] |}.

End earlier.

(** A stored notifier with credentials, and an update that submits
    neither user nor password. *)
Module notifications.

Definition stored : email_notifier.EmailNotifier :=
  {| email_notifier.NotifierID := 500%N;
     email_notifier.TargetEmail := "ops@example.com";
     email_notifier.SMTPHost := "smtp.example.com";
     email_notifier.SMTPPort := 587%Z;
     email_notifier.SMTPUser := "mailer";
     email_notifier.SMTPPassword := "enc:500:secret";
     email_notifier.From_ := "" |}.

Definition withoutCredentials : email_notifier.EmailNotifier :=
  {| email_notifier.NotifierID := 500%N;
     email_notifier.TargetEmail := "ops@example.com";
     email_notifier.SMTPHost := "smtp.example.com";
     email_notifier.SMTPPort := 587%Z;
     email_notifier.SMTPUser := "";
     email_notifier.SMTPPassword := "";
     email_notifier.From_ := "" |}.

(** An update that only changes the recipient. *)
Definition newRecipient : email_notifier.EmailNotifier :=
  {| email_notifier.NotifierID := 500%N;
     email_notifier.TargetEmail := "oncall@example.com";
     email_notifier.SMTPHost := "smtp.example.com";
     email_notifier.SMTPPort := 587%Z;
     email_notifier.SMTPUser := "mailer";
     email_notifier.SMTPPassword := "";
     email_notifier.From_ := "" |}.

End notifications.

(** * Properties *)

(** ** Identifiers *)

Lemma uuid_eqb_eq a b : uuid_eqb a b = true <-> a = b.
Proof. apply N.eqb_eq. Qed.

Lemma uuid_eqb_neq a b : uuid_eqb a b = false <-> a <> b.
Proof. apply N.eqb_neq. Qed.

Lemma uuid_eqb_refl a : uuid_eqb a a = true.
Proof. apply N.eqb_refl. Qed.

Lemma notAdmin_true user : notAdmin user = true <-> Role user <> UserRoleAdmin.
Proof.
  unfold notAdmin. destruct (Role user); simpl; split; congruence.
Qed.

Lemma notAdmin_false user : notAdmin user = false <-> Role user = UserRoleAdmin.
Proof.
  unfold notAdmin. destruct (Role user); simpl; split; congruence.
Qed.

(** ** The repository *)

Lemma find_hasID id rows row :
  find (hasID id) rows = Some row -> In row rows /\ ID row = id.
Proof.
  intros H. apply find_some in H. destruct H as [Hin Hid].
  split; [assumption | now apply uuid_eqb_eq].
Qed.

Lemma FindByID_Ok id w row w' :
  FindByID id w = (Ok row, w') ->
  w' = w /\ In row (storages w) /\ ID row = id.
Proof.
  unfold FindByID. destruct (find (hasID id) (storages w)) eqn:Hf;
    intros H; inversion H; subst.
  split; [reflexivity | now apply find_hasID].
Qed.

Lemma FindByID_state {id w r w'} : FindByID id w = (r, w') -> w' = w.
Proof.
  unfold FindByID. destruct (find (hasID id) (storages w));
    intros H; now inversion H.
Qed.

Lemma max_ID_bound rows row :
  In row rows -> (ID row <= fold_right N.max 0 (map ID rows))%N.
Proof.
  induction rows as [|r rows IH]; simpl; [tauto|].
  intros [->|Hin]; [lia | specialize (IH Hin); lia].
Qed.

Lemma nextID_fresh rows row : In row rows -> ID row <> nextID rows.
Proof.
  intros Hin. pose proof (max_ID_bound _ _ Hin). unfold nextID. lia.
Qed.

Lemma nextID_not_Nil rows : nextID rows <> uuid_Nil.
Proof. unfold nextID, uuid_Nil. lia. Qed.

Lemma find_fresh id rows :
  (forall row, In row rows -> ID row <> id) -> find (hasID id) rows = None.
Proof.
  intros Hfresh. destruct (find (hasID id) rows) eqn:Hf; [|reflexivity].
  apply find_hasID in Hf. destruct Hf as [Hin Hid].
  now apply Hfresh in Hin.
Qed.

Lemma find_app_fresh id rows row :
  (forall r, In r rows -> ID r <> id) -> ID row = id ->
  find (hasID id) (rows ++ [row]) = Some row.
Proof.
  intros Hfresh Hid. induction rows as [|r rows IH]; simpl.
  - unfold hasID. now rewrite Hid, uuid_eqb_refl.
  - unfold hasID at 1. destruct (uuid_eqb (ID r) id) eqn:E.
    + apply uuid_eqb_eq in E. exfalso. apply (Hfresh r); simpl; auto.
    + apply IH. intros r' Hin. apply Hfresh. now right.
Qed.

Lemma find_replaceRow s rows :
  existsb (hasID (ID s)) rows = true ->
  find (hasID (ID s)) (replaceRow s rows) = Some s.
Proof.
  induction rows as [|r rows IH]; simpl; [discriminate|].
  destruct (hasID (ID s) r) eqn:E; simpl.
  - intros _. unfold hasID. now rewrite uuid_eqb_refl.
  - rewrite E. exact IH.
Qed.

Lemma existsb_hasID_find id rows :
  existsb (hasID id) rows = false -> find (hasID id) rows = None.
Proof.
  induction rows as [|r rows IH]; simpl; [reflexivity|].
  destruct (hasID id r); simpl; [discriminate | exact IH].
Qed.

(** After a save the record is what the repository returns for its id. *)
Lemma FindByID_Save s w saved w' :
  Save s w = (Ok saved, w') -> FindByID (ID saved) w' = (Ok saved, w').
Proof.
  unfold Save, FindByID.
  destruct (uuid_eqb (ID s) uuid_Nil) eqn:Enil.
  - intros H; inversion H; subst; clear H. simpl.
    rewrite find_app_fresh; [reflexivity | | reflexivity].
    intros r Hin. simpl. now apply nextID_fresh.
  - destruct (existsb (hasID (ID s)) (storages w)) eqn:Eex;
      intros H; inversion H; subst; clear H; simpl.
    + now rewrite find_replaceRow.
    + rewrite find_app_fresh; [reflexivity | | reflexivity].
      intros r Hin Hid.
      apply existsb_hasID_find in Eex.
      pose proof (find_none _ _ Eex _ Hin) as Hn.
      unfold hasID in Hn. apply uuid_eqb_neq in Hn. contradiction.
Qed.

Lemma FindByID_storages id w1 w2 row :
  storages w2 = storages w1 ->
  FindByID id w1 = (Ok row, w1) -> FindByID id w2 = (Ok row, w2).
Proof.
  unfold FindByID. intros ->.
  destruct (find (hasID id) (storages w1)); intros H; now inversion H.
Qed.

Lemma Save_Ok s w : exists saved w', Save s w = (Ok saved, w').
Proof.
  unfold Save. destruct (uuid_eqb (ID s) uuid_Nil);
    [|destruct (existsb (hasID (ID s)) (storages w))]; eauto.
Qed.

Lemma Save_existing s w r w' :
  uuid_eqb (ID s) uuid_Nil = false -> Save s w = (r, w') -> r = Ok s.
Proof.
  unfold Save. intros ->.
  destruct (existsb (hasID (ID s)) (storages w)); intros H; now inversion H.
Qed.

(** ** Variant payloads: hiding, updating, encrypting *)

Lemma isEmpty_true value : isEmpty value = true <-> value = "".
Proof. destruct value; simpl; split; congruence. Qed.

Lemma isEmpty_false value : isEmpty value = false <-> value <> "".
Proof. destruct value; simpl; split; congruence. Qed.

Lemma encryptField_persisted encryptor entityID value :
  persistedSecret value -> encryptField encryptor entityID value = Ok value.
Proof.
  unfold encryptField. intros [-> | Henc]; [reflexivity|].
  rewrite Henc. now destruct (isEmpty value).
Qed.

Lemma secretUpdated_intro encryptor entityID current incoming stored :
  fieldEncrypted encryptor entityID (updateField current incoming) stored ->
  secretUpdated encryptor entityID current incoming stored.
Proof.
  unfold fieldEncrypted, updateField, secretUpdated. intros H. split.
  - intros -> Hp. simpl in H.
    rewrite (encryptField_persisted encryptor entityID Hp) in H. congruence.
  - intros Hne. apply isEmpty_false in Hne. now rewrite Hne in H.
Qed.

Lemma secretsUpdated_intro encryptor entityID currents :
  forall incomings storeds,
    List.length currents = List.length incomings ->
    Forall2 (fieldEncrypted encryptor entityID)
      (updateFields currents incomings) storeds ->
    secretsUpdated encryptor entityID currents incomings storeds.
Proof.
  induction currents as [|c cs IH]; intros [|i is_] storeds Hlen HF;
    simpl in *; try discriminate.
  - inversion HF. constructor.
  - inversion HF as [|? st ? sts Hhd Htl]; subst.
    constructor; [now apply secretUpdated_intro | apply IH; [lia | exact Htl]].
Qed.

Section Variant.

Variables (P Pub : Type).
Variable sens : P -> list string.
Variable pub : P -> Pub.
Variable hide : P -> P.
Variable update : P -> P -> P.
Variable encrypt : P -> Result P.
Variable encryptor : FieldEncryptor.
Variable entityID : UUID.

Hypothesis sens_length : forall p q, List.length (sens p) = List.length (sens q).
Hypothesis hide_sens : forall p, sens (hide p) = map (fun _ => "") (sens p).
Hypothesis hide_pub : forall p, pub (hide p) = pub p.
Hypothesis update_sens :
  forall c i, sens (update c i) = updateFields (sens c) (sens i).
Hypothesis update_pub : forall c i, pub (update c i) = pub i.
Hypothesis encrypt_sens :
  forall p p', encrypt p = Ok p' ->
    Forall2 (fieldEncrypted encryptor entityID) (sens p) (sens p').
Hypothesis encrypt_pub :
  forall p p', encrypt p = Ok p' -> pub p' = pub p.

Lemma hidden_payload_sens payload :
  option_map sens (option_map hide payload) =
  option_map (map (fun _ => "")) (option_map sens payload).
Proof using hide_sens.
  destruct payload; simpl; [now rewrite hide_sens | reflexivity].
Qed.

Lemma hidden_payload_pub payload :
  option_map pub (option_map hide payload) = option_map pub payload.
Proof using hide_pub.
  destruct payload; simpl; [now rewrite hide_pub | reflexivity].
Qed.

Lemma encrypted_payload_pub payload stored :
  encryptPayload encrypt payload = Ok stored ->
  option_map pub stored = option_map pub payload.
Proof using encrypt_pub.
  destruct payload as [p|]; simpl.
  - destruct (encrypt p) as [p'|] eqn:E; simpl; intros H; inversion H.
    simpl. now rewrite (encrypt_pub E).
  - intros H; now inversion H.
Qed.

Lemma updated_payload_pub current incoming stored :
  encryptPayload encrypt (updatePayload update current incoming)
    = Ok stored ->
  option_map pub stored = option_map pub incoming.
Proof using encrypt_pub update_pub.
  intros H. rewrite (encrypted_payload_pub _ H).
  destruct current, incoming; simpl; try reflexivity.
  now rewrite update_pub.
Qed.

Lemma updated_payload_sens current incoming stored :
  encryptPayload encrypt (updatePayload update current incoming)
    = Ok stored ->
  payloadUpdated encryptor entityID
    (option_map sens current) (option_map sens incoming)
    (option_map sens stored).
Proof using encrypt_sens update_sens sens_length.
  destruct current as [c|], incoming as [i|]; simpl; try exact (fun _ => I).
  destruct (encrypt (update c i)) as [p'|] eqn:E; simpl;
    intros H; inversion H; subst.
  exists (sens p'). split; [reflexivity|].
  apply secretsUpdated_intro; [apply sens_length|].
  rewrite <- update_sens. now apply encrypt_sens.
Qed.

End Variant.

Ltac encrypt_fields :=
  intros ? ? ? ?; cbv beta delta [
    local_storage.EncryptSensitiveData s3_storage.EncryptSensitiveData
    google_drive_storage.EncryptSensitiveData nas_storage.EncryptSensitiveData
    azure_blob_storage.EncryptSensitiveData ftp_storage.EncryptSensitiveData
    sftp_storage.EncryptSensitiveData rclone_storage.EncryptSensitiveData
    bindR ];
  repeat match goal with
  | |- context [encryptField ?e ?i ?v] =>
      let E := fresh "E" in destruct (encryptField e i v) eqn:E
  end;
  intros H; inversion H; subst; clear H; simpl;
  repeat first [ reflexivity | assumption | constructor ].

Lemma local_encrypt_sens encryptor entityID p p' :
  local_storage.EncryptSensitiveData encryptor entityID p = Ok p' ->
  Forall2 (fieldEncrypted encryptor entityID)
    (local_storage.sensitive p) (local_storage.sensitive p').
Proof. revert encryptor entityID p p'. encrypt_fields. Qed.

Lemma local_encrypt_pub encryptor entityID p p' :
  local_storage.EncryptSensitiveData encryptor entityID p = Ok p' ->
  local_storage.public p' = local_storage.public p.
Proof. revert encryptor entityID p p'. encrypt_fields. Qed.

Lemma s3_encrypt_sens encryptor entityID p p' :
  s3_storage.EncryptSensitiveData encryptor entityID p = Ok p' ->
  Forall2 (fieldEncrypted encryptor entityID)
    (s3_storage.sensitive p) (s3_storage.sensitive p').
Proof. revert encryptor entityID p p'. encrypt_fields. Qed.

Lemma s3_encrypt_pub encryptor entityID p p' :
  s3_storage.EncryptSensitiveData encryptor entityID p = Ok p' ->
  s3_storage.public p' = s3_storage.public p.
Proof. revert encryptor entityID p p'. encrypt_fields. Qed.

Lemma google_drive_encrypt_sens encryptor entityID p p' :
  google_drive_storage.EncryptSensitiveData encryptor entityID p = Ok p' ->
  Forall2 (fieldEncrypted encryptor entityID)
    (google_drive_storage.sensitive p) (google_drive_storage.sensitive p').
Proof. revert encryptor entityID p p'. encrypt_fields. Qed.

Lemma google_drive_encrypt_pub encryptor entityID p p' :
  google_drive_storage.EncryptSensitiveData encryptor entityID p = Ok p' ->
  google_drive_storage.public p' = google_drive_storage.public p.
Proof. revert encryptor entityID p p'. encrypt_fields. Qed.

Lemma nas_encrypt_sens encryptor entityID p p' :
  nas_storage.EncryptSensitiveData encryptor entityID p = Ok p' ->
  Forall2 (fieldEncrypted encryptor entityID)
    (nas_storage.sensitive p) (nas_storage.sensitive p').
Proof. revert encryptor entityID p p'. encrypt_fields. Qed.

Lemma nas_encrypt_pub encryptor entityID p p' :
  nas_storage.EncryptSensitiveData encryptor entityID p = Ok p' ->
  nas_storage.public p' = nas_storage.public p.
Proof. revert encryptor entityID p p'. encrypt_fields. Qed.

Lemma azure_blob_encrypt_sens encryptor entityID p p' :
  azure_blob_storage.EncryptSensitiveData encryptor entityID p = Ok p' ->
  Forall2 (fieldEncrypted encryptor entityID)
    (azure_blob_storage.sensitive p) (azure_blob_storage.sensitive p').
Proof. revert encryptor entityID p p'. encrypt_fields. Qed.

Lemma azure_blob_encrypt_pub encryptor entityID p p' :
  azure_blob_storage.EncryptSensitiveData encryptor entityID p = Ok p' ->
  azure_blob_storage.public p' = azure_blob_storage.public p.
Proof. revert encryptor entityID p p'. encrypt_fields. Qed.

Lemma ftp_encrypt_sens encryptor entityID p p' :
  ftp_storage.EncryptSensitiveData encryptor entityID p = Ok p' ->
  Forall2 (fieldEncrypted encryptor entityID)
    (ftp_storage.sensitive p) (ftp_storage.sensitive p').
Proof. revert encryptor entityID p p'. encrypt_fields. Qed.

Lemma ftp_encrypt_pub encryptor entityID p p' :
  ftp_storage.EncryptSensitiveData encryptor entityID p = Ok p' ->
  ftp_storage.public p' = ftp_storage.public p.
Proof. revert encryptor entityID p p'. encrypt_fields. Qed.

Lemma sftp_encrypt_sens encryptor entityID p p' :
  sftp_storage.EncryptSensitiveData encryptor entityID p = Ok p' ->
  Forall2 (fieldEncrypted encryptor entityID)
    (sftp_storage.sensitive p) (sftp_storage.sensitive p').
Proof. revert encryptor entityID p p'. encrypt_fields. Qed.

Lemma sftp_encrypt_pub encryptor entityID p p' :
  sftp_storage.EncryptSensitiveData encryptor entityID p = Ok p' ->
  sftp_storage.public p' = sftp_storage.public p.
Proof. revert encryptor entityID p p'. encrypt_fields. Qed.

Lemma rclone_encrypt_sens encryptor entityID p p' :
  rclone_storage.EncryptSensitiveData encryptor entityID p = Ok p' ->
  Forall2 (fieldEncrypted encryptor entityID)
    (rclone_storage.sensitive p) (rclone_storage.sensitive p').
Proof. revert encryptor entityID p p'. encrypt_fields. Qed.

Lemma rclone_encrypt_pub encryptor entityID p p' :
  rclone_storage.EncryptSensitiveData encryptor entityID p = Ok p' ->
  rclone_storage.public p' = rclone_storage.public p.
Proof. revert encryptor entityID p p'. encrypt_fields. Qed.

(** ** The aggregate: hiding, updating, encrypting *)

Lemma HideSensitiveData_sensitive s :
  sensitiveFields (HideSensitiveData s) = blanked (sensitiveFields s).
Proof.
  unfold sensitiveFields, blanked, HideSensitiveData. simpl.
  now rewrite !hidden_payload_sens by reflexivity.
Qed.

Lemma HideSensitiveData_public s :
  publicFields (HideSensitiveData s) = publicFields s.
Proof.
  unfold publicFields, HideSensitiveData. simpl.
  now rewrite !hidden_payload_pub by reflexivity.
Qed.

Lemma HideSensitiveData_header s : sameHeader s (HideSensitiveData s).
Proof. repeat split. Qed.

Lemma HideAllData_noPayload s : noPayload (HideAllData s).
Proof. repeat split. Qed.

Lemma HideAllData_header s : sameHeader s (HideAllData s).
Proof. repeat split. Qed.

Lemma sameHeader_trans a b c : sameHeader a b -> sameHeader b c -> sameHeader a c.
Proof. unfold sameHeader. intuition congruence. Qed.

Lemma EncryptSensitiveData_Ok encryptor s s' :
  EncryptSensitiveData encryptor s = Ok s' ->
  sameHeader s s' /\
  encryptPayload (local_storage.EncryptSensitiveData encryptor (ID s))
    (LocalStorage s) = Ok (LocalStorage s') /\
  encryptPayload (s3_storage.EncryptSensitiveData encryptor (ID s))
    (S3Storage s) = Ok (S3Storage s') /\
  encryptPayload (google_drive_storage.EncryptSensitiveData encryptor (ID s))
    (GoogleDriveStorage s) = Ok (GoogleDriveStorage s') /\
  encryptPayload (nas_storage.EncryptSensitiveData encryptor (ID s))
    (NASStorage s) = Ok (NASStorage s') /\
  encryptPayload (azure_blob_storage.EncryptSensitiveData encryptor (ID s))
    (AzureBlobStorage s) = Ok (AzureBlobStorage s') /\
  encryptPayload (ftp_storage.EncryptSensitiveData encryptor (ID s))
    (FTPStorage s) = Ok (FTPStorage s') /\
  encryptPayload (sftp_storage.EncryptSensitiveData encryptor (ID s))
    (SFTPStorage s) = Ok (SFTPStorage s') /\
  encryptPayload (rclone_storage.EncryptSensitiveData encryptor (ID s))
    (RcloneStorage s) = Ok (RcloneStorage s').
Proof.
  unfold EncryptSensitiveData, bindR.
  repeat match goal with
  | |- context [match encryptPayload ?f ?p with _ => _ end] =>
      destruct (encryptPayload f p)
  end; intros H; inversion H; subst; clear H; simpl.
  repeat split.
Qed.

(** The record an update stores, field by field. *)
Lemma Update_then_encrypt encryptor existing incoming stored :
  EncryptSensitiveData encryptor (Update existing incoming) = Ok stored ->
  ID stored = ID existing /\
  WorkspaceID stored = WorkspaceID existing /\
  LastSaveError stored = LastSaveError existing /\
  Type_ stored = Type_ incoming /\
  Name stored = Name incoming /\
  IsSystem stored = IsSystem incoming /\
  publicFields stored = publicFields incoming /\
  payloadsUpdated encryptor (ID existing)
    (sensitiveFields existing) (sensitiveFields incoming)
    (sensitiveFields stored).
Proof.
  intros H. apply EncryptSensitiveData_Ok in H.
  destruct H as (Hh & H1 & H2 & H3 & H4 & H5 & H6 & H7 & H8).
  destruct Hh as (Hid & Hws & Hty & Hname & Hlse & Hsys). simpl in *.
  repeat split; try congruence.
  - unfold publicFields.
    rewrite (updated_payload_pub local_storage.public local_storage.Update _
               (fun _ _ => eq_refl) (@local_encrypt_pub _ _) _ _ H1).
    rewrite (updated_payload_pub s3_storage.public s3_storage.Update _
               (fun _ _ => eq_refl) (@s3_encrypt_pub _ _) _ _ H2).
    rewrite (updated_payload_pub google_drive_storage.public google_drive_storage.Update _
               (fun _ _ => eq_refl) (@google_drive_encrypt_pub _ _) _ _ H3).
    rewrite (updated_payload_pub nas_storage.public nas_storage.Update _
               (fun _ _ => eq_refl) (@nas_encrypt_pub _ _) _ _ H4).
    rewrite (updated_payload_pub azure_blob_storage.public azure_blob_storage.Update _
               (fun _ _ => eq_refl) (@azure_blob_encrypt_pub _ _) _ _ H5).
    rewrite (updated_payload_pub ftp_storage.public ftp_storage.Update _
               (fun _ _ => eq_refl) (@ftp_encrypt_pub _ _) _ _ H6).
    rewrite (updated_payload_pub sftp_storage.public sftp_storage.Update _
               (fun _ _ => eq_refl) (@sftp_encrypt_pub _ _) _ _ H7).
    rewrite (updated_payload_pub rclone_storage.public rclone_storage.Update _
               (fun _ _ => eq_refl) (@rclone_encrypt_pub _ _) _ _ H8).
    reflexivity.
  - unfold sensitiveFields.
    repeat apply payloadsUpdated_cons; try apply payloadsUpdated_nil.
    + exact (updated_payload_sens local_storage.sensitive local_storage.Update _
               (fun _ _ => eq_refl) (fun _ _ => eq_refl)
               (@local_encrypt_sens _ _) _ _ H1).
    + exact (updated_payload_sens s3_storage.sensitive s3_storage.Update _
               (fun _ _ => eq_refl) (fun _ _ => eq_refl)
               (@s3_encrypt_sens _ _) _ _ H2).
    + exact (updated_payload_sens google_drive_storage.sensitive google_drive_storage.Update _
               (fun _ _ => eq_refl) (fun _ _ => eq_refl)
               (@google_drive_encrypt_sens _ _) _ _ H3).
    + exact (updated_payload_sens nas_storage.sensitive nas_storage.Update _
               (fun _ _ => eq_refl) (fun _ _ => eq_refl)
               (@nas_encrypt_sens _ _) _ _ H4).
    + exact (updated_payload_sens azure_blob_storage.sensitive azure_blob_storage.Update _
               (fun _ _ => eq_refl) (fun _ _ => eq_refl)
               (@azure_blob_encrypt_sens _ _) _ _ H5).
    + exact (updated_payload_sens ftp_storage.sensitive ftp_storage.Update _
               (fun _ _ => eq_refl) (fun _ _ => eq_refl)
               (@ftp_encrypt_sens _ _) _ _ H6).
    + exact (updated_payload_sens sftp_storage.sensitive sftp_storage.Update _
               (fun _ _ => eq_refl) (fun _ _ => eq_refl)
               (@sftp_encrypt_sens _ _) _ _ H7).
    + exact (updated_payload_sens rclone_storage.sensitive rclone_storage.Update _
               (fun _ _ => eq_refl) (fun _ _ => eq_refl)
               (@rclone_encrypt_sens _ _) _ _ H8).
Qed.

(** ** Running a method *)

Ltac unfold_go :=
  unfold bind, liftR, fail, ret, check, wrapf in *; cbv beta in *.

(** Case analysis on the next test or call a method's result depends on. *)
Ltac go_step H :=
  match type of H with
  | context [match ?x with _ => _ end] =>
      lazymatch x with
      | context [match _ with _ => _ end] => fail
      | _ => let E := fresh "E" in destruct x eqn:E
      end
  end.

Ltac go_run H :=
  repeat (try discriminate; go_step H); try discriminate.

Lemma WriteAuditLog_storages message userID workspaceID w r w' :
  WriteAuditLog message userID workspaceID w = (r, w') ->
  r = Ok tt /\ storages w' = storages w.
Proof. unfold WriteAuditLog. intros H; inversion H; subst. now split. Qed.

(** ** Creation stores the record under the workspace of the call *)

(** C10.  A successful create call (the submitted record has the nil id)
    persists exactly one new row; its owning workspace is the [workspaceID]
    argument, whatever workspace the submitted record names, and it is the
    row the repository then returns for the assigned id. *)
Theorem SaveStorage_create_workspace s user workspaceID storage w w' :
  ID storage = uuid_Nil ->
  SaveStorage s user workspaceID storage w = (Ok tt, w') ->
  exists created,
    storages w' = (storages w ++ [created])%list /\
    WorkspaceID created = workspaceID /\
    ID created <> uuid_Nil /\
    FindByID (ID created) w' = (Ok created, w').
Proof.
  intros Hnil H. unfold SaveStorage in H. rewrite Hnil in H.
  rewrite uuid_eqb_refl in H. simpl negb in H. unfold_go.
  go_run H.
  apply EncryptSensitiveData_Ok in E3. destruct E3 as [Hh _].
  destruct Hh as (Hid & Hws & _). simpl in Hid, Hws.
  apply WriteAuditLog_storages in H. destruct H as [_ Hst].
  unfold Save in E5. rewrite <- Hid, Hnil, uuid_eqb_refl in E5.
  inversion E5; subst a1 w0; clear E5. simpl in Hst.
  exists (set_ID (nextID (storages w)) a0). simpl.
  repeat split; try assumption.
  - congruence.
  - apply nextID_not_Nil.
  - unfold FindByID. rewrite Hst.
    rewrite find_app_fresh; [reflexivity | | reflexivity].
    intros r' Hin. now apply nextID_fresh.
Qed.

(** The create request of the scenario names workspace B in its payload
    and is saved under workspace A. *)
Lemma SaveStorage_create_workspace_witness :
  WorkspaceID scenario.createRequest = scenario.workspaceB /\
  exists created,
    storages scenario.afterCreate =
      (storages scenario.world ++ [created])%list /\
    WorkspaceID created = scenario.workspaceA /\
    ID created <> uuid_Nil /\
    FindByID (ID created) scenario.afterCreate
      = (Ok created, scenario.afterCreate).
Proof.
  split; [reflexivity|].
  apply (@SaveStorage_create_workspace scenario.service scenario.member
           scenario.workspaceA scenario.createRequest scenario.world
           scenario.afterCreate);
    [reflexivity | vm_compute; reflexivity].
Defined.

(** ** A system storage cannot be made private *)




(** ** Transfer between workspaces *)

(** When a transfer of a storage with these attachments may go ahead. *)
Lemma transfer_allowed_dec (attached : list UUID) (withDb : option UUID) :
  let allowed :=
    attached = [] \/ exists d, withDb = Some d /\ Forall (eq d) attached in
  (allowed /\
   match withDb with
   | Some d => existsb (fun dbID => negb (uuid_eqb dbID d)) attached = false
   | None => (0 <? List.length attached)%nat = false
   end) \/
  (~ allowed /\
   match withDb with
   | Some d => existsb (fun dbID => negb (uuid_eqb dbID d)) attached = true
   | None => (0 <? List.length attached)%nat = true
   end).
Proof.
  simpl. destruct withDb as [d|].
  - destruct (existsb (fun dbID => negb (uuid_eqb dbID d)) attached) eqn:E.
    + right. split; [|reflexivity].
      apply existsb_exists in E. destruct E as (x & Hin & Hx).
      apply negb_true_iff, uuid_eqb_neq in Hx.
      intros [-> | (d' & Hd & HF)]; [contradiction|].
      injection Hd as <-. rewrite Forall_forall in HF.
      apply HF in Hin. congruence.
    + left. split; [|reflexivity]. right. exists d. split; [reflexivity|].
      apply Forall_forall. intros x Hin.
      destruct (uuid_eqb x d) eqn:Ex.
      * apply uuid_eqb_eq in Ex. congruence.
      * assert (existsb (fun dbID => negb (uuid_eqb dbID d)) attached = true)
          by (apply existsb_exists; exists x; now rewrite Ex).
        congruence.
  - destruct attached as [|a l]; simpl.
    + left. auto.
    + right. split; [|reflexivity].
      intros [H | (d & Hd & _)]; discriminate.
Qed.

(** C6.  A system storage is never transferred.  A stored non-system
    storage, with management rights in both workspaces, is transferred
    exactly when no database is attached, or a database id is supplied and
    every attached id equals it: the record then found under its id has
    the target as its [workspaceId] and every other field as before.
    Otherwise the call fails with an attachment-constraint error and
    stores nothing. *)
Theorem TransferStorageToWorkspace_guard
    s user storageID targetWorkspaceID transferingWithDbID w existing :
  storageID <> uuid_Nil ->
  FindByID storageID w = (Ok existing, w) ->
  (IsSystem existing = true ->
   TransferStorageToWorkspace s user storageID targetWorkspaceID
     transferingWithDbID w = (Err ErrSystemStorageCannotBeTransferred, w)) /\
  (IsSystem existing = false ->
   CanUserManageDBs (workspaceService s) (WorkspaceID existing) user
     = Ok true ->
   CanUserManageDBs (workspaceService s) targetWorkspaceID user = Ok true ->
   forall attached,
     GetStorageAttachedDatabasesIDs (storageDatabaseCounter s) (ID existing)
       = Ok attached ->
     let allowed :=
       attached = [] \/
       exists d, transferingWithDbID = Some d /\ Forall (eq d) attached in
     (allowed ->
      exists w' stored,
        TransferStorageToWorkspace s user storageID targetWorkspaceID
          transferingWithDbID w = (Ok tt, w') /\
        FindByID storageID w' = (Ok stored, w') /\
        WorkspaceID stored = targetWorkspaceID /\
        ID stored = ID existing /\
        Type_ stored = Type_ existing /\
        Name stored = Name existing /\
        LastSaveError stored = LastSaveError existing /\
        IsSystem stored = IsSystem existing /\
        samePayloads stored existing) /\
     (~ allowed ->
      exists e,
        TransferStorageToWorkspace s user storageID targetWorkspaceID
          transferingWithDbID w = (Err e, w) /\
        isAttachmentConstraint e = true /\
        e = match transferingWithDbID with
            | Some _ => ErrStorageHasOtherAttachedDatabasesCannotTransfer
            | None => ErrStorageHasAttachedDatabasesCannotTransfer
            end)).
Proof.
  intros Hid Hfind.
  pose proof (FindByID_Ok _ _ Hfind) as (_ & _ & HidE).
  unfold TransferStorageToWorkspace. unfold_go. rewrite Hfind. split.
  - intros ->. reflexivity.
  - intros Hsys Hsrc Htgt attached Hatt. rewrite Hsys, Hsrc, Htgt, Hatt.
    simpl.
    destruct (transfer_allowed_dec attached transferingWithDbID)
      as [[Hall Hb] | [Hnot Hb]]; simpl in *.
    + split; [intros _ | intros Hn; contradiction].
      assert (Hchk :
        match transferingWithDbID with
        | Some withDbID =>
            if existsb (fun dbID => negb (uuid_eqb dbID withDbID)) attached
            then Some ErrStorageHasOtherAttachedDatabasesCannotTransfer
            else None
        | None =>
            if (0 <? List.length attached)%nat
            then Some ErrStorageHasAttachedDatabasesCannotTransfer
            else None
        end = None)
        by (destruct transferingWithDbID; now rewrite Hb).
      rewrite Hchk.
      destruct (Save (set_WorkspaceID targetWorkspaceID existing) w)
        as [r w1] eqn:ESave.
      assert (r = Ok (set_WorkspaceID targetWorkspaceID existing)).
      { eapply Save_existing; [|exact ESave].
        simpl. rewrite HidE. now apply uuid_eqb_neq. }
      subst r. apply FindByID_Save in ESave. simpl ID in ESave.
      rewrite HidE in ESave. cbv beta iota.
      match goal with
      | |- context [WriteAuditLog ?m ?u ?k w1] =>
          destruct (WriteAuditLog m u k w1) as [r2 w2] eqn:EW
      end.
      apply WriteAuditLog_storages in EW. destruct EW as [-> Hst].
      exists w2, (set_WorkspaceID targetWorkspaceID existing).
      split; [reflexivity|].
      split; [eapply FindByID_storages; eassumption|].
      unfold samePayloads. simpl.
      repeat split; first [reflexivity | exact Hsys].
    + split; [intros Hy; contradiction | intros _].
      destruct transferingWithDbID; rewrite Hb;
        eexists; repeat split; reflexivity.
Qed.

(** Storage 105 backs up database 7 only; it moves to workspace B together
    with that database. *)
Lemma TransferStorageToWorkspace_guard_witness :
  exists w' stored,
    TransferStorageToWorkspace scenario.service scenario.member 105%N
      scenario.workspaceB (Some 7%N) scenario.world = (Ok tt, w') /\
    FindByID 105%N w' = (Ok stored, w') /\
    WorkspaceID stored = scenario.workspaceB /\
    ID stored = 105%N /\
    Type_ stored = StorageTypeLocal /\
    Name stored = "scratch" /\
    LastSaveError stored = None /\
    IsSystem stored = false /\
    samePayloads stored
      (scenario.localRow 105%N scenario.workspaceC "scratch" false).
Proof.
  assert (Hid : 105%N <> uuid_Nil) by discriminate.
  assert (Hfind :
    FindByID 105%N scenario.world
      = (Ok (scenario.localRow 105%N scenario.workspaceC "scratch" false),
         scenario.world)) by (vm_compute; reflexivity).
  destruct (@TransferStorageToWorkspace_guard scenario.service
              scenario.member 105%N scenario.workspaceB (Some 7%N)
              scenario.world _ Hid Hfind) as [_ Hprivate].
  destruct (Hprivate eq_refl eq_refl eq_refl [7%N] eq_refl) as [Hallowed _].
  apply Hallowed. right. exists 7%N.
  split; [reflexivity | repeat constructor].
Defined.

(** ** The hook before a workspace is deleted *)

Lemma NoDup_map_ID rows a b :
  NoDup (map ID rows) -> In a rows -> In b rows -> ID a = ID b -> a = b.
Proof.
  induction rows as [|r rows IH]; simpl; [tauto|].
  intros Hnd Ha Hb Hid. inversion Hnd as [|? ? Hnotin Hnd']; subst.
  destruct Ha as [-> | Ha], Hb as [-> | Hb]; auto.
  - exfalso. apply Hnotin. rewrite Hid. now apply in_map.
  - exfalso. apply Hnotin. rewrite <- Hid. now apply in_map.
Qed.

Lemma filter_filter {A} (f g : A -> bool) l :
  filter f (filter g l) = filter (fun x => g x && f x) l.
Proof.
  induction l as [|x l IH]; simpl; [reflexivity|].
  destruct (g x); simpl; [destruct (f x)|]; now rewrite IH.
Qed.

(** The rows the loop removes: those that share their id with a non-system
    record of the list it walks. *)
Lemma deleteWorkspaceStorages_Ok workspaceID l :
  (forall x, In x l -> IsSystem x = true -> ownedBy workspaceID x = false) ->
  forall w,
    deleteWorkspaceStorages workspaceID l w =
    (Ok tt,
     {| storages :=
          filter
            (fun row =>
               negb (existsb
                       (fun d => negb (IsSystem d) && hasID (ID d) row) l))
            (storages w);
        auditLogs := auditLogs w |}).
Proof.
  induction l as [|x l IH]; intros Hl w; simpl.
  - unfold ret. rewrite filter_true. now destruct w.
  - assert (Hl' : forall y, In y l -> IsSystem y = true ->
                            ownedBy workspaceID y = false)
      by (intros y Hy; apply Hl; now right).
    destruct (IsSystem x) eqn:Esys; simpl.
    + rewrite (Hl x (or_introl eq_refl) Esys : uuid_eqb _ _ = false). simpl.
      apply IH, Hl'.
    + unfold bind, wrapf, Delete. rewrite (IH Hl'). simpl.
      rewrite filter_filter. f_equal. f_equal.
      apply filter_ext. intros row. now rewrite negb_orb.
Qed.

Lemma deleteWorkspaceStorages_blocked workspaceID l :
  (exists x, In x l /\ IsSystem x = true /\ ownedBy workspaceID x = true) ->
  forall w, exists w',
    deleteWorkspaceStorages workspaceID l w
      = (Err systemStorageBlocksDeletion, w').
Proof.
  induction l as [|x l IH]; intros (y & Hin & Hsys & Hown) w;
    simpl in *; [contradiction|].
  destruct (IsSystem x && negb (uuid_eqb (WorkspaceID x) workspaceID))
    eqn:E1.
  - apply IH. exists y. destruct Hin as [-> | Hin]; [|now auto].
    unfold ownedBy in Hown. rewrite Hsys, Hown in E1. discriminate.
  - destruct (IsSystem x && uuid_eqb (WorkspaceID x) workspaceID) eqn:E2.
    + eexists. reflexivity.
    + unfold bind, wrapf, Delete.
      apply IH. exists y. destruct Hin as [-> | Hin]; [|now auto].
      unfold ownedBy in Hown. rewrite Hsys, Hown in E2. discriminate.
Qed.

Lemma deleteWorkspaceStorages_keeps workspaceID l row :
  (forall x, In x l -> ID x = ID row -> IsSystem x = true) ->
  forall w r w',
    deleteWorkspaceStorages workspaceID l w = (r, w') ->
    In row (storages w) -> In row (storages w').
Proof.
  induction l as [|x l IH]; intros Hl w r w'; simpl.
  - unfold ret. intros H; now inversion H.
  - assert (Hl' : forall y, In y l -> ID y = ID row -> IsSystem y = true)
      by (intros y Hy; apply Hl; now right).
    destruct (IsSystem x) eqn:Esys; simpl.
    + destruct (uuid_eqb (WorkspaceID x) workspaceID); simpl.
      * unfold fail. intros H; now inversion H.
      * apply IH, Hl'.
    + unfold bind, wrapf, Delete. intros H Hin.
      apply (IH Hl' _ _ _ H). simpl. apply filter_In. split; [exact Hin|].
      apply negb_true_iff. unfold hasID.
      destruct (uuid_eqb (ID row) (ID x)) eqn:E; [|reflexivity].
      apply uuid_eqb_eq in E. symmetry in E.
      specialize (Hl x (or_introl eq_refl) E). congruence.
Qed.

(** C7.  With the primary key in force, the hook (i) leaves every system
    storage of another workspace stored, whatever it returns, (ii) returns
    the constraint error when the workspace owns a system storage, so that
    the deletion of the workspace is blocked, and (iii) otherwise succeeds
    and removes exactly the storages the workspace owns, all of them
    non-system. *)
Theorem OnBeforeWorkspaceDeletion_guard s workspaceID w :
  uniqueIDs w ->
  (forall row r w',
     In row (storages w) -> IsSystem row = true ->
     ownedBy workspaceID row = false ->
     OnBeforeWorkspaceDeletion s workspaceID w = (r, w') ->
     In row (storages w')) /\
  ((exists row, In row (storages w) /\ IsSystem row = true /\
                ownedBy workspaceID row = true) ->
   exists w',
     OnBeforeWorkspaceDeletion s workspaceID w
       = (Err systemStorageBlocksDeletion, w')) /\
  ((forall row, In row (storages w) -> ownedBy workspaceID row = true ->
                IsSystem row = false) ->
   OnBeforeWorkspaceDeletion s workspaceID w =
   (Ok tt,
    {| storages :=
         filter (fun row => negb (ownedBy workspaceID row)) (storages w);
       auditLogs := auditLogs w |})).
Proof.
  intros Huniq. unfold OnBeforeWorkspaceDeletion, bind, wrapf.
  unfold FindByWorkspaceID. cbv beta iota.
  set (visible := fun row : Storage =>
                    uuid_eqb (WorkspaceID row) workspaceID || IsSystem row).
  split; [|split].
  - intros row r w' Hin Hsys Hown Hrun.
    eapply deleteWorkspaceStorages_keeps; [| exact Hrun | exact Hin].
    intros x Hx Hid. apply filter_In in Hx. destruct Hx as [Hx _].
    assert (x = row) by (eapply NoDup_map_ID; eassumption).
    congruence.
  - intros (row & Hin & Hsys & Hown).
    apply deleteWorkspaceStorages_blocked. exists row.
    repeat split; try assumption.
    apply filter_In. split; [exact Hin|]. unfold visible.
    now rewrite Hsys, orb_true_r.
  - intros Hnone. rewrite deleteWorkspaceStorages_Ok.
    + f_equal. f_equal. apply filter_ext_in. intros row Hin. f_equal.
      destruct (ownedBy workspaceID row) eqn:Hown.
      * apply existsb_exists. exists row. split.
        -- apply filter_In. split; [exact Hin|]. unfold visible.
           unfold ownedBy in Hown. now rewrite Hown.
        -- rewrite (Hnone row Hin Hown). unfold hasID.
           now rewrite uuid_eqb_refl.
      * destruct (existsb _ (filter visible (storages w))) eqn:Eex;
          [|reflexivity].
        apply existsb_exists in Eex. destruct Eex as (d & Hd & Hcond).
        apply filter_In in Hd. destruct Hd as [Hd Hvis].
        apply andb_true_iff in Hcond. destruct Hcond as [Hns Hid].
        apply negb_true_iff in Hns. unfold hasID in Hid.
        apply uuid_eqb_eq in Hid.
        assert (row = d) by (eapply NoDup_map_ID; eassumption).
        subst d. unfold visible in Hvis. unfold ownedBy in Hown.
        rewrite Hown, Hns in Hvis. discriminate.
    + intros x Hx Hsys. apply filter_In in Hx. destruct Hx as [Hx _].
      destruct (ownedBy workspaceID x) eqn:Hown; [|reflexivity].
      rewrite (Hnone x Hx Hown) in Hsys. discriminate.
Qed.

Lemma scenario_uniqueIDs : uniqueIDs scenario.world.
Proof.
  unfold uniqueIDs. simpl.
  repeat constructor; simpl; intuition discriminate.
Qed.

(** Workspace C owns the private storage 105 only: its deletion goes
    ahead, storage 105 is removed, and the system storages 103 and 104 of
    the workspaces A and B stay. *)
Lemma OnBeforeWorkspaceDeletion_guard_witness :
  OnBeforeWorkspaceDeletion scenario.service scenario.workspaceC
    scenario.world =
  (Ok tt,
   {| storages :=
        [ scenario.localRow 101%N scenario.workspaceA "disk" false;
          scenario.s3Row 102%N scenario.workspaceA "bucket" scenario.storedS3;
          scenario.localRow 103%N scenario.workspaceA "shared disk" true;
          scenario.localRow 104%N scenario.workspaceB "shared archive" true ];
      auditLogs := [] |}).
Proof.
  destruct (@OnBeforeWorkspaceDeletion_guard scenario.service
              scenario.workspaceC scenario.world scenario_uniqueIDs)
    as (_ & _ & Hdeletes).
  apply Hdeletes. simpl.
  intros row [<- | [<- | [<- | [<- | [<- | []]]]]]; simpl;
    intros H; try discriminate H; reflexivity.
Defined.

(** ** Errors and partial writes *)

Lemma Save_never_fails s w e w' : Save s w <> (Err e, w').
Proof.
  destruct (Save_Ok s w) as (saved & w1 & ->). discriminate.
Qed.

Lemma WriteAuditLog_never_fails message userID workspaceID w e w' :
  WriteAuditLog message userID workspaceID w <> (Err e, w').
Proof. unfold WriteAuditLog. discriminate. Qed.

Ltac atomic H :=
  unfold_go; go_run H;
  try (apply FindByID_state in H);
  repeat match goal with
  | E : FindByID _ _ = _ |- _ => apply FindByID_state in E
  | E : Save _ _ = (Err _, _) |- _ => now apply Save_never_fails in E
  | E : WriteAuditLog _ _ _ _ = (Err _, _) |- _ =>
      now apply WriteAuditLog_never_fails in E
  end;
  try (inversion H; subst; clear H); subst; try reflexivity; try congruence.

(** Three of the four mutating operations check everything before they
    write: when they return an error, the store is as it was. *)
Lemma SaveStorage_error_atomic s user workspaceID storage w e w' :
  SaveStorage s user workspaceID storage w = (Err e, w') -> w' = w.
Proof. intros H. unfold SaveStorage in H. atomic H. Qed.

Lemma DeleteStorage_error_atomic s user storageID w e w' :
  DeleteStorage s user storageID w = (Err e, w') -> w' = w.
Proof. intros H. unfold DeleteStorage, Delete in H. atomic H. Qed.

Lemma TransferStorageToWorkspace_error_atomic
    s user storageID targetWorkspaceID transferingWithDbID w e w' :
  TransferStorageToWorkspace s user storageID targetWorkspaceID
    transferingWithDbID w = (Err e, w') ->
  w' = w.
Proof. intros H. unfold TransferStorageToWorkspace in H. atomic H. Qed.

(** C8, at a failing input.  Workspace A owns the private storages 101 and
    102 and the system storage 103, listed in this order.  The hook returns
    the constraint error, and by then it has removed 101 and 102: the
    store is not the store before the call. *)
Theorem OnBeforeWorkspaceDeletion_partial_delete :
  OnBeforeWorkspaceDeletion scenario.service scenario.workspaceA
    scenario.world =
  (Err systemStorageBlocksDeletion,
   {| storages :=
        [ scenario.localRow 103%N scenario.workspaceA "shared disk" true;
          scenario.localRow 104%N scenario.workspaceB "shared archive" true;
          scenario.localRow 105%N scenario.workspaceC "scratch" false ];
      auditLogs := [] |}) /\
  FindByID 101%N scenario.world
    = (Ok (scenario.localRow 101%N scenario.workspaceA "disk" false),
       scenario.world) /\
  fst (FindByID 101%N
         (snd (OnBeforeWorkspaceDeletion scenario.service scenario.workspaceA
                 scenario.world)))
    = Err ErrRecordNotFound.
Proof. repeat split; vm_compute; reflexivity. Qed.

(** ** Testing the connection of a stored storage *)

(** A failed probe: the error is returned and nothing is saved. *)
Lemma TestStorageConnection_failure s user storageID w storage role err :
  FindByID storageID w = (Ok storage, w) ->
  CanUserAccessWorkspace (workspaceService s) (WorkspaceID storage) user
    = Ok (true, role) ->
  TestConnection s (fieldEncryptor s) storage = Some err ->
  TestStorageConnection s user storageID w = (Err err, w).
Proof.
  intros Hfind Hview Hprobe. unfold TestStorageConnection. unfold_go.
  now rewrite Hfind, Hview, Hprobe.
Qed.

(** A successful probe: the cleared field is saved. *)
Lemma TestStorageConnection_success s user storageID w storage role :
  storageID <> uuid_Nil ->
  FindByID storageID w = (Ok storage, w) ->
  CanUserAccessWorkspace (workspaceService s) (WorkspaceID storage) user
    = Ok (true, role) ->
  TestConnection s (fieldEncryptor s) storage = None ->
  exists w' stored,
    TestStorageConnection s user storageID w = (Ok tt, w') /\
    FindByID storageID w' = (Ok stored, w') /\
    LastSaveError stored = None.
Proof.
  intros Hid Hfind Hview Hprobe.
  pose proof (FindByID_Ok _ _ Hfind) as (_ & _ & HidE).
  unfold TestStorageConnection. unfold_go.
  rewrite Hfind, Hview, Hprobe. cbv beta iota delta [negb].
  destruct (Save (set_LastSaveError None storage) w) as [r w1] eqn:ESave.
  assert (r = Ok (set_LastSaveError None storage)).
  { eapply Save_existing; [|exact ESave].
    simpl. rewrite HidE. now apply uuid_eqb_neq. }
  subst r. apply FindByID_Save in ESave. simpl ID in ESave.
  rewrite HidE in ESave. exists w1, (set_LastSaveError None storage).
  split; [reflexivity | split; [exact ESave | reflexivity]].
Qed.

(** C1, at a failing input.  The probe of the S3 storage 102 fails with
    "connection refused".  The call returns that error, and the stored
    record still has no [lastSaveError]: the store is untouched. *)
Theorem TestStorageConnection_error_not_persisted :
  TestStorageConnection scenario.service scenario.member 102%N scenario.world
    = (Err (Errorf "connection refused"), scenario.world) /\
  FindByID 102%N scenario.world
    = (Ok (scenario.s3Row 102%N scenario.workspaceA "bucket"
             scenario.storedS3),
       scenario.world) /\
  LastSaveError
    (scenario.s3Row 102%N scenario.workspaceA "bucket" scenario.storedS3)
    = None.
Proof. repeat split; vm_compute; reflexivity. Qed.

(** ** Reading a storage *)

(** C2, as stated, fails: [outsider] has no view rights on workspace A,
    which owns the system storage 103, and [GetStorage] returns the record
    (without its payload) instead of the permission error. *)
Lemma GetStorage_system_counterexample :
  FindByID 103%N scenario.world
    = (Ok (scenario.localRow 103%N scenario.workspaceA "shared disk" true),
       scenario.world) /\
  CanUserAccessWorkspace (workspaceService scenario.service)
    scenario.workspaceA scenario.outsider = Ok (false, None) /\
  GetStorage scenario.service scenario.outsider 103%N scenario.world
    = (Ok (HideAllData
             (scenario.localRow 103%N scenario.workspaceA "shared disk"
                true)),
       scenario.world).
Proof. repeat split; vm_compute; reflexivity. Qed.

(** C2, amended.  For a stored non-system storage, [GetStorage] returns
    the permission error whenever the actor lacks view rights on the
    owning workspace, and returns the record only to an actor who has
    them.  A system storage is returned to every actor, without asking the
    workspace service. *)
Theorem GetStorage_view_rights s user id w storage :
  FindByID id w = (Ok storage, w) ->
  (IsSystem storage = false ->
   forall role,
     CanUserAccessWorkspace (workspaceService s) (WorkspaceID storage) user
       = Ok (false, role) ->
     GetStorage s user id w = (Err ErrInsufficientPermissionsToViewStorage, w))
  /\
  (IsSystem storage = false ->
   forall returned w',
     GetStorage s user id w = (Ok returned, w') ->
     exists role,
       CanUserAccessWorkspace (workspaceService s) (WorkspaceID storage) user
         = Ok (true, role))
  /\
  (IsSystem storage = true ->
   GetStorage s user id w = (Ok (hideFor user storage), w)).
Proof.
  intros Hfind. unfold GetStorage, hideFor. unfold_go. rewrite Hfind.
  repeat split.
  - intros -> role ->. reflexivity.
  - intros -> returned w'. simpl negb. cbv iota.
    destruct (CanUserAccessWorkspace (workspaceService s)
                (WorkspaceID storage) user) as [[[|] role]|e];
      try discriminate.
    intros _. now exists role.
  - intros ->. reflexivity.
Qed.

(** [outsider] is refused the private storage 101 of workspace A. *)
Lemma GetStorage_view_rights_witness :
  GetStorage scenario.service scenario.outsider 101%N scenario.world
    = (Err ErrInsufficientPermissionsToViewStorage, scenario.world).
Proof.
  assert (Hfind :
    FindByID 101%N scenario.world
      = (Ok (scenario.localRow 101%N scenario.workspaceA "disk" false),
         scenario.world)) by (vm_compute; reflexivity).
  destruct (@GetStorage_view_rights scenario.service scenario.outsider
              101%N scenario.world _ Hfind) as (Hdenied & _ & _).
  apply (Hdenied eq_refl None). reflexivity.
Defined.

Lemma hideFor_viewOf user stored : viewOf user stored (hideFor user stored).
Proof.
  unfold viewOf, hideFor.
  change (IsSystem (HideSensitiveData stored)) with (IsSystem stored).
  destruct (IsSystem stored) eqn:Esys; simpl andb.
  - destruct (notAdmin user) eqn:Eadm.
    + split; [|split].
      * eapply sameHeader_trans;
          [apply HideSensitiveData_header | apply HideAllData_header].
      * intros _ _. apply HideAllData_noPayload.
      * intros [H | H]; [discriminate|].
        apply notAdmin_false in H. congruence.
    + split; [apply HideSensitiveData_header | split].
      * intros _ H. apply notAdmin_true in H. congruence.
      * intros _. split;
          [apply HideSensitiveData_sensitive | apply HideSensitiveData_public].
  - split; [apply HideSensitiveData_header | split].
    + discriminate.
    + intros _. split;
        [apply HideSensitiveData_sensitive | apply HideSensitiveData_public].
Qed.

(** C3.  Whatever [GetStorage] or [GetStorages] returns is the view of a
    stored record: for a system storage and a viewer who is not a global
    administrator all eight payloads are null; for every other viewer who
    gets the record, each sensitive field is the empty string and each
    other payload field has its stored value.  Neither call writes. *)
Theorem GetStorage_hides_secrets s user w :
  (forall id returned w',
     GetStorage s user id w = (Ok returned, w') ->
     w' = w /\
     exists stored,
       In stored (storages w) /\ ID stored = id /\
       viewOf user stored returned) /\
  (forall workspaceID returned w',
     GetStorages s user workspaceID w = (Ok returned, w') ->
     w' = w /\
     Forall2 (viewOf user)
       (filter
          (fun row => ownedBy workspaceID row || IsSystem row) (storages w))
       returned).
Proof.
  split.
  - intros id returned w' H. unfold GetStorage in H.
    unfold_go. go_run H;
      match goal with
      | E : FindByID _ _ = _ |- _ =>
          apply FindByID_Ok in E; destruct E as (-> & Hin & Hid)
      end;
      inversion H; subst; clear H;
      (split; [reflexivity|]);
      eexists; (split; [eassumption|]); (split; [reflexivity|]);
      match goal with
      | E : IsSystem (HideSensitiveData ?a) && notAdmin ?u = _ |- _ =>
          pose proof (hideFor_viewOf u a) as Hv;
          unfold hideFor in Hv; rewrite E in Hv; exact Hv
      end.
  - intros workspaceID returned w' H. unfold GetStorages in H.
    unfold FindByWorkspaceID in H. unfold_go. go_run H.
    inversion H; subst; clear H. inversion E1; subst; clear E1.
    split; [reflexivity|]. unfold ownedBy.
    induction (filter _ (storages w')) as [|row rows IH]; simpl;
      constructor; [exact (hideFor_viewOf user row) | exact IH].
Qed.

(** [member] reads the S3 storage 102: both keys come back empty, bucket,
    region and endpoint as stored. *)
Lemma GetStorage_hides_secrets_witness :
  exists stored,
    In stored (storages scenario.world) /\ ID stored = 102%N /\
    viewOf scenario.member stored
      (scenario.s3Row 102%N scenario.workspaceA "bucket" scenario.hiddenS3).
Proof.
  destruct (@GetStorage_hides_secrets scenario.service scenario.member
              scenario.world) as [Hget _].
  destruct (Hget 102%N
              (scenario.s3Row 102%N scenario.workspaceA "bucket"
                 scenario.hiddenS3)
              scenario.world) as [_ Hview].
  - vm_compute. reflexivity.
  - exact Hview.
Defined.

(** ** Updating a stored storage *)

(** C4.  After a successful update of a stored storage, the repository
    holds under the same id a record whose name, type, visibility class
    and non-sensitive payload fields are the incoming ones.  For every
    sensitive field of a payload kind the stored and the incoming record
    both carry: submitted empty, a persisted value (empty or ciphertext) is
    kept as it was; submitted non-empty, the stored value is replaced by
    the encryption of the submitted one. *)
Theorem SaveStorage_update_preserves_secrets
    s user workspaceID incoming w w' existing :
  ID incoming <> uuid_Nil ->
  FindByID (ID incoming) w = (Ok existing, w) ->
  SaveStorage s user workspaceID incoming w = (Ok tt, w') ->
  exists stored,
    FindByID (ID incoming) w' = (Ok stored, w') /\
    Name stored = Name incoming /\
    Type_ stored = Type_ incoming /\
    IsSystem stored = IsSystem incoming /\
    publicFields stored = publicFields incoming /\
    payloadsUpdated (fieldEncryptor s) (ID incoming)
      (sensitiveFields existing) (sensitiveFields incoming)
      (sensitiveFields stored).
Proof.
  intros Hid Hfind H.
  pose proof (FindByID_Ok _ _ Hfind) as (_ & _ & HidE).
  unfold SaveStorage in H. unfold_go.
  apply uuid_eqb_neq in Hid. rewrite Hid in H. simpl negb in H.
  go_run H.
  inversion Hfind; subst; clear Hfind.
  apply WriteAuditLog_storages in H. destruct H as [_ Hst].
  match goal with
  | E : EncryptSensitiveData _ (Update _ _) = Ok ?x |- _ =>
      rename x into stored; apply Update_then_encrypt in E;
      destruct E as (Hi & _ & _ & Hty & Hname & Hsys & Hpub & Hsec)
  end.
  match goal with
  | E : Save stored w = (Ok ?x, ?w1) |- _ =>
      assert (Ok x = Ok stored)
        by (eapply Save_existing; [|exact E]; rewrite Hi, HidE; exact Hid);
      apply FindByID_Save in E
  end.
  match goal with
  | Heq : Ok ?x = Ok stored |- _ => inversion Heq; subst x
  end.
  exists stored. rewrite HidE in Hsec. rewrite Hi, HidE in *.
  repeat split; try assumption.
  eapply FindByID_storages; eassumption.
Qed.

(** The update of the lifecycle test on storage 102: the access key was
    submitted empty, the secret key anew. *)
Lemma SaveStorage_update_preserves_secrets_witness :
  exists stored,
    FindByID 102%N scenario.afterUpdate = (Ok stored, scenario.afterUpdate) /\
    Name stored = "Updated S3 Storage" /\
    Type_ stored = StorageTypeS3 /\
    IsSystem stored = false /\
    publicFields stored = publicFields scenario.updateOfS3 /\
    payloadsUpdated sealed_box.encryptor 102%N
      (sensitiveFields
         (scenario.s3Row 102%N scenario.workspaceA "bucket"
            scenario.storedS3))
      (sensitiveFields scenario.updateOfS3)
      (sensitiveFields stored).
Proof.
  apply (@SaveStorage_update_preserves_secrets scenario.service
           scenario.member scenario.workspaceA scenario.updateOfS3
           scenario.world scenario.afterUpdate
           (scenario.s3Row 102%N scenario.workspaceA "bucket"
              scenario.storedS3));
    [discriminate | vm_compute; reflexivity | vm_compute; reflexivity].
Defined.

(** The same run, read off the store: the old access key, the new secret
    key under the marker, the new bucket. *)
Example SaveStorage_update_run :
  fst (FindByID 102%N scenario.afterUpdate) =
  Ok (scenario.s3Row 102%N scenario.workspaceA "Updated S3 Storage"
        {| s3_storage.S3Bucket := "updated-bucket";
           s3_storage.S3Region := "us-west-2";
           s3_storage.S3AccessKey := "enc:102:original-access-key";
           s3_storage.S3SecretKey := "enc:102:rotated-secret-key";
           s3_storage.S3Endpoint := "https://s3.us-west-2.amazonaws.com" |}).
Proof. vm_compute. reflexivity. Qed.

(** ** The field encryptor: round trip *)

Lemma prefix_empty (p : string) : String.prefix "" p = true.
Proof. now destruct p. Qed.

Lemma prefix_app (h p : string) : String.prefix h (h ++ p) = true.
Proof.
  induction h as [|c h IH]; simpl; [apply prefix_empty|].
  destruct (ascii_dec c c); [exact IH | congruence].
Qed.

Lemma skip_app (h p : string) :
  sealed_box.skip (String.length h) (h ++ p) = p.
Proof. induction h as [|c h IH]; simpl; [reflexivity | exact IH]. Qed.

Lemma sealed_box_opens entityID plaintext :
  sealed_box.Decrypt entityID (sealed_box.header entityID ++ plaintext)
  = Ok plaintext.
Proof. unfold sealed_box.Decrypt. now rewrite prefix_app, skip_app. Qed.

(** C9.  For every entity id and every plaintext, decrypting under the
    entity what was encrypted under it yields the plaintext. *)
Theorem FieldEncryptor_round_trip (entityID : UUID) (plaintext : string) :
  bindR (Encrypt sealed_box.encryptor entityID plaintext)
    (Decrypt sealed_box.encryptor entityID)
  = Ok plaintext.
Proof. simpl. apply sealed_box_opens. Qed.

(** The ciphertext carries the marker. *)
Lemma sealed_box_marker entityID plaintext ciphertext :
  Encrypt sealed_box.encryptor entityID plaintext = Ok ciphertext ->
  isEncrypted ciphertext = true.
Proof.
  simpl. unfold sealed_box.Encrypt, sealed_box.header. intros H.
  inversion H; subst. unfold isEncrypted, encryptedPrefix. simpl.
  apply prefix_empty.
Qed.

(** Every sensitive field goes through [encryptField]: a fresh plaintext
    is recovered from what is stored for it. *)
Lemma encryptField_round_trip entityID value stored :
  value <> "" -> isEncrypted value = false ->
  encryptField sealed_box.encryptor entityID value = Ok stored ->
  Decrypt sealed_box.encryptor entityID stored = Ok value.
Proof.
  intros Hne Hfresh. unfold encryptField.
  apply isEmpty_false in Hne. rewrite Hne, Hfresh. simpl.
  unfold sealed_box.Encrypt. intros H. inversion H; subst.
  apply sealed_box_opens.
Qed.

(** * Further properties of the service *)

(** ** The repository under one write *)

Lemma find_filter_no_ID id rows :
  find (hasID id) (filter (fun row => negb (hasID id row)) rows) = None.
Proof.
  induction rows as [|r rows IH]; simpl; [reflexivity|].
  destruct (hasID id r) eqn:E; simpl; [exact IH | now rewrite E].
Qed.

Lemma find_filter_other id id' rows :
  id' <> id ->
  find (hasID id') (filter (fun row => negb (hasID id row)) rows)
  = find (hasID id') rows.
Proof.
  intros Hne. induction rows as [|r rows IH]; simpl; [reflexivity|].
  destruct (hasID id r) eqn:E; simpl.
  - destruct (hasID id' r) eqn:E'; [|exact IH].
    unfold hasID in E, E'. apply uuid_eqb_eq in E, E'. congruence.
  - destruct (hasID id' r); [reflexivity | exact IH].
Qed.

Lemma find_replaceRow_other s id' rows :
  id' <> ID s ->
  find (hasID id') (replaceRow s rows) = find (hasID id') rows.
Proof.
  intros Hne. induction rows as [|r rows IH]; simpl; [reflexivity|].
  destruct (hasID (ID s) r) eqn:E; simpl.
  - assert (hasID id' s = false) as ->
      by (unfold hasID; apply uuid_eqb_neq; congruence).
    assert (hasID id' r = false) as ->; [|reflexivity].
    unfold hasID in *. apply uuid_eqb_eq in E. apply uuid_eqb_neq. congruence.
  - destruct (hasID id' r); [reflexivity | exact IH].
Qed.

Lemma length_replaceRow s rows :
  List.length (replaceRow s rows) = List.length rows.
Proof.
  induction rows as [|r rows IH]; simpl; [reflexivity|].
  destruct (hasID (ID s) r); simpl; [reflexivity | now rewrite IH].
Qed.

Lemma find_existsb_hasID id rows row :
  find (hasID id) rows = Some row -> existsb (hasID id) rows = true.
Proof.
  intros H. apply find_some in H. apply existsb_exists. now exists row.
Qed.

(** Saving a record that has an id and is stored: the row is replaced in
    place and nothing else changes. *)
Lemma Save_stored s w row :
  ID s <> uuid_Nil ->
  find (hasID (ID s)) (storages w) = Some row ->
  Save s w =
  (Ok s, {| storages := replaceRow s (storages w); auditLogs := auditLogs w |}).
Proof.
  intros Hid Hfind. unfold Save.
  apply uuid_eqb_neq in Hid. rewrite Hid.
  now rewrite (find_existsb_hasID _ _ Hfind).
Qed.

Lemma FindByID_find id w row :
  FindByID id w = (Ok row, w) -> find (hasID id) (storages w) = Some row.
Proof.
  unfold FindByID. destruct (find (hasID id) (storages w));
    intros H; now inversion H.
Qed.

Lemma FindByID_fst id w :
  fst (FindByID id w) =
  match find (hasID id) (storages w) with
  | Some row => Ok row
  | None => Err ErrRecordNotFound
  end.
Proof. unfold FindByID. now destruct (find (hasID id) (storages w)). Qed.

(** ** Deleting a storage *)

(** What a successful [DeleteStorage] took. *)
Lemma DeleteStorage_Ok_inv s user storageID w w' storage :
  FindByID storageID w = (Ok storage, w) ->
  DeleteStorage s user storageID w = (Ok tt, w') ->
  CanUserManageDBs (workspaceService s) (WorkspaceID storage) user = Ok true /\
  IsSystem storage && notAdmin user = false /\
  GetStorageAttachedDatabasesIDs (storageDatabaseCounter s) (ID storage)
    = Ok [] /\
  w' =
  {| storages :=
       filter (fun row => negb (hasID (ID storage) row)) (storages w);
     auditLogs :=
       (auditLogs w ++
        [{| audit_message := "Storage deleted: " ++ Name storage;
            audit_userID := Some (user_ID user);
            audit_workspaceID := Some (WorkspaceID storage) |}])%list |}.
Proof.
  intros Hfind H. unfold DeleteStorage in H. unfold_go.
  rewrite Hfind in H. go_run H.
  destruct a; [|discriminate].
  match goal with
  | E : (0 <? List.length ?l)%nat = false |- _ =>
      destruct l; [|discriminate]
  end.
  match goal with
  | E : Delete _ _ = (_, _) |- _ => unfold Delete in E; inversion E; subst
  end.
  unfold WriteAuditLog in H. inversion H; subst. repeat split.
Qed.

(** Deletion guard.  For a stored storage, an actor who may manage its
    workspace (and is a global administrator if the storage is a system
    storage) is refused with the attachment error, and the store stays as
    it is, whenever the counter reports an attached database; with none
    attached the record is removed and is no longer found.  No call
    succeeds without these rights and an empty attachment list. *)
Theorem DeleteStorage_guard s user storageID w storage :
  FindByID storageID w = (Ok storage, w) ->
  (CanUserManageDBs (workspaceService s) (WorkspaceID storage) user = Ok true ->
   IsSystem storage && notAdmin user = false ->
   forall attached,
     GetStorageAttachedDatabasesIDs (storageDatabaseCounter s) (ID storage)
       = Ok attached ->
     (attached <> [] ->
      DeleteStorage s user storageID w
        = (Err ErrStorageHasAttachedDatabases, w)) /\
     (attached = [] ->
      exists w',
        DeleteStorage s user storageID w = (Ok tt, w') /\
        FindByID storageID w' = (Err ErrRecordNotFound, w'))) /\
  (forall w',
     DeleteStorage s user storageID w = (Ok tt, w') ->
     CanUserManageDBs (workspaceService s) (WorkspaceID storage) user
       = Ok true /\
     (IsSystem storage = true -> Role user = UserRoleAdmin) /\
     GetStorageAttachedDatabasesIDs (storageDatabaseCounter s) (ID storage)
       = Ok []).
Proof.
  intros Hfind. split.
  - intros Hcan Hsys attached Hatt.
    pose proof (FindByID_Ok _ _ Hfind) as (_ & _ & HidE).
    unfold DeleteStorage. unfold_go. rewrite Hfind, Hcan. simpl negb.
    cbv iota. rewrite Hsys, Hatt. split.
    + intros Hne. destruct attached; [contradiction | reflexivity].
    + intros ->. simpl. eexists. split; [reflexivity|].
      unfold FindByID. simpl. rewrite HidE.
      now rewrite find_filter_no_ID.
  - intros w' H.
    destruct (DeleteStorage_Ok_inv _ _ _ Hfind H) as (Hcan & Hsys & Hatt & _).
    repeat split; try assumption.
    intros Hs. rewrite Hs in Hsys. now apply notAdmin_false.
Qed.

(** [member] deletes the private storage 101, which backs up nothing. *)
Lemma DeleteStorage_guard_witness :
  exists w',
    DeleteStorage scenario.service scenario.member 101%N scenario.world
      = (Ok tt, w') /\
    FindByID 101%N w' = (Err ErrRecordNotFound, w').
Proof.
  assert (Hfind :
    FindByID 101%N scenario.world
      = (Ok (scenario.localRow 101%N scenario.workspaceA "disk" false),
         scenario.world)) by (vm_compute; reflexivity).
  destruct (@DeleteStorage_guard scenario.service scenario.member 101%N
              scenario.world _ Hfind) as [Hguard _].
  destruct (Hguard eq_refl eq_refl [] eq_refl) as [_ Hdeleted].
  exact (Hdeleted eq_refl).
Defined.

(** ** Who may write *)

(** What a successful [SaveStorage] took. *)
Lemma SaveStorage_Ok_inv s user workspaceID storage w w' :
  SaveStorage s user workspaceID storage w = (Ok tt, w') ->
  CanUserManageDBs (workspaceService s) workspaceID user = Ok true /\
  IsCloud s && StorageType_eqb (Type_ storage) StorageTypeLocal
    && notAdmin user = false /\
  IsSystem storage && notAdmin user = false /\
  (ID storage <> uuid_Nil ->
   exists existing,
     FindByID (ID storage) w = (Ok existing, w) /\
     WorkspaceID existing = workspaceID /\
     IsSystem existing && negb (IsSystem storage) = false) /\
  exists entry,
    auditLogs w' = (auditLogs w ++ [entry])%list /\
    audit_userID entry = Some (user_ID user) /\
    audit_workspaceID entry = Some workspaceID.
Proof.
  intros H. unfold SaveStorage in H. unfold_go. go_run H;
    match goal with
    | E : CanUserManageDBs _ _ _ = Ok ?a, E' : negb ?a = false |- _ =>
        destruct a; [clear E' | discriminate E']
    end;
    repeat match goal with
    | E : FindByID _ _ = (Ok _, ?w0) |- _ =>
        pose proof (FindByID_state E); subst w0
    end;
    match goal with
    | E : Save ?x ?w0 = (Ok _, ?w1) |- _ =>
        assert (auditLogs w1 = auditLogs w0)
          by (unfold Save in E;
              repeat match type of E with
              | context [if ?c then _ else _] => destruct c
              end; inversion E; reflexivity)
    end;
    unfold WriteAuditLog in H; inversion H; subst; clear H; simpl;
    (repeat split; try assumption);
    try (intros Hid; apply uuid_eqb_neq in Hid;
         match goal with
         | E : negb (uuid_eqb _ uuid_Nil) = _ |- _ => rewrite Hid in E
         end; try discriminate);
    try (eexists; repeat split; try eassumption;
         match goal with
         | E : negb (uuid_eqb ?a ?b) = false |- ?a = ?b =>
             apply negb_false_iff, uuid_eqb_eq in E; exact E
         end);
    try (eexists; split; [f_equal; eassumption || (rewrite H0; reflexivity)|];
         split; reflexivity).
  all: eexists; split; [rewrite <- H0; reflexivity | split; reflexivity].
Qed.

(** Authorization of a save.  A call that succeeds was made by an actor
    who may manage the workspace of the call; the actor is a global
    administrator if the record is submitted as a system storage, or is a
    local storage in cloud mode; and an updated record was stored under
    the workspace of the call and, if it was a system storage, is still
    submitted as one. *)
Theorem SaveStorage_success_authorized s user workspaceID storage w w' :
  SaveStorage s user workspaceID storage w = (Ok tt, w') ->
  CanUserManageDBs (workspaceService s) workspaceID user = Ok true /\
  (IsSystem storage = true -> Role user = UserRoleAdmin) /\
  (IsCloud s = true -> Type_ storage = StorageTypeLocal ->
   Role user = UserRoleAdmin) /\
  (ID storage <> uuid_Nil ->
   exists existing,
     FindByID (ID storage) w = (Ok existing, w) /\
     WorkspaceID existing = workspaceID /\
     (IsSystem existing = true -> IsSystem storage = true)).
Proof.
  intros H. apply SaveStorage_Ok_inv in H.
  destruct H as (Hcan & Hcloud & Hsys & Hupd & _).
  repeat split; try assumption.
  - intros Hs. rewrite Hs in Hsys. now apply notAdmin_false.
  - intros Hc Ht. rewrite Hc, Ht in Hcloud. now apply notAdmin_false.
  - intros Hid. destruct (Hupd Hid) as (existing & Hf & Hws & Hpriv).
    exists existing. repeat split; try assumption.
    intros He. rewrite He in Hpriv. simpl in Hpriv.
    now apply negb_false_iff.
Qed.

(** The update of storage 102 by [member] through workspace A. *)
Lemma SaveStorage_success_authorized_witness :
  CanUserManageDBs (workspaceService scenario.service) scenario.workspaceA
    scenario.member = Ok true /\
  (IsSystem scenario.updateOfS3 = true ->
   Role scenario.member = UserRoleAdmin) /\
  (IsCloud scenario.service = true ->
   Type_ scenario.updateOfS3 = StorageTypeLocal ->
   Role scenario.member = UserRoleAdmin) /\
  (ID scenario.updateOfS3 <> uuid_Nil ->
   exists existing,
     FindByID (ID scenario.updateOfS3) scenario.world
       = (Ok existing, scenario.world) /\
     WorkspaceID existing = scenario.workspaceA /\
     (IsSystem existing = true -> IsSystem scenario.updateOfS3 = true)).
Proof.
  apply (@SaveStorage_success_authorized scenario.service scenario.member
           scenario.workspaceA scenario.updateOfS3 scenario.world
           scenario.afterUpdate).
  vm_compute. reflexivity.
Defined.



(** ** Transfers that succeed *)

Lemma existsb_mismatch_false (d : UUID) (attached : list UUID) :
  existsb (fun dbID => negb (uuid_eqb dbID d)) attached = false ->
  Forall (eq d) attached.
Proof.
  induction attached as [|a l IH]; simpl; [constructor|].
  intros H. apply orb_false_iff in H. destruct H as [Ha Hl].
  apply negb_false_iff, uuid_eqb_eq in Ha. constructor; [congruence | auto].
Qed.

(** Authorization of a transfer.  A call that succeeds moved a stored
    non-system storage, for an actor who may manage both the workspace it
    was in and the target workspace, and every attached database (if any)
    was the one named in the call. *)
Theorem TransferStorageToWorkspace_success_authorized
    s user storageID targetWorkspaceID transferingWithDbID w w' :
  TransferStorageToWorkspace s user storageID targetWorkspaceID
    transferingWithDbID w = (Ok tt, w') ->
  exists existing attached,
    FindByID storageID w = (Ok existing, w) /\
    IsSystem existing = false /\
    CanUserManageDBs (workspaceService s) (WorkspaceID existing) user
      = Ok true /\
    CanUserManageDBs (workspaceService s) targetWorkspaceID user = Ok true /\
    GetStorageAttachedDatabasesIDs (storageDatabaseCounter s) (ID existing)
      = Ok attached /\
    match transferingWithDbID with
    | Some d => Forall (eq d) attached
    | None => attached = []
    end.
Proof.
  intros H. unfold TransferStorageToWorkspace in H. unfold_go. go_run H;
    repeat match goal with
    | E : FindByID _ _ = (Ok _, ?w0) |- _ =>
        pose proof (FindByID_state E); subst w0
    | E : CanUserManageDBs _ _ _ = Ok ?a, E' : negb ?a = false |- _ =>
        destruct a; [clear E' | discriminate E']
    end;
    match goal with
    | E : FindByID _ _ = (Ok ?x, _),
      E' : GetStorageAttachedDatabasesIDs _ _ = Ok ?l |- _ => exists x, l
    end;
    repeat (split; [first [assumption | reflexivity]|]).
  - now apply existsb_mismatch_false.
  - match goal with
    | E : (0 <? List.length ?l)%nat = false |- _ =>
        destruct l; [reflexivity | discriminate]
    end.
Qed.

(** Storage 105 moved to workspace B together with database 7. *)
Lemma TransferStorageToWorkspace_success_authorized_witness :
  exists existing attached,
    FindByID 105%N scenario.world = (Ok existing, scenario.world) /\
    IsSystem existing = false /\
    CanUserManageDBs (workspaceService scenario.service)
      (WorkspaceID existing) scenario.member = Ok true /\
    CanUserManageDBs (workspaceService scenario.service) scenario.workspaceB
      scenario.member = Ok true /\
    GetStorageAttachedDatabasesIDs
      (storageDatabaseCounter scenario.service) (ID existing) = Ok attached /\
    Forall (eq 7%N) attached.
Proof.
  apply (@TransferStorageToWorkspace_success_authorized scenario.service
           scenario.member 105%N scenario.workspaceB (Some 7%N)
           scenario.world
           (snd (TransferStorageToWorkspace scenario.service scenario.member
                   105%N scenario.workspaceB (Some 7%N) scenario.world))).
  vm_compute. reflexivity.
Defined.

(** ** Errors, the audit log and reads *)

Lemma Save_auditLogs s w r w' : Save s w = (r, w') -> auditLogs w' = auditLogs w.
Proof.
  unfold Save.
  destruct (uuid_eqb (ID s) uuid_Nil);
    [|destruct (existsb (hasID (ID s)) (storages w))];
    intros H; now inversion H.
Qed.

(** Check before write.  When [SaveStorage], [DeleteStorage] or
    [TransferStorageToWorkspace] returns an error (a refused permission, a
    violated constraint, a record that is not found, a failed encryption
    or validation, an error of a collaborator), neither the storages nor
    the audit log have changed. *)
Theorem mutations_atomic_on_error s user w e w' :
  (forall workspaceID storage,
     SaveStorage s user workspaceID storage w = (Err e, w') -> w' = w) /\
  (forall storageID,
     DeleteStorage s user storageID w = (Err e, w') -> w' = w) /\
  (forall storageID targetWorkspaceID transferingWithDbID,
     TransferStorageToWorkspace s user storageID targetWorkspaceID
       transferingWithDbID w = (Err e, w') ->
     w' = w).
Proof.
  repeat split; intros.
  - eapply SaveStorage_error_atomic; eassumption.
  - eapply DeleteStorage_error_atomic; eassumption.
  - eapply TransferStorageToWorkspace_error_atomic; eassumption.
Qed.

(** [outsider] is refused the deletion of storage 101; nothing changes. *)
Lemma mutations_atomic_on_error_witness :
  snd (DeleteStorage scenario.service scenario.outsider 101%N scenario.world)
  = scenario.world.
Proof.
  destruct (@mutations_atomic_on_error scenario.service scenario.outsider
              scenario.world ErrInsufficientPermissionsToManageStorage
              (snd (DeleteStorage scenario.service scenario.outsider 101%N
                      scenario.world))) as (_ & Hdelete & _).
  apply (Hdelete 101%N). vm_compute. reflexivity.
Defined.

(** Every successful write is logged once, under the actor.  A save logs
    under the workspace of the call, a deletion under the workspace that
    owned the storage, with its name, and a transfer under the target
    workspace; each appends exactly one entry. *)
Theorem mutations_audited s user w w' :
  (forall workspaceID storage,
     SaveStorage s user workspaceID storage w = (Ok tt, w') ->
     exists entry,
       auditLogs w' = (auditLogs w ++ [entry])%list /\
       audit_userID entry = Some (user_ID user) /\
       audit_workspaceID entry = Some workspaceID) /\
  (forall storageID storage,
     FindByID storageID w = (Ok storage, w) ->
     DeleteStorage s user storageID w = (Ok tt, w') ->
     auditLogs w' =
     (auditLogs w ++
      [{| audit_message := "Storage deleted: " ++ Name storage;
          audit_userID := Some (user_ID user);
          audit_workspaceID := Some (WorkspaceID storage) |}])%list) /\
  (forall storageID targetWorkspaceID transferingWithDbID,
     TransferStorageToWorkspace s user storageID targetWorkspaceID
       transferingWithDbID w = (Ok tt, w') ->
     exists entry,
       auditLogs w' = (auditLogs w ++ [entry])%list /\
       audit_userID entry = Some (user_ID user) /\
       audit_workspaceID entry = Some targetWorkspaceID).
Proof.
  split; [|split].
  - intros workspaceID storage H. apply SaveStorage_Ok_inv in H.
    now destruct H as (_ & _ & _ & _ & Hlog).
  - intros storageID storage Hfind H.
    destruct (DeleteStorage_Ok_inv _ _ _ Hfind H) as (_ & _ & _ & ->).
    reflexivity.
  - intros storageID targetWorkspaceID transferingWithDbID H.
    unfold TransferStorageToWorkspace in H. unfold_go. go_run H;
      repeat match goal with
      | E : FindByID _ _ = (Ok _, ?w0) |- _ =>
          pose proof (FindByID_state E); subst w0
      end;
      match goal with
      | E : Save _ _ = (_, _) |- _ => apply Save_auditLogs in E
      end;
      unfold WriteAuditLog in H; inversion H; subst; clear H; simpl;
      (eexists; split; [f_equal; eassumption | split; reflexivity]).
Qed.

(** The deletion of storage 101 by [member] is logged under workspace A. *)
Lemma mutations_audited_witness :
  auditLogs
    (snd (DeleteStorage scenario.service scenario.member 101%N
            scenario.world)) =
  [{| audit_message := "Storage deleted: disk";
      audit_userID := Some 2%N;
      audit_workspaceID := Some scenario.workspaceA |}].
Proof.
  destruct (@mutations_audited scenario.service scenario.member
              scenario.world
              (snd (DeleteStorage scenario.service scenario.member 101%N
                      scenario.world))) as (_ & Hdelete & _).
  apply (Hdelete 101%N
           (scenario.localRow 101%N scenario.workspaceA "disk" false));
    vm_compute; reflexivity.
Defined.

Ltac unchanged_world :=
  repeat match goal with
  | E : FindByID _ _ = _ |- _ => apply FindByID_state in E
  | E : (_, _) = (_, _) |- _ => inversion E; subst; clear E
  end;
  subst; reflexivity.

Lemma reads_never_write_aux s user w :
  (forall id r w', GetStorage s user id w = (r, w') -> w' = w) /\
  (forall workspaceID r w',
     GetStorages s user workspaceID w = (r, w') -> w' = w) /\
  (forall id r w', GetStorageByID s id w = (r, w') -> w' = w) /\
  (forall storage r w',
     TestStorageConnectionDirect s user storage w = (r, w') -> w' = w).
Proof.
  repeat split.
  - intros id r w' H. unfold GetStorage in H. unfold_go. go_run H;
      unchanged_world.
  - intros workspaceID r w' H. unfold GetStorages, FindByWorkspaceID in H.
    unfold_go. go_run H; unchanged_world.
  - intros id r w' H. unfold GetStorageByID in H.
    now apply FindByID_state in H.
  - intros storage r w' H. unfold TestStorageConnectionDirect in H.
    unfold_go. go_run H; unchanged_world.
Qed.


(** Reads do not write.  [GetStorage], [GetStorages], [GetStorageByID] and
    [TestStorageConnectionDirect] leave the storages and the audit log as
    they were, whatever they return; in particular the direct connection
    test persists nothing, neither the record it merged nor the outcome of
    the probe. *)
Theorem reads_never_write s user w :
  (forall id r w', GetStorage s user id w = (r, w') -> w' = w) /\
  (forall workspaceID r w',
     GetStorages s user workspaceID w = (r, w') -> w' = w) /\
  (forall id r w', GetStorageByID s id w = (r, w') -> w' = w) /\
  (forall storage r w',
     TestStorageConnectionDirect s user storage w = (r, w') -> w' = w).
Proof. exact (reads_never_write_aux s user w). Qed.

(** [member] reads storage 102 and the store is as before. *)
Lemma reads_never_write_witness :
  snd (GetStorage scenario.service scenario.member 102%N scenario.world)
  = scenario.world.
Proof.
  destruct (@reads_never_write scenario.service scenario.member
              scenario.world) as (Hget & _).
  apply (Hget 102%N
           (fst (GetStorage scenario.service scenario.member 102%N
                   scenario.world))).
  vm_compute. reflexivity.
Defined.

(** ** Testing a stored storage *)

(** Visible is not testable.  [TestStorageConnection] asks for view rights
    on the workspace that owns the storage, also for a system storage: an
    actor without them is refused and nothing is written, although
    [GetStorage] hands the same actor the system storage. *)
Theorem TestStorageConnection_needs_owner_access
    s user storageID w storage role :
  FindByID storageID w = (Ok storage, w) ->
  CanUserAccessWorkspace (workspaceService s) (WorkspaceID storage) user
    = Ok (false, role) ->
  TestStorageConnection s user storageID w
    = (Err ErrInsufficientPermissionsToTestStorage, w) /\
  (IsSystem storage = true ->
   GetStorage s user storageID w = (Ok (hideFor user storage), w)).
Proof.
  intros Hfind Hview. split.
  - unfold TestStorageConnection. unfold_go. now rewrite Hfind, Hview.
  - intros Hsys. unfold GetStorage, hideFor. unfold_go.
    now rewrite Hfind, Hsys.
Qed.

(** [outsider] sees the system storage 103 and may not test it. *)
Lemma TestStorageConnection_needs_owner_access_witness :
  TestStorageConnection scenario.service scenario.outsider 103%N
    scenario.world
    = (Err ErrInsufficientPermissionsToTestStorage, scenario.world) /\
  (IsSystem (scenario.localRow 103%N scenario.workspaceA "shared disk" true)
     = true ->
   GetStorage scenario.service scenario.outsider 103%N scenario.world
     = (Ok (hideFor scenario.outsider
              (scenario.localRow 103%N scenario.workspaceA "shared disk"
                 true)),
        scenario.world)).
Proof.
  apply (@TestStorageConnection_needs_owner_access scenario.service
           scenario.outsider 103%N scenario.world
           (scenario.localRow 103%N scenario.workspaceA "shared disk" true)
           None);
    vm_compute; reflexivity.
Defined.

(** A probe that succeeds clears the stored error.  For a stored storage
    and an actor with view rights, after a successful probe the record
    found under the id has no [lastSaveError] and every other field as it
    was; no other storage changes, none is added or removed, and nothing
    is logged. *)
Theorem TestStorageConnection_success_clears_error
    s user storageID w storage role :
  storageID <> uuid_Nil ->
  FindByID storageID w = (Ok storage, w) ->
  CanUserAccessWorkspace (workspaceService s) (WorkspaceID storage) user
    = Ok (true, role) ->
  TestConnection s (fieldEncryptor s) storage = None ->
  exists w' stored,
    TestStorageConnection s user storageID w = (Ok tt, w') /\
    FindByID storageID w' = (Ok stored, w') /\
    LastSaveError stored = None /\
    ID stored = ID storage /\
    WorkspaceID stored = WorkspaceID storage /\
    Type_ stored = Type_ storage /\
    Name stored = Name storage /\
    IsSystem stored = IsSystem storage /\
    samePayloads stored storage /\
    (forall id, id <> storageID ->
       fst (FindByID id w') = fst (FindByID id w)) /\
    List.length (storages w') = List.length (storages w) /\
    auditLogs w' = auditLogs w.
Proof.
  intros Hid Hfind Hview Hprobe.
  pose proof (FindByID_Ok _ _ Hfind) as (_ & _ & HidE).
  pose proof Hfind as Hrow. apply FindByID_find in Hrow.
  unfold TestStorageConnection. unfold_go.
  rewrite Hfind, Hview, Hprobe. cbv beta iota delta [negb].
  erewrite Save_stored;
    [| simpl; congruence | simpl; rewrite HidE; exact Hrow].
  eexists. exists (set_LastSaveError None storage).
  split; [reflexivity|].
  split; [| unfold samePayloads; simpl; repeat split; try reflexivity].
  - unfold FindByID. simpl.
    replace storageID with (ID (set_LastSaveError None storage))
      by exact HidE.
    rewrite find_replaceRow; [reflexivity|].
    simpl. rewrite HidE. eapply find_existsb_hasID; eassumption.
  - intros id Hne. rewrite !FindByID_fst. simpl.
    rewrite find_replaceRow_other; [reflexivity | simpl; congruence].
  - apply length_replaceRow.
Qed.

(** The local storage 101 carries the error "path is not writable" of an
    earlier save; it answers the probe of [member], and the error is
    gone. *)
Lemma TestStorageConnection_success_clears_error_witness :
  LastSaveError earlier.failedDisk = Some "path is not writable" /\
  exists w' stored,
    TestStorageConnection scenario.service scenario.member 101%N
      earlier.world = (Ok tt, w') /\
    FindByID 101%N w' = (Ok stored, w') /\
    LastSaveError stored = None /\
    ID stored = 101%N /\
    WorkspaceID stored = scenario.workspaceA /\
    Type_ stored = StorageTypeLocal /\
    Name stored = "disk" /\
    IsSystem stored = false /\
    samePayloads stored earlier.failedDisk /\
    (forall id, id <> 101%N ->
       fst (FindByID id w') = fst (FindByID id earlier.world)) /\
    List.length (storages w') = List.length (storages earlier.world) /\
    auditLogs w' = auditLogs earlier.world.
Proof.
  split; [reflexivity|].
  apply (@TestStorageConnection_success_clears_error scenario.service
           scenario.member 101%N earlier.world earlier.failedDisk
           (Some WorkspaceRoleMember));
    [discriminate | vm_compute; reflexivity | reflexivity | reflexivity].
Defined.

(** ** One write, one row *)

(** A transfer or a deletion touches the addressed storage only.  After a
    successful transfer every other id resolves as before and the number
    of storages is the same; after a successful deletion every other id
    resolves as before. *)
Theorem transfer_and_delete_touch_one_row s user storageID w w' :
  (forall targetWorkspaceID transferingWithDbID,
     storageID <> uuid_Nil ->
     TransferStorageToWorkspace s user storageID targetWorkspaceID
       transferingWithDbID w = (Ok tt, w') ->
     (forall id, id <> storageID ->
        fst (FindByID id w') = fst (FindByID id w)) /\
     List.length (storages w') = List.length (storages w)) /\
  (DeleteStorage s user storageID w = (Ok tt, w') ->
   forall id, id <> storageID -> fst (FindByID id w') = fst (FindByID id w)).
Proof.
  split.
  - intros targetWorkspaceID transferingWithDbID Hid H.
    unfold TransferStorageToWorkspace in H. unfold_go. go_run H;
      match goal with
      | E : FindByID _ _ = (Ok ?x, ?w0) |- _ =>
          pose proof (FindByID_state E); subst w0;
          pose proof E as Hrow; apply FindByID_find in Hrow;
          apply FindByID_Ok in E; destruct E as (_ & _ & HidE)
      end;
      match goal with
      | E : Save _ _ = (_, _) |- _ =>
          erewrite Save_stored in E;
            [| simpl; congruence | simpl; rewrite HidE; exact Hrow];
          inversion E; subst; clear E
      end;
      unfold WriteAuditLog in H; inversion H; subst; clear H;
      (split; [| apply length_replaceRow]);
      intros id Hne; rewrite !FindByID_fst; simpl;
      (rewrite find_replaceRow_other; [reflexivity | simpl; congruence]).
  - intros H id Hne.
    destruct (FindByID storageID w) as [[storage|e] w0] eqn:Hfind.
    + pose proof (FindByID_state Hfind); subst w0.
      pose proof (FindByID_Ok _ _ Hfind) as (_ & _ & HidE).
      destruct (DeleteStorage_Ok_inv _ _ _ Hfind H) as (_ & _ & _ & ->).
      rewrite !FindByID_fst. simpl. rewrite HidE.
      now rewrite find_filter_other.
    + unfold DeleteStorage in H. unfold_go. rewrite Hfind in H. discriminate.
Qed.

(** Storage 105 moves to workspace B; storage 102 is where it was. *)
Lemma transfer_and_delete_touch_one_row_witness :
  fst (FindByID 102%N
         (snd (TransferStorageToWorkspace scenario.service scenario.member
                 105%N scenario.workspaceB (Some 7%N) scenario.world)))
  = fst (FindByID 102%N scenario.world).
Proof.
  destruct (@transfer_and_delete_touch_one_row scenario.service
              scenario.member 105%N scenario.world
              (snd (TransferStorageToWorkspace scenario.service
                      scenario.member 105%N scenario.workspaceB (Some 7%N)
                      scenario.world))) as [Htransfer _].
  destruct (Htransfer scenario.workspaceB (Some 7%N)) as [Hothers _];
    [discriminate | vm_compute; reflexivity |].
  apply Hothers. discriminate.
Defined.

(** * The HTTP layer *)

Lemma Save_ID_Name s w saved w' :
  Save s w = (Ok saved, w') -> Name saved = Name s.
Proof.
  unfold Save.
  destruct (uuid_eqb (ID s) uuid_Nil);
    [|destruct (existsb (hasID (ID s)) (storages w))];
    intros H; inversion H; reflexivity.
Qed.

(** The handler's view of [SaveStorage] and the service's agree on the
    error and on the store. *)
Lemma SaveStorageInPlace_SaveStorage s user workspaceID storage w :
  SaveStorage s user workspaceID storage w =
  (match fst (SaveStorageInPlace s user workspaceID storage w) with
   | Ok _ => Ok tt
   | Err e => Err e
   end,
   snd (SaveStorageInPlace s user workspaceID storage w)).
Proof.
  unfold SaveStorage, SaveStorageInPlace. unfold_go.
  destruct (CanUserManageDBs (workspaceService s) workspaceID user)
    as [[|]|?]; cbv beta iota delta [negb]; try reflexivity.
  destruct (IsCloud s && StorageType_eqb (Type_ storage) StorageTypeLocal
            && notAdmin user); try reflexivity.
  destruct (IsSystem storage && notAdmin user); try reflexivity.
  destruct (uuid_eqb (ID storage) uuid_Nil); cbv beta iota.
  - destruct (EncryptSensitiveData (fieldEncryptor s)
                (set_WorkspaceID workspaceID storage)) as [encrypted|?];
      try reflexivity.
    destruct (Validate s (fieldEncryptor s) encrypted); try reflexivity.
    destruct (Save encrypted w) as [[saved|?] w1] eqn:ESave.
    + apply Save_ID_Name in ESave. rewrite ESave. reflexivity.
    + reflexivity.
  - destruct (FindByID (ID storage) w) as [[existing|?] w0];
      try reflexivity.
    destruct (uuid_eqb (WorkspaceID existing) workspaceID); try reflexivity.
    destruct (IsSystem existing && _); try reflexivity.
    destruct (EncryptSensitiveData (fieldEncryptor s)
                (Update existing storage)) as [encrypted|?];
      try reflexivity.
    destruct (Validate s (fieldEncryptor s) encrypted); try reflexivity.
    destruct (Save encrypted w0) as [[saved|?] w1]; reflexivity.
Qed.

(** ** Responses of the read endpoints *)

Lemma blanked_noSecrets fields :
  Forall
    (fun payload : option (list string) =>
       match payload with
       | Some l => Forall (eq "") l
       | None => True
       end)
    (blanked fields).
Proof.
  unfold blanked. apply Forall_forall. intros payload Hin.
  apply in_map_iff in Hin. destruct Hin as ([l|] & <- & _); simpl; [|exact I].
  apply Forall_forall. intros v Hv. apply in_map_iff in Hv.
  now destruct Hv as (? & <- & _).
Qed.

Lemma hideFor_noSecrets user storage : noSecrets (hideFor user storage).
Proof.
  unfold hideFor, noSecrets.
  destruct (IsSystem (HideSensitiveData storage) && notAdmin user).
  - simpl. repeat constructor.
  - rewrite HideSensitiveData_sensitive. apply blanked_noSecrets.
Qed.

(** No secret leaves through a read.  Whatever the request, the store and
    the collaborators, a storage in the body of a response of
    [GET /storages/:id] or [GET /storages] has every sensitive field
    empty. *)
Theorem read_endpoints_never_return_secrets c ctx w :
  bodyNoSecrets (body (fst (controller.GetStorage c ctx w))) /\
  bodyNoSecrets (body (fst (controller.GetStorages c ctx w))).
Proof.
  split.
  - unfold controller.GetStorage, JSON.
    destruct (GetUserFromContext ctx) as [user|]; [|exact I].
    destruct (ParamID ctx) as [id|]; [|exact I].
    destruct (GetStorage (storageService c) user id w) as [[r|e] w'] eqn:E.
    + unfold GetStorage in E. unfold_go. go_run E.
      all: inversion E; subst; simpl.
      all: match goal with
           | H : IsSystem (HideSensitiveData ?a) && notAdmin ?u = _ |- _ =>
               pose proof (hideFor_noSecrets u a) as Hn;
               unfold hideFor in Hn; rewrite H in Hn; exact Hn
           end.
    + now destruct (errors_Is e ErrInsufficientPermissionsToViewStorage).
  - unfold controller.GetStorages, JSON.
    destruct (GetUserFromContext ctx) as [user|]; [|exact I].
    destruct (QueryWorkspaceID ctx) as [| |workspaceID]; try exact I.
    destruct (GetStorages (storageService c) user workspaceID w)
      as [[r|e] w'] eqn:E.
    + unfold GetStorages, FindByWorkspaceID in E. unfold_go. go_run E.
      inversion E; subst; simpl.
      match goal with
      | H : (_, _) = (Ok ?l, _) |- _ => inversion H; subst
      end.
      apply Forall_forall. intros x Hx. apply in_map_iff in Hx.
      destruct Hx as (row & <- & _). exact (hideFor_noSecrets user row).
    + now destruct (errors_Is e ErrInsufficientPermissionsToViewStorages).
Qed.

(** ** What a refused request leaves behind *)

Lemma TestStorageConnection_error_atomic s user storageID w e w' :
  TestStorageConnection s user storageID w = (Err e, w') -> w' = w.
Proof. intros H. unfold TestStorageConnection in H. atomic H. Qed.

Lemma SaveStorageInPlace_error_atomic s user workspaceID storage w e w' :
  SaveStorageInPlace s user workspaceID storage w = (Err e, w') -> w' = w.
Proof.
  intros H.
  pose proof (SaveStorageInPlace_SaveStorage s user workspaceID storage w)
    as Hagree.
  rewrite H in Hagree. simpl in Hagree.
  now apply SaveStorage_error_atomic in Hagree.
Qed.

Ltac handler_cases :=
  unfold JSON;
  repeat match goal with
  | |- context [match ?x with _ => _ end] =>
      lazymatch x with
      | context [match _ with _ => _ end] => fail
      | _ => destruct x eqn:?
      end
  end.

(** Only a 200 writes.  For each of the seven endpoints and every request:
    when the status of the response is not 200, the storages and the audit
    log are as they were before the request. *)
Theorem refused_requests_write_nothing c ctx w :
  (status (fst (controller.SaveStorage c ctx w)) <> http.StatusOK ->
   snd (controller.SaveStorage c ctx w) = w) /\
  (status (fst (controller.GetStorage c ctx w)) <> http.StatusOK ->
   snd (controller.GetStorage c ctx w) = w) /\
  (status (fst (controller.GetStorages c ctx w)) <> http.StatusOK ->
   snd (controller.GetStorages c ctx w) = w) /\
  (status (fst (controller.DeleteStorage c ctx w)) <> http.StatusOK ->
   snd (controller.DeleteStorage c ctx w) = w) /\
  (status (fst (controller.TestStorageConnection c ctx w)) <> http.StatusOK ->
   snd (controller.TestStorageConnection c ctx w) = w) /\
  (status (fst (controller.TransferStorageToWorkspace c ctx w))
     <> http.StatusOK ->
   snd (controller.TransferStorageToWorkspace c ctx w) = w) /\
  (status (fst (controller.TestStorageConnectionDirect c ctx w))
     <> http.StatusOK ->
   snd (controller.TestStorageConnectionDirect c ctx w) = w).
Proof.
  repeat split.
  - unfold controller.SaveStorage. handler_cases; simpl; try reflexivity;
      try (intros Hs; now contradiction Hs);
      intros _; eapply SaveStorageInPlace_error_atomic; eassumption.
  - unfold controller.GetStorage. handler_cases; simpl; try reflexivity;
      intros _;
      match goal with
      | E : GetStorage _ _ _ _ = _ |- _ =>
          now apply (proj1 (reads_never_write_aux _ _ _)) in E
      end.
  - unfold controller.GetStorages. handler_cases; simpl; try reflexivity;
      intros _;
      match goal with
      | E : GetStorages _ _ _ _ = _ |- _ =>
          now apply (proj1 (proj2 (reads_never_write_aux _ _ _))) in E
      end.
  - unfold controller.DeleteStorage. handler_cases; simpl; try reflexivity;
      try (intros Hs; now contradiction Hs);
      intros _; eapply DeleteStorage_error_atomic; eassumption.
  - unfold controller.TestStorageConnection. handler_cases; simpl;
      try reflexivity; try (intros Hs; now contradiction Hs);
      intros _; eapply TestStorageConnection_error_atomic; eassumption.
  - unfold controller.TransferStorageToWorkspace. handler_cases; simpl;
      try reflexivity; try (intros Hs; now contradiction Hs);
      intros _; eapply TransferStorageToWorkspace_error_atomic; eassumption.
  - unfold controller.TestStorageConnectionDirect. handler_cases; simpl;
      try reflexivity; intros _;
      match goal with
      | E : TestStorageConnectionDirect _ _ _ _ = _ |- _ =>
          now apply (proj2 (proj2 (proj2 (reads_never_write_aux _ _ _)))) in E
      end.
Qed.

(** [outsider] asks for the deletion of storage 101 and gets a 403. *)
Lemma refused_requests_write_nothing_witness :
  snd (controller.DeleteStorage requests.controller
         (requests.forID scenario.outsider 101%N) scenario.world)
  = scenario.world.
Proof.
  destruct (@refused_requests_write_nothing requests.controller
              (requests.forID scenario.outsider 101%N) scenario.world)
    as (_ & _ & _ & Hdelete & _).
  apply Hdelete. vm_compute. discriminate.
Defined.

(** ** The transfer endpoint *)

(** The endpoint never names a database.  The handler calls the service
    without a database id, so for a stored non-system storage and an actor
    with management rights in both workspaces the response is 400 with the
    attachment message, and nothing is written, as soon as one database is
    attached; with none attached the response is 200 and the record then
    found under the id has the target as its [workspaceId] and every
    other field as before. *)
Theorem transfer_endpoint_refuses_attachments
    c ctx w user id request existing attached :
  GetUserFromContext ctx = Some user ->
  ParamID ctx = Some id ->
  BindTransfer ctx = Ok request ->
  TargetWorkspaceID request <> uuid_Nil ->
  id <> uuid_Nil ->
  FindByID id w = (Ok existing, w) ->
  IsSystem existing = false ->
  CanUserManageDBs (workspaceService (storageService c))
    (WorkspaceID existing) user = Ok true ->
  CanUserManageDBs (workspaceService (storageService c))
    (TargetWorkspaceID request) user = Ok true ->
  GetStorageAttachedDatabasesIDs (storageDatabaseCounter (storageService c))
    (ID existing) = Ok attached ->
  (attached <> [] ->
   controller.TransferStorageToWorkspace c ctx w =
   ({| status := http.StatusBadRequest;
       body :=
         ErrorBody "storage has attached databases and cannot be transferred"
    |}, w)) /\
  (attached = [] ->
   exists w' stored,
     controller.TransferStorageToWorkspace c ctx w =
     ({| status := http.StatusOK;
         body := MessageBody "storage transferred successfully" |}, w') /\
     FindByID id w' = (Ok stored, w') /\
     WorkspaceID stored = TargetWorkspaceID request /\
     ID stored = ID existing /\
     Type_ stored = Type_ existing /\
     Name stored = Name existing /\
     LastSaveError stored = LastSaveError existing /\
     IsSystem stored = IsSystem existing /\
     samePayloads stored existing).
Proof.
  intros Huser Hparam Hbind Htarget Hid Hfind Hsys Hsrc Htgt Hatt.
  pose proof (FindByID_Ok _ _ Hfind) as (_ & _ & HidE).
  pose proof Hfind as Hrow. apply FindByID_find in Hrow.
  unfold controller.TransferStorageToWorkspace.
  rewrite Huser, Hparam, Hbind.
  apply uuid_eqb_neq in Htarget. rewrite Htarget.
  unfold TransferStorageToWorkspace. unfold_go.
  rewrite Hfind, Hsys, Hsrc, Htgt, Hatt. cbv beta iota delta [negb].
  split.
  - intros Hne. destruct attached; [contradiction|]. reflexivity.
  - intros ->. cbv beta iota delta [List.length Nat.ltb Nat.leb].
    erewrite Save_stored;
      [| simpl; congruence | simpl; rewrite HidE; exact Hrow].
    unfold WriteAuditLog, JSON. eexists.
    exists (set_WorkspaceID (TargetWorkspaceID request) existing).
    split; [reflexivity|].
    split;
      [| unfold samePayloads; simpl;
         repeat split; first [reflexivity | exact Hsys]].
    unfold FindByID. simpl.
    replace id
      with (ID (set_WorkspaceID (TargetWorkspaceID request) existing))
      by exact HidE.
    rewrite find_replaceRow; [reflexivity|].
    simpl. rewrite HidE. eapply find_existsb_hasID; eassumption.
Qed.

(** Storage 105 backs up database 7: the endpoint cannot move it.
    Storage 101 backs up none: the endpoint moves it from workspace A to
    workspace B. *)
Lemma transfer_endpoint_refuses_attachments_witness :
  controller.TransferStorageToWorkspace requests.controller
    (requests.transfer scenario.member 105%N scenario.workspaceB)
    scenario.world =
  ({| status := http.StatusBadRequest;
      body :=
        ErrorBody "storage has attached databases and cannot be transferred"
   |}, scenario.world) /\
  WorkspaceID (scenario.localRow 101%N scenario.workspaceA "disk" false)
    = scenario.workspaceA /\
  exists w' stored,
    controller.TransferStorageToWorkspace requests.controller
      (requests.transfer scenario.member 101%N scenario.workspaceB)
      scenario.world =
    ({| status := http.StatusOK;
        body := MessageBody "storage transferred successfully" |}, w') /\
    FindByID 101%N w' = (Ok stored, w') /\
    WorkspaceID stored = scenario.workspaceB /\
    ID stored = 101%N /\
    Type_ stored = StorageTypeLocal /\
    Name stored = "disk" /\
    LastSaveError stored = None /\
    IsSystem stored = false /\
    samePayloads stored
      (scenario.localRow 101%N scenario.workspaceA "disk" false).
Proof.
  split; [| split; [reflexivity|]].
  2: {
    destruct (@transfer_endpoint_refuses_attachments requests.controller
                (requests.transfer scenario.member 101%N scenario.workspaceB)
                scenario.world scenario.member 101%N
                {| TargetWorkspaceID := scenario.workspaceB |}
                (scenario.localRow 101%N scenario.workspaceA "disk" false)
                []) as [_ Hmoved];
      [ reflexivity | reflexivity | reflexivity | discriminate | discriminate
      | vm_compute; reflexivity | reflexivity | reflexivity | reflexivity
      | reflexivity | ].
    apply Hmoved. reflexivity. }
  destruct (@transfer_endpoint_refuses_attachments requests.controller
              (requests.transfer scenario.member 105%N scenario.workspaceB)
              scenario.world scenario.member 105%N
              {| TargetWorkspaceID := scenario.workspaceB |}
              (scenario.localRow 105%N scenario.workspaceC "scratch" false)
              [7%N]) as [Hrefused _];
    [ reflexivity | reflexivity | reflexivity | discriminate | discriminate
    | vm_compute; reflexivity | reflexivity | reflexivity | reflexivity
    | reflexivity | ].
  apply Hrefused. discriminate.
Defined.

(** ** The save endpoint *)

Lemma Save_created s w saved w' :
  ID s = uuid_Nil ->
  Save s w = (Ok saved, w') ->
  saved = set_ID (nextID (storages w)) s.
Proof.
  unfold Save. intros ->. rewrite uuid_eqb_refl.
  intros H; now inversion H.
Qed.

(** What [POST /storages] answers with a 200.  For a create request (nil
    id) the body is the record as it is now stored: it has the id the
    repository assigned, the workspace named in the request, and it is
    what the repository returns for that id, so its sensitive fields are
    the stored ones, not blanked.  For an update request the body is the
    request as it was submitted. *)
Theorem SaveStorage_endpoint_response c ctx w user request response w' :
  GetUserFromContext ctx = Some user ->
  BindStorage ctx = Ok request ->
  controller.SaveStorage c ctx w = (response, w') ->
  status response = http.StatusOK ->
  (ID request = uuid_Nil ->
   exists created,
     body response = StorageBody created /\
     ID created <> uuid_Nil /\
     WorkspaceID created = WorkspaceID request /\
     FindByID (ID created) w' = (Ok created, w')) /\
  (ID request <> uuid_Nil -> body response = StorageBody request).
Proof.
  intros Huser Hbind H Hstatus. unfold controller.SaveStorage in H.
  rewrite Huser, Hbind in H. unfold JSON in H.
  destruct (uuid_eqb (WorkspaceID request) uuid_Nil);
    [inversion H; subst; discriminate|].
  destruct (SaveStorageInPlace (storageService c) user (WorkspaceID request)
              request w) as [[saved|e] w1] eqn:E.
  - inversion H; subst; clear H. simpl. clear Hstatus.
    unfold SaveStorageInPlace in E. unfold_go. split.
    + intros Hnil. rewrite Hnil, uuid_eqb_refl in E. simpl negb in E.
      go_run E.
      match goal with
      | He : EncryptSensitiveData _ _ = Ok ?x |- _ =>
          apply EncryptSensitiveData_Ok in He; destruct He as [Hh _];
          destruct Hh as (HidX & HwsX & _); simpl in HidX, HwsX
      end.
      match goal with
      | Hs : Save ?x w = (Ok ?y, ?w0) |- _ =>
          pose proof (Save_created x w (eq_sym (eq_trans (eq_sym Hnil) HidX))
                        Hs) as Hcreated;
          apply FindByID_Save in Hs
      end.
      inversion E; subst; clear E.
      match goal with
      | Hw : WriteAuditLog _ _ _ _ = _ |- _ =>
          apply WriteAuditLog_storages in Hw; destruct Hw as [_ Hst]
      end.
      eexists. split; [reflexivity|]. simpl.
      repeat split.
      * apply nextID_not_Nil.
      * congruence.
      * eapply FindByID_storages; eassumption.
    + intros Hid. apply uuid_eqb_neq in Hid. rewrite Hid in E.
      simpl negb in E. go_run E. now inversion E.
  - destruct (errors_Is e ErrInsufficientPermissionsToManageStorage
              || errors_Is e ErrLocalStorageNotAllowedInCloudMode);
      inversion H; subst; discriminate.
Qed.

(** [member] creates a local storage in workspace B. *)
Lemma SaveStorage_endpoint_response_witness :
  exists created,
    body (fst (controller.SaveStorage requests.controller
                 (requests.withStorage scenario.member scenario.createRequest)
                 scenario.world))
      = StorageBody created /\
    ID created <> uuid_Nil /\
    WorkspaceID created = scenario.workspaceB /\
    FindByID (ID created)
      (snd (controller.SaveStorage requests.controller
              (requests.withStorage scenario.member scenario.createRequest)
              scenario.world))
    = (Ok created,
       snd (controller.SaveStorage requests.controller
              (requests.withStorage scenario.member scenario.createRequest)
              scenario.world)).
Proof.
  destruct (@SaveStorage_endpoint_response requests.controller
              (requests.withStorage scenario.member scenario.createRequest)
              scenario.world scenario.member scenario.createRequest
              (fst (controller.SaveStorage requests.controller
                      (requests.withStorage scenario.member
                         scenario.createRequest)
                      scenario.world))
              (snd (controller.SaveStorage requests.controller
                      (requests.withStorage scenario.member
                         scenario.createRequest)
                      scenario.world)))
    as [Hcreate _];
    [ reflexivity | reflexivity | vm_compute; reflexivity | reflexivity | ].
  exact (Hcreate eq_refl).
Defined.

(** Status codes for system storages.  A user who is not a global
    administrator and submits a record as a system storage gets a 403,
    whether or not the user may manage the workspace, and nothing is
    written.  A request that would turn a stored system storage of the
    named workspace into a private one, from an actor who passes the
    permission gates, gets a 400 with the constraint message. *)
Theorem SaveStorage_endpoint_system_storage c ctx w user request :
  GetUserFromContext ctx = Some user ->
  BindStorage ctx = Ok request ->
  WorkspaceID request <> uuid_Nil ->
  (Role user <> UserRoleAdmin ->
   IsSystem request = true ->
   forall canManage,
     CanUserManageDBs (workspaceService (storageService c))
       (WorkspaceID request) user = Ok canManage ->
     status (fst (controller.SaveStorage c ctx w)) = http.StatusForbidden /\
     snd (controller.SaveStorage c ctx w) = w) /\
  (forall existing,
     ID request <> uuid_Nil ->
     FindByID (ID request) w = (Ok existing, w) ->
     IsSystem existing = true ->
     IsSystem request = false ->
     WorkspaceID existing = WorkspaceID request ->
     CanUserManageDBs (workspaceService (storageService c))
       (WorkspaceID request) user = Ok true ->
     IsCloud (storageService c)
       && StorageType_eqb (Type_ request) StorageTypeLocal
       && notAdmin user = false ->
     controller.SaveStorage c ctx w =
     ({| status := http.StatusBadRequest;
         body := ErrorBody "system storage cannot be changed to non-system" |},
      w)).
Proof.
  intros Huser Hbind Hws. apply uuid_eqb_neq in Hws.
  unfold controller.SaveStorage. rewrite Huser, Hbind, Hws.
  unfold SaveStorageInPlace. unfold_go. split.
  - intros Hrole Hsys canManage Hcan. apply notAdmin_true in Hrole.
    rewrite Hcan, Hsys, Hrole.
    destruct canManage; cbv beta iota delta [negb]; [|split; reflexivity].
    destruct (IsCloud (storageService c)
              && StorageType_eqb (Type_ request) StorageTypeLocal && true);
      split; reflexivity.
  - intros existing Hid Hfind Hsys Hpriv Hsame Hcan Hcloud.
    apply uuid_eqb_neq in Hid.
    rewrite Hcan, Hcloud, Hpriv, Hid. cbv beta iota delta [negb andb].
    rewrite Hfind, Hsame, uuid_eqb_refl, Hsys. reflexivity.
Qed.

(** [member] may manage workspace A and is refused a system storage. *)
Lemma SaveStorage_endpoint_system_storage_witness :
  status (fst (controller.SaveStorage requests.controller
                 (requests.withStorage scenario.member
                    (scenario.localRow uuid_Nil scenario.workspaceA
                       "shared" true))
                 scenario.world))
  = http.StatusForbidden.
Proof.
  destruct (@SaveStorage_endpoint_system_storage requests.controller
              (requests.withStorage scenario.member
                 (scenario.localRow uuid_Nil scenario.workspaceA "shared"
                    true))
              scenario.world scenario.member
              (scenario.localRow uuid_Nil scenario.workspaceA "shared" true))
    as [Hmember _]; [reflexivity | reflexivity | discriminate |].
  destruct (Hmember ltac:(discriminate) eq_refl true eq_refl) as [Hstatus _].
  exact Hstatus.
Defined.

(** ** The direct connection test *)

(** Stored secrets are probed only for those who may view them.  The
    direct test merges the request into the stored record of the same id
    and probes the result.  When the actor has no view rights on the
    workspace that owns that record, the response is never a 200,
    whatever workspace the request names and whatever the probe would
    answer, and nothing is written. *)
Theorem direct_test_endpoint_needs_owner_access
    c ctx w user request existing role :
  GetUserFromContext ctx = Some user ->
  BindStorage ctx = Ok request ->
  ID request <> uuid_Nil ->
  FindByID (ID request) w = (Ok existing, w) ->
  CanUserAccessWorkspace (controllerWorkspaceService c)
    (WorkspaceID existing) user = Ok (false, role) ->
  status (fst (controller.TestStorageConnectionDirect c ctx w))
    <> http.StatusOK /\
  snd (controller.TestStorageConnectionDirect c ctx w) = w.
Proof.
  intros Huser Hbind Hid Hfind Hview. apply uuid_eqb_neq in Hid.
  unfold controller.TestStorageConnectionDirect. rewrite Huser, Hbind.
  unfold JSON.
  destruct (uuid_eqb (WorkspaceID request) uuid_Nil);
    [split; [discriminate | reflexivity]|].
  destruct (CanUserAccessWorkspace (controllerWorkspaceService c)
              (WorkspaceID request) user) as [[canView role']|e] eqn:Eview;
    [|split; [discriminate | reflexivity]].
  destruct canView; cbv beta iota delta [negb];
    [|split; [discriminate | reflexivity]].
  assert (Hother : uuid_eqb (WorkspaceID existing) (WorkspaceID request)
                   = false).
  { apply uuid_eqb_neq. intros Heq. rewrite Heq in Hview. congruence. }
  unfold TestStorageConnectionDirect. unfold_go.
  destruct (IsCloud (storageService c)
            && StorageType_eqb (Type_ request) StorageTypeLocal
            && notAdmin user).
  - split; [discriminate | reflexivity].
  - rewrite Hid. cbv beta iota delta [negb]. rewrite Hfind, Hother.
    split; [discriminate | reflexivity].
Qed.

(** [outsider] names workspace A and storage 102 in a direct test. *)
Lemma direct_test_endpoint_needs_owner_access_witness :
  status (fst (controller.TestStorageConnectionDirect requests.controller
                 (requests.withStorage scenario.outsider scenario.updateOfS3)
                 scenario.world))
    <> http.StatusOK /\
  snd (controller.TestStorageConnectionDirect requests.controller
         (requests.withStorage scenario.outsider scenario.updateOfS3)
         scenario.world)
  = scenario.world.
Proof.
  apply (@direct_test_endpoint_needs_owner_access requests.controller
           (requests.withStorage scenario.outsider scenario.updateOfS3)
           scenario.world scenario.outsider scenario.updateOfS3
           (scenario.s3Row 102%N scenario.workspaceA "bucket"
              scenario.storedS3)
           None);
    [ reflexivity | reflexivity | discriminate | vm_compute; reflexivity
    | reflexivity ].
Defined.

(** * The edit form of the client *)





Lemma truthy_true value :
  EditStorageComponent.truthy value = true -> value <> "".
Proof. unfold EditStorageComponent.truthy. now destruct value. Qed.

Ltac split_andb :=
  repeat match goal with
  | H : _ && _ = true |- _ => apply andb_true_iff in H; destruct H
  | H : _ || _ = true |- _ => apply orb_true_iff in H; destruct H
  end.

(** Creating asks for a secret.  A new storage (no id) of any type but the
    local one passes the form only if a sensitive field of its payload is
    filled in. *)
Theorem create_form_needs_a_secret (s : Storage) :
  ID s = uuid_Nil ->
  Type_ s <> StorageTypeLocal ->
  EditStorageComponent.isAllDataFilled s = true ->
  exists fields value,
    In (Some fields) (sensitiveFields s) /\ In value fields /\ value <> "".
Proof.
  destruct s as [id ws ty name lse sys loc s3 gd nas az ftp sftp rc].
  unfold EditStorageComponent.isAllDataFilled, EditStorageComponent.field,
    sensitiveFields.
  simpl. intros -> Hty H. rewrite uuid_eqb_refl in H. simpl negb in H.
  destruct (negb (EditStorageComponent.truthy name)); [discriminate|].
  destruct ty; try contradiction.
  - destruct s3 as [[bucket region accessKey secretKey endpoint]|];
      simpl in H; [|discriminate]. split_andb.
    exists [accessKey; secretKey], accessKey. simpl.
    repeat split; auto using truthy_true.
  - destruct gd as [[clientID clientSecret tokenJSON]|];
      simpl in H; [|discriminate]. split_andb.
    exists [clientSecret; tokenJSON], clientSecret. simpl.
    repeat split; auto 6 using truthy_true.
  - destruct nas as [[host port share username password useSSL domain path]|];
      simpl in H; [|discriminate]. split_andb.
    exists [password], password. simpl.
    repeat split; auto 6 using truthy_true.
  - destruct az as [[[|] connectionString accountName accountKey
                       containerName endpoint prefix]|];
      simpl in H; [| |discriminate]; split_andb.
    + exists [connectionString; accountKey], connectionString. simpl.
      repeat split; auto 8 using truthy_true.
    + exists [connectionString; accountKey], accountKey. simpl.
      repeat split; auto 8 using truthy_true.
  - destruct ftp as [[host port username password useSSL path]|];
      simpl in H; [|discriminate]. split_andb.
    exists [password], password. simpl.
    repeat split; auto 8 using truthy_true.
  - destruct sftp as [[host port username password privateKey skip path]|];
      simpl in H; [|discriminate]. split_andb.
    + exists [password; privateKey], password. simpl.
      repeat split; auto 9 using truthy_true.
    + exists [password; privateKey], privateKey. simpl.
      repeat split; auto 9 using truthy_true.
  - destruct rc as [[configContent remotePath]|];
      simpl in H; [|discriminate].
    exists [configContent], configContent. simpl.
    repeat split; auto 10 using truthy_true.
Qed.

(** A new S3 storage with its keys filled in passes the form. *)
Lemma create_form_needs_a_secret_witness :
  exists fields value,
    In (Some fields)
      (sensitiveFields
         (scenario.s3Row uuid_Nil scenario.workspaceA "bucket"
            scenario.storedS3)) /\
    In value fields /\ value <> "".
Proof.
  apply create_form_needs_a_secret;
    [reflexivity | discriminate | reflexivity].
Defined.

(** The edit form is never stricter than the create form.  A record that
    passes the form as a new storage passes it under any id. *)
Theorem form_filled_for_create_is_filled_for_edit (s : Storage) (id : UUID) :
  ID s = uuid_Nil ->
  EditStorageComponent.isAllDataFilled s = true ->
  EditStorageComponent.isAllDataFilled (set_ID id s) = true.
Proof.
  destruct s as [id0 ws ty name lse sys loc s3 gd nas az ftp sftp rc].
  unfold EditStorageComponent.isAllDataFilled, EditStorageComponent.field.
  simpl. intros -> H. rewrite uuid_eqb_refl in H. simpl negb in H.
  destruct (negb (EditStorageComponent.truthy name)); [discriminate|].
  destruct (negb (uuid_eqb id uuid_Nil)); [|exact H].
  destruct ty; try reflexivity.
  - destruct s3 as [[]|]; simpl in *; [|discriminate]. now split_andb.
  - destruct gd as [[]|]; simpl in *; [|discriminate]. now split_andb.
  - destruct nas as [[]|]; simpl in *; [|discriminate]. split_andb.
    repeat (apply andb_true_iff; split); assumption.
  - destruct az as [[[|]]|]; simpl in *; try discriminate; now split_andb.
  - destruct ftp as [[]|]; simpl in *; [|discriminate]. split_andb.
    repeat (apply andb_true_iff; split); assumption.
  - destruct sftp as [[]|]; simpl in *; [|discriminate].
    split_andb; repeat (apply andb_true_iff; split); assumption.
Qed.

Lemma form_filled_for_create_is_filled_for_edit_witness :
  EditStorageComponent.isAllDataFilled
    (set_ID 7%N
       (scenario.s3Row uuid_Nil scenario.workspaceA "bucket"
          scenario.storedS3))
  = true.
Proof.
  apply form_filled_for_create_is_filled_for_edit; reflexivity.
Defined.

(** * The e-mail notifier *)

(** Hide and update fit together.  Sending back what [HideSensitiveData]
    returned changes nothing; and what a viewer sees after any update is
    what was submitted (under the identity of the stored notifier). *)
Theorem EmailNotifier_hide_update_round_trip
    (e incoming : email_notifier.EmailNotifier) :
  email_notifier.Update e (email_notifier.HideSensitiveData e) = e /\
  email_notifier.HideSensitiveData (email_notifier.Update e incoming)
  = email_notifier.HideSensitiveData
      {| email_notifier.NotifierID := email_notifier.NotifierID e;
         email_notifier.TargetEmail := email_notifier.TargetEmail incoming;
         email_notifier.SMTPHost := email_notifier.SMTPHost incoming;
         email_notifier.SMTPPort := email_notifier.SMTPPort incoming;
         email_notifier.SMTPUser := email_notifier.SMTPUser incoming;
         email_notifier.SMTPPassword :=
           email_notifier.SMTPPassword incoming;
         email_notifier.From_ := email_notifier.From_ incoming |}.
Proof. split; [now destruct e | reflexivity]. Qed.

(** Authentication cannot be removed by an update.  Once a password is
    stored, an update that submits an empty user leaves the password in
    place (an empty submitted password means "unchanged"), and the
    notifier no longer validates. *)
Theorem EmailNotifier_update_cannot_clear_credentials
    (encryptor : FieldEncryptor)
    (e incoming : email_notifier.EmailNotifier) :
  email_notifier.SMTPPassword e <> "" ->
  email_notifier.SMTPUser incoming = "" ->
  email_notifier.Validate encryptor (email_notifier.Update e incoming)
    <> None.
Proof.
  intros Hpwd Huser. unfold email_notifier.Validate, email_notifier.Update.
  simpl. rewrite Huser. simpl isEmpty at 3.
  destruct (isEmpty (email_notifier.TargetEmail incoming)); [discriminate|].
  destruct (isEmpty (email_notifier.SMTPHost incoming)); [discriminate|].
  destruct (email_notifier.SMTPPort incoming =? 0)%Z; [discriminate|].
  assert (Hkept :
    isEmpty
      (if negb (isEmpty (email_notifier.SMTPPassword incoming))
       then email_notifier.SMTPPassword incoming
       else email_notifier.SMTPPassword e) = false).
  { destruct (isEmpty (email_notifier.SMTPPassword incoming)) eqn:E; simpl.
    - now apply isEmpty_false.
    - exact E. }
  rewrite Hkept. discriminate.
Qed.

Lemma EmailNotifier_update_cannot_clear_credentials_witness :
  email_notifier.Validate sealed_box.encryptor
    (email_notifier.Update notifications.stored
       notifications.withoutCredentials)
  <> None.
Proof.
  apply EmailNotifier_update_cannot_clear_credentials;
    [discriminate | reflexivity].
Defined.

(** A kept password is encrypted again.  After an update that submits an
    empty password, [EncryptSensitiveData] hands the stored value, which
    is already a ciphertext, to the encryptor once more; what is saved for
    the password is the encryptor's answer to it.  The stored secret
    survives a partial update only where the encryptor returns a
    ciphertext unchanged. *)
Theorem EmailNotifier_partial_update_reencrypts
    (encryptor : FieldEncryptor)
    (e incoming saved : email_notifier.EmailNotifier) :
  email_notifier.SMTPPassword incoming = "" ->
  email_notifier.SMTPPassword e <> "" ->
  email_notifier.EncryptSensitiveData encryptor
    (email_notifier.Update e incoming) = Ok saved ->
  Encrypt encryptor (email_notifier.NotifierID e)
    (email_notifier.SMTPPassword e)
  = Ok (email_notifier.SMTPPassword saved).
Proof.
  intros Hempty Hstored.
  unfold email_notifier.EncryptSensitiveData, email_notifier.Update.
  simpl. rewrite Hempty. simpl.
  apply isEmpty_false in Hstored. rewrite Hstored. simpl.
  destruct (Encrypt encryptor (email_notifier.NotifierID e)
              (email_notifier.SMTPPassword e));
    intros H; inversion H; reflexivity.
Qed.

(** With the box of this development the stored "enc:500:secret" comes
    back sealed a second time. *)
Lemma EmailNotifier_partial_update_reencrypts_witness :
  Encrypt sealed_box.encryptor 500%N "enc:500:secret"
  = Ok "enc:500:enc:500:secret".
Proof.
  apply (@EmailNotifier_partial_update_reencrypts sealed_box.encryptor
           notifications.stored notifications.newRecipient
           {| email_notifier.NotifierID := 500%N;
              email_notifier.TargetEmail := "oncall@example.com";
              email_notifier.SMTPHost := "smtp.example.com";
              email_notifier.SMTPPort := 587%Z;
              email_notifier.SMTPUser := "mailer";
              email_notifier.SMTPPassword := "enc:500:enc:500:secret";
              email_notifier.From_ := "" |});
    [reflexivity | discriminate | reflexivity].
Defined.



(** * Retention periods of the client *)

Lemma allPeriods_complete (p : EditBackupConfigComponent.Period) :
  In p EditBackupConfigComponent.allPeriods.
Proof. destruct p; simpl; tauto. Qed.

(** [isPeriodAllowed] is a total order on the periods, with one day at
    the bottom and [FOREVER] at the top. *)
Theorem isPeriodAllowed_total_order
    (a b c : EditBackupConfigComponent.Period) :
  EditBackupConfigComponent.isPeriodAllowed a a = true /\
  (EditBackupConfigComponent.isPeriodAllowed a b = true ->
   EditBackupConfigComponent.isPeriodAllowed b c = true ->
   EditBackupConfigComponent.isPeriodAllowed a c = true) /\
  (EditBackupConfigComponent.isPeriodAllowed a b = true ->
   EditBackupConfigComponent.isPeriodAllowed b a = true -> a = b) /\
  (EditBackupConfigComponent.isPeriodAllowed a b = true \/
   EditBackupConfigComponent.isPeriodAllowed b a = true) /\
  EditBackupConfigComponent.isPeriodAllowed
    EditBackupConfigComponent.DAY a = true /\
  EditBackupConfigComponent.isPeriodAllowed a
    EditBackupConfigComponent.FOREVER = true.
Proof.
  repeat split.
  - now destruct a.
  - destruct a, b; try discriminate; destruct c; trivial.
  - destruct a, b; trivial; discriminate.
  - destruct a, b; (left; reflexivity) || (right; reflexivity).
  - now destruct a.
  - now destruct a.
Qed.

Lemma isPeriodAllowed_total_order_witness :
  EditBackupConfigComponent.isPeriodAllowed
    EditBackupConfigComponent.WEEK EditBackupConfigComponent.TWO_YEARS
  = true.
Proof.
  apply (isPeriodAllowed_total_order EditBackupConfigComponent.WEEK
           EditBackupConfigComponent.YEAR
           EditBackupConfigComponent.TWO_YEARS);
    reflexivity.
Defined.

(** Under a plan the options offered are exactly the periods up to the
    plan's maximum: the maximum itself is always offered, so the list is
    never empty, and every period is offered exactly when the maximum is
    [FOREVER], as it is without a plan. *)
Theorem availablePeriods_capped_by_plan
    (plan : EditBackupConfigComponent.DatabasePlan) :
  (forall p,
     In p (EditBackupConfigComponent.availablePeriods (Some plan)) <->
     EditBackupConfigComponent.isPeriodAllowed p
       (EditBackupConfigComponent.maxStoragePeriod plan) = true) /\
  In (EditBackupConfigComponent.maxStoragePeriod plan)
    (EditBackupConfigComponent.availablePeriods (Some plan)) /\
  (EditBackupConfigComponent.availablePeriods (Some plan)
   = EditBackupConfigComponent.availablePeriods None <->
   EditBackupConfigComponent.maxStoragePeriod plan
   = EditBackupConfigComponent.FOREVER).
Proof.
  assert (Hiff : forall p,
     In p (EditBackupConfigComponent.availablePeriods (Some plan)) <->
     EditBackupConfigComponent.isPeriodAllowed p
       (EditBackupConfigComponent.maxStoragePeriod plan) = true).
  { intros p. unfold EditBackupConfigComponent.availablePeriods.
    rewrite filter_In. split; [tauto|].
    intros H. split; [apply allPeriods_complete | exact H]. }
  split; [exact Hiff|]. split.
  - apply Hiff. now destruct (EditBackupConfigComponent.maxStoragePeriod plan).
  - split.
    + intros Heq.
      assert (Hin : In EditBackupConfigComponent.FOREVER
                (EditBackupConfigComponent.availablePeriods (Some plan))).
      { rewrite Heq. apply allPeriods_complete. }
      apply Hiff in Hin.
      destruct (EditBackupConfigComponent.maxStoragePeriod plan);
        trivial; discriminate.
    + intros Hmax. unfold EditBackupConfigComponent.availablePeriods.
      now rewrite Hmax.
Qed.

(** The default plan restricts the periods exactly in cloud mode, where
    it offers one day and one week. *)
Theorem createDefaultPlan_periods (databaseId : string) (isCloud : bool) :
  EditBackupConfigComponent.availablePeriods
    (Some (EditBackupConfigComponent.createDefaultPlan databaseId isCloud))
  = if isCloud
    then [EditBackupConfigComponent.DAY; EditBackupConfigComponent.WEEK]
    else EditBackupConfigComponent.availablePeriods None.
Proof. now destruct isCloud. Qed.


Lemma availablePeriods_capped_by_plan_witness :
  In EditBackupConfigComponent.DAY
    (EditBackupConfigComponent.availablePeriods
       (Some (EditBackupConfigComponent.createDefaultPlan "" true))).
Proof.
  apply (proj1 (availablePeriods_capped_by_plan
                  (EditBackupConfigComponent.createDefaultPlan "" true))).
  reflexivity.
Defined.
